(** * consultarcnpj: the multi-source reconciliation engine

    A shallow embedding of the script that queries three registry
    providers (CNPJ.A, ReceitaWS, MinhaReceita), renders the first
    answer, lets ReceitaWS override it, and derives a tax-regime
    consensus from the providers' reports; together with the CNPJ
    check-digit validator.

    JavaScript values are a small inductive type, the closure variables
    of [consultarCNPJ] are a record threaded through a state-and-log
    monad, everything the script does to the page is an entry of the
    log, and whether a render call returns or throws is a parameter of
    the handlers. *)

From Stdlib Require Import String Ascii List ZArith Bool Arith Lia Permutation.
Import ListNotations.
Local Open Scope string_scope.
Local Open Scope list_scope.

(* ================================================================== *)
(** ** JavaScript values *)
(* ================================================================== *)

(** What [JSON.parse] and [response.json()] can hand to the script, plus
    [undefined] for absent properties. Numbers are only ever tested for
    truthiness here, so integers stand for them. An object is the list of
    its own properties. *)
#[local] Set Warnings "-register-all".

Inductive JsValue : Type :=
| JUndefined
| JNull
| JBool (b : bool)
| JNum (n : Z)
| JStr (s : string)
| JArr (items : list JsValue)
| JObj (fields : list (string * JsValue)).

(** [if (v)] / [!v]. *)
Definition truthy (v : JsValue) : bool :=
  match v with
  | JUndefined | JNull => false
  | JBool b => b
  | JNum n => negb (n =? 0)%Z
  | JStr s => negb (s =? "")
  | JArr _ | JObj _ => true
  end.

Fixpoint lookup (k : string) (fields : list (string * JsValue)) : JsValue :=
  match fields with
  | [] => JUndefined
  | (k', v) :: rest => if k =? k' then v else lookup k rest
  end.

(** [v.k]: a [TypeError] ([None]) on [null] and [undefined], the property
    on an object, [undefined] on the other primitives and on arrays (none of
    the property names the script reads is built in there). *)
Definition member (v : JsValue) (k : string) : option JsValue :=
  match v with
  | JUndefined | JNull => None
  | JObj fields => Some (lookup k fields)
  | _ => Some JUndefined
  end.

(** [v?.k]. It is also [v.k] wherever [v] is known to be truthy. *)
Definition optMember (v : JsValue) (k : string) : JsValue :=
  match member v k with
  | Some x => x
  | None => JUndefined
  end.

Notation "v '?.' k" := (optMember v k) (at level 25, left associativity).

(** [v === true], [v === false]. *)
Definition strictEqBool (v : JsValue) (b : bool) : bool :=
  match v with
  | JBool b' => Bool.eqb b' b
  | _ => false
  end.

(** [v === "..."]. *)
Definition strictEqStr (v : JsValue) (s : string) : bool :=
  match v with
  | JStr s' => s' =? s
  | _ => false
  end.

(** [Array.prototype.includes] on an array of strings. *)
Definition includes (l : list string) (x : string) : bool :=
  existsb (fun r => r =? x) l.

(* ================================================================== *)
(** ** Tax regime extraction and display *)
(* ================================================================== *)

(** [getTaxRegimeFromData]. After the [!data] guard [data] is truthy, so
    [data.k] cannot throw and coincides with [data?.k]. *)
Definition getTaxRegimeFromData (data : JsValue) : string :=
  if negb (truthy data) then "Outros"
  else if strictEqBool (data ?. "opcao_pelo_mei") true
       || strictEqBool (data ?. "simei" ?. "optante") true
       || strictEqBool (data ?. "company" ?. "simei" ?. "optant") true
  then "SIMEI"
  else if strictEqBool (data ?. "opcao_pelo_simples") true
       || strictEqBool (data ?. "simples" ?. "optante") true
       || strictEqBool (data ?. "company" ?. "simples" ?. "optant") true
  then "Simples"
  else if strictEqBool (data ?. "opcao_pelo_simples") false
       || strictEqBool (data ?. "simples" ?. "optant") false
       || strictEqBool (data ?. "company" ?. "simples" ?. "optant") false
  then "Normal"
  else "Outros".

(** One entry of [taxRegimeConsensus.sources]. *)
Record Source : Type := mkSource { api : string; regime : string }.

(** The [taxRegimeConsensus] object; [confirmed] starts as [null]
    ([None]). *)
Record TaxRegimeConsensus : Type := mkConsensus {
  sources : list Source;
  confirmed : option string;
  needsWarning : bool
}.

Record RegimeInfo : Type := mkRegimeInfo { text : string; class : string }.

Definition regimeMap : list (string * string) :=
  [ ("SIMEI", "S I M E I");
    ("Simples", "Simples");
    ("Normal", "Trib: Normal");
    ("Outros", "Trib: Outros") ].

Fixpoint assoc (k : string) (m : list (string * string)) : option string :=
  match m with
  | [] => None
  | (k', v) :: rest => if k =? k' then Some v else assoc k rest
  end.

(** The warning sign appended by [getTaxRegimeInfo]. *)
Definition warningIcon : string := " ‚ö†Ô∏è".

(** [getTaxRegimeInfo]. [regimeMap[null]] is [undefined], and no entry of
    the map is an empty string, so [||] falls back exactly when the key is
    missing. [confirmed] only ever holds [null] or one of the four keys,
    so the properties that the object literal inherits are never looked
    up. *)
Definition getTaxRegimeInfo (consensus : TaxRegimeConsensus) : RegimeInfo :=
  let text :=
    match confirmed consensus with
    | Some c => match assoc c regimeMap with
                | Some t => t
                | None => "Trib: Outros"
                end
    | None => "Trib: Outros"
    end in
  let icon := if needsWarning consensus then warningIcon else "" in
  mkRegimeInfo (text ++ icon) "tax-regime-bar".

(* ================================================================== *)
(** ** The orchestrator: closure state, page effects, handlers *)
(* ================================================================== *)

(** The three promises of step 5, each resolving with its adapter's
    value. *)
Inductive Provider : Type := CNPJA | ReceitaWS | MinhaReceita.

(** Whether a [renderCardFrom...] call returns. Each of the three
    functions builds the whole card as one template literal and assigns
    it to [container.innerHTML] as its last step, so a call either writes
    the card and returns, or throws while the template is evaluated (a
    [TypeError], as from [formatarCNPJ] on a [cnpj] that is a number) and
    writes nothing. Which of the two happens depends on the record; the
    consensus object only contributes the two strings of
    [getTaxRegimeInfo]. The templates themselves are not embedded: the
    handlers are studied for every outcome of the calls they make. *)
Definition Rendering : Type := Provider -> JsValue -> bool.

(** What one call of [consultarCNPJ] does to the page and the console,
    in the order it does it. A render entry is a card written to the
    page, and carries the consensus object as it is then; a render call
    that throws writes nothing and leaves no entry. An
    [UpdateCardWithIEData] entry is a call of that function. *)
Inductive Effect : Type :=
| ConsoleLog (msg : string)
| ConsoleError (msg : string)
| HideLoading
| MostrarErro (mensagem : string)
| UpdateTaxRegimeDisplay (info : RegimeInfo)
| RenderCardFromReceitaWS (data : JsValue) (consensus : TaxRegimeConsensus)
| RenderCardFromCNPJA (data : JsValue) (consensus : TaxRegimeConsensus)
| RenderCardFromMinhaReceita (data : JsValue) (consensus : TaxRegimeConsensus)
| UpdateCardWithIEData (cnpjaData : JsValue) (mainState : JsValue)
| AddWarningMessage (mensagem : string).

(** The [let] variables that the handlers close over. *)
Record Request : Type := mkRequest {
  cnpjaDataCache : JsValue;
  receitaWsDataCache : JsValue;
  minhaReceitaDataCache : JsValue;
  hasRendered : bool;
  failedApiCount : nat;
  taxRegimeConsensus : TaxRegimeConsensus
}.

Definition TOTAL_APIS : nat := 3.

(** The state the handlers start from. *)
Definition initialRequest : Request :=
  {| cnpjaDataCache := JNull;
     receitaWsDataCache := JNull;
     minhaReceitaDataCache := JNull;
     hasRendered := false;
     failedApiCount := 0;
     taxRegimeConsensus :=
       {| sources := []; confirmed := None; needsWarning := false |} |}.

Module OrchMonad.

(** State passing with an effect log. *)
Definition Orch (A : Type) : Type := Request -> A * Request * list Effect.

Definition ret {A} (a : A) : Orch A := fun s => (a, s, []).

Definition bind {A B} (m : Orch A) (k : A -> Orch B) : Orch B :=
  fun s =>
    let '(a, s1, l1) := m s in
    let '(b, s2, l2) := k a s1 in
    (b, s2, l1 ++ l2).

Definition gets {A} (f : Request -> A) : Orch A := fun s => (f s, s, []).

Definition modify (f : Request -> Request) : Orch unit := fun s => (tt, f s, []).

Definition emit (e : Effect) : Orch unit := fun s => (tt, s, [e]).

Definition when (b : bool) (m : Orch unit) : Orch unit :=
  if b then m else ret tt.

Definition exec {A} (m : Orch A) (s : Request) : Request := snd (fst (m s)).
Definition logOf {A} (m : Orch A) (s : Request) : list Effect := snd (m s).

End OrchMonad.
Import OrchMonad.

Declare Scope orch_scope.
Delimit Scope orch_scope with orch.
Notation "x <- c1 ;; c2" := (bind c1 (fun x => c2))
  (at level 61, c1 at next level, right associativity) : orch_scope.
Notation "c1 ;; c2" := (bind c1 (fun _ => c2))
  (at level 61, right associativity) : orch_scope.
Local Open Scope orch_scope.

(** Assignments to the closure variables. *)
Definition set_cnpjaDataCache (v : JsValue) (s : Request) : Request :=
  mkRequest v (receitaWsDataCache s) (minhaReceitaDataCache s) (hasRendered s)
            (failedApiCount s) (taxRegimeConsensus s).
Definition set_receitaWsDataCache (v : JsValue) (s : Request) : Request :=
  mkRequest (cnpjaDataCache s) v (minhaReceitaDataCache s) (hasRendered s)
            (failedApiCount s) (taxRegimeConsensus s).
Definition set_minhaReceitaDataCache (v : JsValue) (s : Request) : Request :=
  mkRequest (cnpjaDataCache s) (receitaWsDataCache s) v (hasRendered s)
            (failedApiCount s) (taxRegimeConsensus s).
Definition set_hasRendered (b : bool) (s : Request) : Request :=
  mkRequest (cnpjaDataCache s) (receitaWsDataCache s) (minhaReceitaDataCache s) b
            (failedApiCount s) (taxRegimeConsensus s).
Definition set_failedApiCount (n : nat) (s : Request) : Request :=
  mkRequest (cnpjaDataCache s) (receitaWsDataCache s) (minhaReceitaDataCache s)
            (hasRendered s) n (taxRegimeConsensus s).
Definition set_taxRegimeConsensus (c : TaxRegimeConsensus) (s : Request) : Request :=
  mkRequest (cnpjaDataCache s) (receitaWsDataCache s) (minhaReceitaDataCache s)
            (hasRendered s) (failedApiCount s) c.

Definition push_source (x : Source) (c : TaxRegimeConsensus) : TaxRegimeConsensus :=
  mkConsensus (sources c ++ [x]) (confirmed c) (needsWarning c).
Definition set_confirmed (r : string) (c : TaxRegimeConsensus) : TaxRegimeConsensus :=
  mkConsensus (sources c) (Some r) (needsWarning c).
Definition set_needsWarning (b : bool) (c : TaxRegimeConsensus) : TaxRegimeConsensus :=
  mkConsensus (sources c) (confirmed c) b.

Definition modifyConsensus (f : TaxRegimeConsensus -> TaxRegimeConsensus) : Orch unit :=
  modify (fun s => set_taxRegimeConsensus (f (taxRegimeConsensus s)) s).

(** [r === taxRegimeConsensus.confirmed] for a string [r]. *)
Definition eqConfirmed (c : option string) (r : string) : bool :=
  match c with
  | Some x => r =? x
  | None => false
  end.

(** [updateTaxRegimeDisplay]: the entry stands for the assignment to the
    [.tax-regime-bar] element, which the page skips when no card is
    drawn. *)
Definition updateTaxRegimeDisplay : Orch unit :=
  c <- gets taxRegimeConsensus ;;
  emit (UpdateTaxRegimeDisplay (getTaxRegimeInfo c)).

(** [updateTaxConsensus]. [regimes] is recomputed from all of [sources]
    at every call. The subtraction is exact: the filtered list is never
    longer than the list. *)
Definition updateTaxConsensus (apiName : string) (data : JsValue) : Orch unit :=
  let regime' := getTaxRegimeFromData data in
  modifyConsensus (push_source (mkSource apiName regime')) ;;
  c <- gets taxRegimeConsensus ;;
  let regimes := map regime (sources c) in
  (if includes regimes "SIMEI" then modifyConsensus (set_confirmed "SIMEI")
   else if includes regimes "Simples" then modifyConsensus (set_confirmed "Simples")
   else if includes regimes "Normal" then modifyConsensus (set_confirmed "Normal")
   else modifyConsensus (set_confirmed "Outros")) ;;
  c <- gets taxRegimeConsensus ;;
  let votesForConfirmed := length (filter (eqConfirmed (confirmed c)) regimes) in
  let dissentingVotes := length regimes - votesForConfirmed in
  modifyConsensus (set_needsWarning (votesForConfirmed <=? dissentingVotes)%nat) ;;
  h <- gets hasRendered ;;
  when h updateTaxRegimeDisplay.

(** [handleFailure]. *)
Definition handleFailure (apiName : string) : Orch unit :=
  emit (ConsoleError (apiName ++ " API failed or returned no data.")) ;;
  modify (fun s => set_failedApiCount (S (failedApiCount s)) s) ;;
  n <- gets failedApiCount ;;
  when (n =? TOTAL_APIS)%nat
    (emit HideLoading ;;
     emit (MostrarErro "Todas as fontes de dados falharam. Tente novamente mais tarde.")).

Definition preliminaryNotice : string :=
  "Exibindo dados preliminares. Atualizando com a fonte principal...".

(** The calls of the three render functions, with [resultsDiv] as the
    container. The value is [true] when the call returned and [false]
    when it threw. *)
Definition renderCardFromReceitaWS (renders : Rendering) (data : JsValue)
  (consensus : TaxRegimeConsensus) : Orch bool :=
  if renders ReceitaWS data
  then emit (RenderCardFromReceitaWS data consensus) ;; ret true
  else ret false.

Definition renderCardFromCNPJA (renders : Rendering) (data : JsValue)
  (consensus : TaxRegimeConsensus) : Orch bool :=
  if renders CNPJA data
  then emit (RenderCardFromCNPJA data consensus) ;; ret true
  else ret false.

Definition renderCardFromMinhaReceita (renders : Rendering) (data : JsValue)
  (consensus : TaxRegimeConsensus) : Orch bool :=
  if renders MinhaReceita data
  then emit (RenderCardFromMinhaReceita data consensus) ;; ret true
  else ret false.

(** The handlers. Nothing in them catches an exception, so a render call
    that throws ends its handler there: the statements after the call are
    skipped and the assignments made before it stay. The promise that
    [then] returned is rejected and nobody observes it; the other
    handlers run as usual. *)

(** [handleCnpjaResponse]. *)
Definition handleCnpjaResponse (renders : Rendering) (data : JsValue) : Orch unit :=
  if negb (truthy data) then handleFailure "CNPJA"
  else
    emit (ConsoleLog "CNPJ.A data arrived.") ;;
    modify (set_cnpjaDataCache data) ;;
    updateTaxConsensus "CNPJA" data ;;
    rws <- gets receitaWsDataCache ;;
    if truthy rws then
      cached <- gets cnpjaDataCache ;;
      emit (UpdateCardWithIEData cached (rws ?. "uf"))
    else
      h <- gets hasRendered ;;
      when (negb h)
        (emit HideLoading ;;
         modify (set_hasRendered true) ;;
         emit (ConsoleLog "Rendering fallback data from CNPJ.A.") ;;
         c <- gets taxRegimeConsensus ;;
         renderCardFromCNPJA renders data c ;;
         ret tt).

(** [handleMinhaReceitaResponse]. *)
Definition handleMinhaReceitaResponse (renders : Rendering) (data : JsValue)
  : Orch unit :=
  if negb (truthy data) then handleFailure "MinhaReceita"
  else
    emit (ConsoleLog "MinhaReceita data arrived.") ;;
    modify (set_minhaReceitaDataCache data) ;;
    updateTaxConsensus "MinhaReceita" data ;;
    rws <- gets receitaWsDataCache ;;
    h <- gets hasRendered ;;
    when (negb (truthy rws) && negb h)
      (emit HideLoading ;;
       modify (set_hasRendered true) ;;
       emit (ConsoleLog "Rendering fallback data from MinhaReceita.") ;;
       c <- gets taxRegimeConsensus ;;
       returned <- renderCardFromMinhaReceita renders data c ;;
       when returned
         (emit (AddWarningMessage preliminaryNotice))).

(** [handleReceitaWsResponse]. *)
Definition handleReceitaWsResponse (renders : Rendering) (data : JsValue)
  : Orch unit :=
  if negb (truthy data) then handleFailure "ReceitaWS"
  else
    emit HideLoading ;;
    modify (set_hasRendered true) ;;
    emit (ConsoleLog "ReceitaWS data arrived. Rendering primary data.") ;;
    modify (set_receitaWsDataCache data) ;;
    updateTaxConsensus "ReceitaWS" data ;;
    c <- gets taxRegimeConsensus ;;
    returned <- renderCardFromReceitaWS renders data c ;;
    when returned
      (cached <- gets cnpjaDataCache ;;
       rws <- gets receitaWsDataCache ;;
       emit (UpdateCardWithIEData cached (rws ?. "uf"))).

Definition handle (renders : Rendering) (p : Provider) (data : JsValue) : Orch unit :=
  match p with
  | CNPJA => handleCnpjaResponse renders data
  | ReceitaWS => handleReceitaWsResponse renders data
  | MinhaReceita => handleMinhaReceitaResponse renders data
  end.

(** The handlers run one after the other, in the order in which the
    promises settle. *)
Fixpoint arrive (renders : Rendering) (arrivals : list (Provider * JsValue))
  : Orch unit :=
  match arrivals with
  | [] => ret tt
  | (p, data) :: rest => handle renders p data ;; arrive renders rest
  end.

(** A run of [updateTaxConsensus] calls alone. *)
Fixpoint recordVotes (votes : list (string * JsValue)) : Orch unit :=
  match votes with
  | [] => ret tt
  | (apiName, data) :: rest => updateTaxConsensus apiName data ;; recordVotes rest
  end.

(* ================================================================== *)
(** ** Source adapters *)
(* ================================================================== *)

(** What the decoding expression of an adapter evaluates to:
    [await response.json()] for CNPJ.A,
    [JSON.parse((await response.json()).contents)] for the two adapters
    that go through the proxy. Either of them can throw. *)
Inductive Decoded : Type :=
| DecodeThrows
| DecodedAs (v : JsValue).

Record Response : Type := mkResponse {
  ok : bool;
  status : Z;
  body : Decoded
}.

(** One [await fetch(...)]. *)
Inductive FetchOutcome : Type :=
| FetchRejects
| FetchResolves (r : Response).

(** The network as an adapter meets it: the outcome of its fetch at each
    attempt number. *)
Definition Network : Type := nat -> FetchOutcome.

(** What an adapter does besides returning, in order. *)
Inductive AdapterEvent : Type :=
| AFetch (viaProxy : bool) (target : string)
| ADelay (ms : Z)
| AConsoleWarn (attempt : nat)
| AConsoleError (attempt : nat)
| AConsoleErrorFinal.

Definition delay (ms : Z) : list AdapterEvent := [ADelay ms].

(** [consultarCNPJA_API]: one fetch, no loop. *)
Definition consultarCNPJA_API (cnpj : string) (net : Network)
  : JsValue * list AdapterEvent :=
  let call := AFetch false ("https://open.cnpja.com/office/" ++ cnpj) in
  match net 1 with
  | FetchRejects => (JNull, [call; AConsoleError 1])
  | FetchResolves response =>
      if ok response then
        match body response with
        | DecodedAs v => (v, [call])
        | DecodeThrows => (JNull, [call; AConsoleError 1])
        end
      else (JNull, [call])
  end.

(** The body of the [try] of [consultarReceitaWS], after the fetch:
    [Some result] is the [return result], [None] falls through to the
    end of the loop body. Reading [result.status] throws on [null], and
    the [catch] takes it like any other exception. *)
Definition receitaWsAttempt (attempt : nat) (o : FetchOutcome)
  : option JsValue * list AdapterEvent :=
  match o with
  | FetchRejects => (None, [AConsoleError attempt])
  | FetchResolves response =>
      if ok response then
        match body response with
        | DecodeThrows => (None, [AConsoleError attempt])
        | DecodedAs result =>
            match member result "status" with
            | None => (None, [AConsoleError attempt])
            | Some st =>
                if negb (strictEqStr st "ERROR") then (Some result, [])
                else (None, [AConsoleWarn attempt])
            end
        end
      else (None, [AConsoleWarn attempt])
  end.

(** The body of the [try] of [consultarMinhaReceitaAPI]. *)
Definition minhaReceitaAttempt (attempt : nat) (o : FetchOutcome)
  : option JsValue * list AdapterEvent :=
  match o with
  | FetchRejects => (None, [AConsoleError attempt])
  | FetchResolves response =>
      if ok response then
        match body response with
        | DecodeThrows => (None, [AConsoleError attempt])
        | DecodedAs result =>
            if truthy result && truthy (result ?. "cnpj") then (Some result, [])
            else (None, [AConsoleWarn attempt])
        end
      else (None, [AConsoleWarn attempt])
  end.

Section RetryLoop.

Variable MAX_RETRIES : nat.
Variable RETRY_DELAY_MS : Z.
Variable target : string.
Variable attemptBody : nat -> FetchOutcome -> option JsValue * list AdapterEvent.
Variable net : Network.

(** [for (let attempt = 1; attempt <= MAX_RETRIES; attempt++)], the loop
    of both retrying adapters. [remaining] is [MAX_RETRIES + 1 - attempt],
    the number of iterations left when the test is evaluated. *)
Fixpoint retryLoop (remaining attempt : nat) : JsValue * list AdapterEvent :=
  match remaining with
  | 0 => (JNull, [AConsoleErrorFinal])
  | S k =>
      match attemptBody attempt (net attempt) with
      | (Some result, l) => (result, AFetch true target :: l)
      | (None, l) =>
          let d := if (attempt <? MAX_RETRIES)%nat then delay RETRY_DELAY_MS else [] in
          let '(v, rest) := retryLoop k (S attempt) in
          (v, AFetch true target :: l ++ d ++ rest)
      end
  end.

End RetryLoop.

Module ReceitaWSAdapter.
Definition MAX_RETRIES : nat := 3.
Definition RETRY_DELAY_MS : Z := 1500.
End ReceitaWSAdapter.

Module MinhaReceitaAdapter.
Definition MAX_RETRIES : nat := 2.
Definition RETRY_DELAY_MS : Z := 1500.
End MinhaReceitaAdapter.

(** [consultarReceitaWS]. *)
Definition consultarReceitaWS (cnpj : string) (net : Network)
  : JsValue * list AdapterEvent :=
  retryLoop ReceitaWSAdapter.MAX_RETRIES ReceitaWSAdapter.RETRY_DELAY_MS
            ("https://www.receitaws.com.br/v1/cnpj/" ++ cnpj)
            receitaWsAttempt net ReceitaWSAdapter.MAX_RETRIES 1.

(** Observations on an adapter's trace. *)
Definition isFetch (e : AdapterEvent) : bool :=
  match e with AFetch _ _ => true | _ => false end.

Definition attemptsMade (l : list AdapterEvent) : nat := length (filter isFetch l).

Fixpoint delaysTaken (l : list AdapterEvent) : list Z :=
  match l with
  | [] => []
  | ADelay ms :: rest => ms :: delaysTaken rest
  | _ :: rest => delaysTaken rest
  end.

(** The retry condition in the specification's words: the transport call
    fails, or the HTTP result is not ok, or it is ok and the decoded
    payload carries the error status. *)
Definition specRetryCondition (o : FetchOutcome) : bool :=
  match o with
  | FetchRejects => true
  | FetchResolves response =>
      negb (ok response)
      || match body response with
         | DecodedAs result => strictEqStr (result ?. "status") "ERROR"
         | DecodeThrows => false
         end
  end.

(** The condition the code has: besides the three above, anything else
    that throws inside the [try]. *)
Definition decodingThrows (o : FetchOutcome) : bool :=
  match o with
  | FetchRejects => false
  | FetchResolves response =>
      ok response
      && match body response with
         | DecodeThrows => true
         | DecodedAs JNull | DecodedAs JUndefined => true
         | DecodedAs _ => false
         end
  end.

Definition attemptFails (o : FetchOutcome) : bool :=
  match fst (receitaWsAttempt 0 o) with
  | Some _ => false
  | None => true
  end.

(* ================================================================== *)
(** ** CNPJ cleaning and validation *)
(* ================================================================== *)

(** [[0-9]] and [\d]. *)
Definition isDigit (c : ascii) : bool :=
  (48 <=? nat_of_ascii c)%nat && (nat_of_ascii c <=? 57)%nat.

Definition digitValue (c : ascii) : Z := (Z.of_nat (nat_of_ascii c) - 48)%Z.

Fixpoint filterChars (keep : ascii -> bool) (s : string) : string :=
  match s with
  | EmptyString => EmptyString
  | String c rest =>
      if keep c then String c (filterChars keep rest) else filterChars keep rest
  end.

Fixpoint allChars (p : ascii -> bool) (s : string) : bool :=
  match s with
  | EmptyString => true
  | String c rest => p c && allChars p rest
  end.

(** [limparCNPJ]: [cnpj.replace(/[^0-9]/g, '')]. *)
Definition limparCNPJ (cnpj : string) : string := filterChars isDigit cnpj.

(** [/^(\d)\1+$/.test(s)]: a digit, then the same character once or more,
    then the end. *)
Definition repeatedDigit (s : string) : bool :=
  match s with
  | EmptyString => false
  | String d rest =>
      isDigit d && negb (rest =? "") && allChars (Ascii.eqb d) rest
  end.

(** [s.charAt(i)]. *)
Definition charAt (s : string) (i : nat) : string :=
  match get i s with
  | Some c => String c EmptyString
  | None => EmptyString
  end.

(** [s.substring(a, b)] for [a <= b], and [s.substring(a)]. *)
Definition substring2 (s : string) (a b : nat) : string := substring a (b - a) s.
Definition substringFrom (s : string) (a : nat) : string :=
  substring a (String.length s - a) s.

(** A number of the validator: [None] is [NaN]. *)
Definition JsNumber : Type := option Z.

(** [parseInt(s, 10)] on the strings [charAt] returns: the digit, and
    [NaN] on the empty string and on any other character. *)
Definition parseInt (s : string) : JsNumber :=
  match s with
  | String c EmptyString => if isDigit c then Some (digitValue c) else None
  | _ => None
  end.

Definition jsAdd (a b : JsNumber) : JsNumber :=
  match a, b with Some x, Some y => Some (x + y)%Z | _, _ => None end.
Definition jsMul (a b : JsNumber) : JsNumber :=
  match a, b with Some x, Some y => Some (x * y)%Z | _, _ => None end.
Definition jsSub (a b : JsNumber) : JsNumber :=
  match a, b with Some x, Some y => Some (x - y)%Z | _, _ => None end.
(** [a % b]: the remainder has the sign of the dividend. *)
Definition jsRem (a b : JsNumber) : JsNumber :=
  match a, b with
  | Some x, Some y => if (y =? 0)%Z then None else Some (Z.rem x y)
  | _, _ => None
  end.
Definition jsLt (a b : JsNumber) : bool :=
  match a, b with Some x, Some y => (x <? y)%Z | _, _ => false end.
(** [a === b] on numbers; [NaN] equals nothing. *)
Definition jsStrictEq (a b : JsNumber) : bool :=
  match a, b with Some x, Some y => (x =? y)%Z | _, _ => false end.

(** [for (let i = tamanho; i >= 1; i--) { soma += parseInt(numeros.charAt(tamanho - i), 10) * pos--;
    if (pos < 2) pos = 9; }], returning [soma]. *)
Fixpoint somaLoop (numeros : string) (tamanho i : nat) (soma : JsNumber) (pos : Z)
  : JsNumber :=
  match i with
  | O => soma
  | S i' =>
      let soma' := jsAdd soma (jsMul (parseInt (charAt numeros (tamanho - i))) (Some pos)) in
      let pos' := (pos - 1)%Z in
      let pos'' := if (pos' <? 2)%Z then 9%Z else pos' in
      somaLoop numeros tamanho i' soma' pos''
  end.

(** [soma % 11 < 2 ? 0 : 11 - (soma % 11)]. *)
Definition resultadoDe (soma : JsNumber) : JsNumber :=
  if jsLt (jsRem soma (Some 11%Z)) (Some 2%Z) then Some 0%Z
  else jsSub (Some 11%Z) (jsRem soma (Some 11%Z)).

(** [validarCNPJ]. *)
Definition validarCNPJ (cnpj : string) : bool :=
  let cnpjLimpo := limparCNPJ cnpj in
  if negb (String.length cnpjLimpo =? 14)%nat || repeatedDigit cnpjLimpo then false
  else
    let tamanho := (String.length cnpjLimpo - 2)%nat in
    let numeros := substring2 cnpjLimpo 0 tamanho in
    let digitos := substringFrom cnpjLimpo tamanho in
    let soma := somaLoop numeros tamanho tamanho (Some 0%Z) (Z.of_nat tamanho - 7)%Z in
    let resultado := resultadoDe soma in
    if negb (jsStrictEq resultado (parseInt (charAt digitos 0))) then false
    else
      let tamanho := (tamanho + 1)%nat in
      let numeros := substring2 cnpjLimpo 0 tamanho in
      let soma := somaLoop numeros tamanho tamanho (Some 0%Z) (Z.of_nat tamanho - 7)%Z in
      let resultado := resultadoDe soma in
      jsStrictEq resultado (parseInt (charAt digitos 1)).

(** [consultarMinhaReceitaAPI]. *)
Definition consultarMinhaReceitaAPI (cnpj : string) (net : Network)
  : JsValue * list AdapterEvent :=
  let cleanCNPJ := limparCNPJ cnpj in
  retryLoop MinhaReceitaAdapter.MAX_RETRIES MinhaReceitaAdapter.RETRY_DELAY_MS
            ("https://minhareceita.org/" ++ cleanCNPJ)
            minhaReceitaAttempt net MinhaReceitaAdapter.MAX_RETRIES 1.

(* ================================================================== *)
(** ** The specification's vocabulary *)
(* ================================================================== *)

(** The priority order SIMEI > Simples > Normal > Outros. *)
Definition rank (r : string) : nat :=
  if r =? "SIMEI" then 3
  else if r =? "Simples" then 2
  else if r =? "Normal" then 1
  else 0.

Definition labels : list string := ["SIMEI"; "Simples"; "Normal"; "Outros"].

(** [c] is the highest-priority label that appears in [votes]. *)
Definition highestPriorityIn (votes : list string) (c : string) : Prop :=
  In c votes /\ forall v, In v votes -> rank v <= rank c.

(** The votes for a label and the votes against it. *)
Definition votesFor (c : string) (votes : list string) : nat :=
  count_occ string_dec votes c.

Definition dissenting (c : string) (votes : list string) : nat :=
  length (filter (fun v => negb (v =? c)) votes).

(** The vote sequence a request has recorded, in arrival order. *)
Definition votesOf (s : Request) : list string :=
  map regime (sources (taxRegimeConsensus s)).

Definition confirmedOf (s : Request) : option string :=
  confirmed (taxRegimeConsensus s).

Definition needsWarningOf (s : Request) : bool :=
  needsWarning (taxRegimeConsensus s).

(** The terminal all-sources-failed signal. *)
Definition isAllFailedSignal (e : Effect) : bool :=
  match e with
  | MostrarErro m =>
      m =? "Todas as fontes de dados falharam. Tente novamente mais tarde."
  | _ => false
  end.

Definition allFailedSignals (l : list Effect) : nat :=
  length (filter isAllFailedSignal l).

Definition failuresAmong (arrivals : list (Provider * JsValue)) : nat :=
  length (filter (fun a => negb (truthy (snd a))) arrivals).

(** A full render of the card, from whichever provider. *)
Definition isFullRender (e : Effect) : bool :=
  match e with
  | RenderCardFromReceitaWS _ _
  | RenderCardFromCNPJA _ _
  | RenderCardFromMinhaReceita _ _ => true
  | _ => false
  end.

Definition isNotice (e : Effect) : bool :=
  match e with AddWarningMessage _ => true | _ => false end.

Definition isSecondary (p : Provider) : bool :=
  match p with ReceitaWS => false | _ => true end.

(** The CNPJ.A record a sequence of arrivals leaves in the cache. *)
Fixpoint resolvedCnpja (arrivals : list (Provider * JsValue)) (acc : JsValue) : JsValue :=
  match arrivals with
  | [] => acc
  | (CNPJA, data) :: rest => resolvedCnpja rest (if truthy data then data else acc)
  | _ :: rest => resolvedCnpja rest acc
  end.

(** The digits of an input, in order. *)
Fixpoint digitsOf (s : string) : list Z :=
  match s with
  | EmptyString => []
  | String c rest => if isDigit c then digitValue c :: digitsOf rest else digitsOf rest
  end.

(** The weighted modulo-11 check digit. *)
Definition weights12 : list Z := [5; 4; 3; 2; 9; 8; 7; 6; 5; 4; 3; 2]%Z.
Definition weights13 : list Z := [6; 5; 4; 3; 2; 9; 8; 7; 6; 5; 4; 3; 2]%Z.

Fixpoint weightedSum (ws ds : list Z) : Z :=
  match ws, ds with
  | w :: ws', d :: ds' => (w * d + weightedSum ws' ds')%Z
  | _, _ => 0%Z
  end.

Definition checkDigit (ws ds : list Z) : Z :=
  let r := ((weightedSum ws ds) mod 11)%Z in
  if (r <? 2)%Z then 0%Z else (11 - r)%Z.

Definition allIdentical (ds : list Z) : bool :=
  match ds with
  | [] => false
  | d :: rest => forallb (Z.eqb d) rest
  end.

(** The validator as the specification words it. *)
Definition specValidate (rawInput : string) : bool :=
  let ds := digitsOf rawInput in
  if negb (length ds =? 14)%nat then false
  else if allIdentical ds then false
  else (checkDigit weights12 (firstn 12 ds) =? nth 12 ds 0%Z)%Z
       && (checkDigit weights13 (firstn 13 ds) =? nth 13 ds 0%Z)%Z.

(** What one call of [updateTaxConsensus] leaves in the consensus
    object, read off its body: a function of the [sources] array alone. *)
Definition priorityPick (regimes : list string) : string :=
  if includes regimes "SIMEI" then "SIMEI"
  else if includes regimes "Simples" then "Simples"
  else if includes regimes "Normal" then "Normal"
  else "Outros".

Definition recompute (srcs : list Source) : TaxRegimeConsensus :=
  let regimes := map regime srcs in
  let c := priorityPick regimes in
  let votesForConfirmed := length (filter (eqConfirmed (Some c)) regimes) in
  {| sources := srcs;
     confirmed := Some c;
     needsWarning := (votesForConfirmed <=? length regimes - votesForConfirmed)%nat |}.

Definition toSource (v : string * JsValue) : Source :=
  mkSource (fst v) (getTaxRegimeFromData (snd v)).

Definition apiNameOf (p : Provider) : string :=
  match p with
  | CNPJA => "CNPJA"
  | ReceitaWS => "ReceitaWS"
  | MinhaReceita => "MinhaReceita"
  end.

(** The votes a sequence of arrivals casts: one per truthy record. *)
Definition votesCast (arrivals : list (Provider * JsValue)) : list (string * JsValue) :=
  map (fun a => (apiNameOf (fst a), snd a)) (filter (fun a => truthy (snd a)) arrivals).

(** The consensus object after the record of [apiName] has been added. *)
Definition voted (apiName : string) (data : JsValue) (s : Request) : TaxRegimeConsensus :=
  recompute (sources (taxRegimeConsensus s)
             ++ [mkSource apiName (getTaxRegimeFromData data)]).

(** Sample networks: no connectivity at all; and a proxy that answers
    the first attempt with [null] contents and the later ones with a
    record. *)
Definition offline : Network := fun _ => FetchRejects.

Definition nullPayloadOnce (record : JsValue) : Network :=
  fun attempt =>
    if (attempt =? 1)%nat
    then FetchResolves (mkResponse true 200 (DecodedAs JNull))
    else FetchResolves (mkResponse true 200 (DecodedAs record)).

Definition fullRenders (l : list Effect) : nat := length (filter isFullRender l).

(** A network whose first attempt is rejected, whose second brings an
    embedded-error envelope, and whose third brings a record. *)
Definition recoversOnThird (record : JsValue) : Network :=
  fun attempt =>
    match attempt with
    | 1 => FetchRejects
    | 2 => FetchResolves
             (mkResponse true 200 (DecodedAs (JObj [("status", JStr "ERROR")])))
    | _ => FetchResolves (mkResponse true 200 (DecodedAs record))
    end.

(** Sample provider records, one per regime. *)
Definition simeiRecord : JsValue :=
  JObj [("cnpj", JStr "11222333000181"); ("opcao_pelo_mei", JBool true)].
Definition simplesRecord : JsValue :=
  JObj [("company", JObj [("simples", JObj [("optant", JBool true)]);
                          ("simei", JObj [("optant", JBool false)])])].
Definition normalRecord : JsValue :=
  JObj [("cnpj", JStr "11222333000181"); ("opcao_pelo_simples", JBool false);
        ("opcao_pelo_mei", JBool false)].
Definition silentRecord : JsValue :=
  JObj [("nome", JStr "EMPRESA"); ("uf", JStr "SP")].

(* ================================================================== *)
(** ** Formatting helpers *)
(* ================================================================== *)

(** [formatarCNPJ]. The pattern [/^(\d{2})(\d{3})(\d{3})(\d{4})(\d{2})$/]
    matches a string that is fourteen digits and nothing else, and the
    replacement then rebuilds the whole string from the five groups. *)
Definition formatarCNPJ (cnpj : string) : string :=
  let cnpjLimpo := limparCNPJ cnpj in
  if (String.length cnpjLimpo =? 14)%nat && allChars isDigit cnpjLimpo
  then (substring 0 2 cnpjLimpo ++ "." ++ substring 2 3 cnpjLimpo ++ "."
        ++ substring 5 3 cnpjLimpo ++ "/" ++ substring 8 4 cnpjLimpo ++ "-"
        ++ substring 12 2 cnpjLimpo)%string
  else cnpjLimpo.

(** [formatarTelefone]. [None] is the [TypeError] of calling [replace] on
    a truthy value that is not a string. *)
Definition formatarTelefone (telefone : JsValue) : option string :=
  if negb (truthy telefone) then Some "N/A"
  else
    match telefone with
    | JStr t =>
        let num := filterChars isDigit t in
        if (String.length num =? 11)%nat
        then Some ("(" ++ substring2 num 0 2 ++ ") " ++ substring2 num 2 7 ++ "-"
                   ++ substringFrom num 7)%string
        else if (String.length num =? 10)%nat
        then Some ("(" ++ substring2 num 0 2 ++ ") " ++ substring2 num 2 6 ++ "-"
                   ++ substringFrom num 6)%string
        else Some t
    | _ => None
    end.

(* ================================================================== *)
(** ** The request as a whole *)
(* ================================================================== *)

(** What [consultarCNPJ] does to the page before any promise settles. *)
Inductive PageAction : Type :=
| ClearResults
| ShowError (mensagem : string)
| ShowResultsSection
| ShowLoading
| FoldTopSection.

Definition adapter (p : Provider) : string -> Network -> JsValue * list AdapterEvent :=
  match p with
  | CNPJA => consultarCNPJA_API
  | ReceitaWS => consultarReceitaWS
  | MinhaReceita => consultarMinhaReceitaAPI
  end.

(** The values with which the three promises settle, in the order in
    which they settle. *)
Definition settled (cnpjLimpo : string) (nets : Provider -> Network)
  (order : list Provider) : list (Provider * JsValue) :=
  map (fun p => (p, fst (adapter p cnpjLimpo (nets p)))) order.

Record Consulta : Type := mkConsulta {
  page : list PageAction;
  launched : list (Provider * list AdapterEvent);
  handled : list Effect
}.

(** [consultarCNPJ], given the text of the input field, the network each
    adapter meets, the outcome of the render calls and the order in which
    the promises settle. The adapters are launched in the order of step 5;
    their traces are kept apart, since they run interleaved. *)
Definition consultarCNPJ (cnpjInput : string) (nets : Provider -> Network)
  (renders : Rendering) (order : list Provider) : Consulta :=
  let cnpjLimpo := limparCNPJ cnpjInput in
  if (cnpjLimpo =? "") || negb (validarCNPJ cnpjLimpo)
  then {| page := [ClearResults;
                   ShowError (if cnpjLimpo =? "" then "Por favor, digite um CNPJ."
                              else "CNPJ inv√°lido! Verifique os n√∫meros digitados.")];
          launched := [];
          handled := [] |}
  else {| page := [ClearResults; ShowResultsSection; ShowLoading; FoldTopSection];
          launched := [(CNPJA, snd (consultarCNPJA_API cnpjLimpo (nets CNPJA)));
                       (ReceitaWS, snd (consultarReceitaWS cnpjLimpo (nets ReceitaWS)));
                       (MinhaReceita,
                        snd (consultarMinhaReceitaAPI cnpjLimpo (nets MinhaReceita)))];
          handled := logOf (arrive renders (settled cnpjLimpo nets order))
                           initialRequest |}.

(* ================================================================== *)
(** ** What the page shows *)
(* ================================================================== *)

(** The text of the [.tax-regime-bar] element, [None] while no card is
    drawn. Each of the three render functions, when it returns, has
    written it from
    [getTaxRegimeInfo(taxRegimeConsensus)]; [updateTaxRegimeDisplay]
    overwrites it when the element exists and returns otherwise;
    [mostrarErro] replaces the card by the message. The bar of the card is
    taken to be the only element of that class on the page. *)
Definition taxBarAfter (bar : option string) (e : Effect) : option string :=
  match e with
  | RenderCardFromReceitaWS _ c
  | RenderCardFromCNPJA _ c
  | RenderCardFromMinhaReceita _ c => Some (text (getTaxRegimeInfo c))
  | UpdateTaxRegimeDisplay info =>
      match bar with
      | Some _ => Some (text info)
      | None => None
      end
  | MostrarErro _ => None
  | _ => bar
  end.

Definition taxBar (l : list Effect) : option string := fold_left taxBarAfter l None.

(** The arguments of the last [updateCardWithIEData] call. *)
Definition lastIEMerge (l : list Effect) : option (JsValue * JsValue) :=
  fold_left (fun acc e =>
               match e with
               | UpdateCardWithIEData cnpjaData mainState => Some (cnpjaData, mainState)
               | _ => acc
               end) l None.

Definition isIEMerge (e : Effect) : bool :=
  match e with UpdateCardWithIEData _ _ => true | _ => false end.

Definition isHideLoading (e : Effect) : bool :=
  match e with HideLoading => true | _ => false end.

Definition succeeded (arrivals : list (Provider * JsValue)) : bool :=
  existsb (fun a => truthy (snd a)) arrivals.

Definition fetchTargets (l : list AdapterEvent) : list string :=
  flat_map (fun e => match e with AFetch _ t => [t] | _ => [] end) l.

(** ReceitaWS data is cached only once [hasRendered] is set. *)
Definition cachesCoherent (s : Request) : Prop :=
  truthy (receitaWsDataCache s) = true -> hasRendered s = true.

(** The all-sources-failed message cannot wipe a card: either fewer
    than three failures are to come, or nothing has been attempted and
    nothing will succeed. *)
Definition noWipe (s : Request) (l : list (Provider * JsValue)) : Prop :=
  failedApiCount s + failuresAmong l < TOTAL_APIS
  \/ (hasRendered s = false /\ succeeded l = false).

(** Which card is on screen and whether the preliminary-data notice
    sits on it. Each render function, when it returns, has replaced the
    content of [resultsDiv], notice container included; a render call
    that throws has left the page as it was; [addWarningMessage] fills
    the container of the card on screen, if there is one; [mostrarErro]
    replaces the card by the message. *)
Record Screen : Type := mkScreen { card : option Provider; notice : bool }.

Definition screenAfter (sc : Screen) (e : Effect) : Screen :=
  match e with
  | RenderCardFromReceitaWS _ _ => mkScreen (Some ReceitaWS) false
  | RenderCardFromCNPJA _ _ => mkScreen (Some CNPJA) false
  | RenderCardFromMinhaReceita _ _ => mkScreen (Some MinhaReceita) false
  | AddWarningMessage _ =>
      match card sc with
      | Some _ => mkScreen (card sc) true
      | None => sc
      end
  | MostrarErro _ => mkScreen None false
  | _ => sc
  end.

Definition screenOf (l : list Effect) : Screen :=
  fold_left screenAfter l (mkScreen None false).

(** The render decision in one line, as a function of the arrivals:
    whether a render was attempted so far, and the card on screen. A
    ReceitaWS success always attempts a render, a secondary success only
    when none was attempted before, a failure never; an attempt puts its
    card on screen when the render call returns and leaves the screen as
    it is when the call throws. *)
Definition cardAfter (renders : Rendering) (st : bool * option Provider)
  (a : Provider * JsValue) : bool * option Provider :=
  if truthy (snd a) && (negb (isSecondary (fst a)) || negb (fst st))
  then (true, if renders (fst a) (snd a) then Some (fst a) else snd st)
  else st.

Definition expectedCard (renders : Rendering) (arrivals : list (Provider * JsValue))
  : option Provider :=
  snd (fold_left (cardAfter renders) arrivals (false, None)).

(** Every record that arrived is one that the render function of its
    provider draws. *)
Definition drawable (renders : Rendering) (arrivals : list (Provider * JsValue))
  : bool :=
  forallb (fun a => negb (truthy (snd a)) || renders (fst a) (snd a)) arrivals.

(** ** The identifier line of the card templates *)

(** [formatarCNPJ(v || '')]. [limparCNPJ] calls [replace] on its
    argument, which only a string has: [None] is the [TypeError] on a
    truthy value that is not a string. *)
Definition formatarCNPJ_or_empty (v : JsValue) : option string :=
  match (if truthy v then v else JStr "") with
  | JStr cnpj => Some (formatarCNPJ cnpj)
  | _ => None
  end.

(** The identifier line of the three templates:
    [formatarCNPJ(data.taxId || '')] in [renderCardFromCNPJA],
    [formatarCNPJ(data.cnpj || '')] in the two others. A render function
    is only called on a truthy record, on which reading a property does
    not throw. *)
Definition identifierLine (p : Provider) (data : JsValue) : option string :=
  match p with
  | CNPJA => formatarCNPJ_or_empty (data ?. "taxId")
  | _ => formatarCNPJ_or_empty (data ?. "cnpj")
  end.

(** The outcomes of the render calls that agree with the templates on
    the identifier line: a call returns only if that line does, and
    [rest] decides for the remainder of the template. Every outcome that
    the source can produce is of this form. *)
Definition draws (rest : Rendering) : Rendering :=
  fun p data =>
    match identifierLine p data with
    | Some _ => rest p data
    | None => false
    end.

(** A record with the identifier as a JSON number, as a provider that
    serialises the CNPJ as a number would send it. *)
Definition numericCnpjRecord : JsValue :=
  JObj [("nome", JStr "EMPRESA"); ("uf", JStr "SP"); ("cnpj", JNum 11222333000181)].

(** A sample outcome of the render calls, for the examples: every call
    returns, as the calls on the sample records above do. *)
Definition allReturn : Rendering := fun _ _ => true.

Definition isSome {A} (o : option A) : bool :=
  match o with Some _ => true | None => false end.

Definition isMinhaReceita (o : option Provider) : bool :=
  match o with Some MinhaReceita => true | _ => false end.

(** The address each adapter fetches, before the identifier. *)
Definition endpoint (p : Provider) : string :=
  match p with
  | CNPJA => "https://open.cnpja.com/office/"
  | ReceitaWS => "https://www.receitaws.com.br/v1/cnpj/"
  | MinhaReceita => "https://minhareceita.org/"
  end.

(* ================================================================== *)
(** * Properties *)
(* ================================================================== *)

(** ** The monad *)

Lemma exec_bind {A B} (m : Orch A) (k : A -> Orch B) s :
  exec (bind m k) s = exec (k (fst (fst (m s)))) (exec m s).
Proof.
  unfold exec, bind. destruct (m s) as [[a s1] l1]. cbn.
  destruct (k a s1) as [[b s2] l2]. reflexivity.
Qed.

Lemma logOf_bind {A B} (m : Orch A) (k : A -> Orch B) s :
  logOf (bind m k) s = logOf m s ++ logOf (k (fst (fst (m s)))) (exec m s).
Proof.
  unfold logOf, exec, bind. destruct (m s) as [[a s1] l1]. cbn.
  destruct (k a s1) as [[b s2] l2]. reflexivity.
Qed.

Lemma exec_seq (m k : Orch unit) s :
  exec (bind m (fun _ => k)) s = exec k (exec m s).
Proof. apply exec_bind. Qed.

Lemma logOf_seq (m k : Orch unit) s :
  logOf (bind m (fun _ => k)) s = logOf m s ++ logOf k (exec m s).
Proof. apply logOf_bind. Qed.

(** ** Tax regime labels *)

Lemma getTaxRegimeFromData_label data : In (getTaxRegimeFromData data) labels.
Proof.
  unfold getTaxRegimeFromData, labels.
  repeat match goal with
         | |- context [if ?b then _ else _] => destruct b
         end; simpl; auto.
Qed.

Lemma includes_In l x : includes l x = true <-> In x l.
Proof.
  unfold includes. rewrite existsb_exists. split.
  - intros [r [Hin Heq]]. apply String.eqb_eq in Heq. subst. exact Hin.
  - intros Hin. exists x. split; [exact Hin | apply String.eqb_refl].
Qed.

Lemma includes_false l x : includes l x = false <-> ~ In x l.
Proof.
  rewrite <- includes_In. destruct (includes l x); split; congruence.
Qed.

(** ** One call of [updateTaxConsensus] *)

Lemma updateTaxConsensus_run apiName data s :
  updateTaxConsensus apiName data s =
    (tt,
     set_taxRegimeConsensus
       (recompute (sources (taxRegimeConsensus s)
                   ++ [mkSource apiName (getTaxRegimeFromData data)])) s,
     if hasRendered s
     then [UpdateTaxRegimeDisplay
             (getTaxRegimeInfo
                (recompute (sources (taxRegimeConsensus s)
                            ++ [mkSource apiName (getTaxRegimeFromData data)])))]
     else []).
Proof.
  unfold updateTaxConsensus, recompute, priorityPick, modifyConsensus,
    updateTaxRegimeDisplay, when, bind, gets, modify, emit, ret.
  cbn [taxRegimeConsensus set_taxRegimeConsensus push_source sources fst snd].
  destruct (includes _ "SIMEI"); [| destruct (includes _ "Simples");
    [| destruct (includes _ "Normal")]];
    destruct (hasRendered s) eqn:Hr; cbn; rewrite ?Hr; reflexivity.
Qed.

Lemma updateTaxConsensus_exec apiName data s :
  exec (updateTaxConsensus apiName data) s =
    set_taxRegimeConsensus
      (recompute (sources (taxRegimeConsensus s)
                  ++ [mkSource apiName (getTaxRegimeFromData data)])) s.
Proof. unfold exec. rewrite updateTaxConsensus_run. reflexivity. Qed.

Lemma recordVotes_consensus vs : forall v s,
  taxRegimeConsensus (exec (recordVotes (v :: vs)) s) =
    recompute (sources (taxRegimeConsensus s) ++ map toSource (v :: vs)).
Proof.
  induction vs as [| w vs IH]; intros [apiName data] s.
  - cbn [recordVotes]. rewrite exec_seq, updateTaxConsensus_exec. reflexivity.
  - change (recordVotes ((apiName, data) :: w :: vs))
      with (bind (updateTaxConsensus apiName data) (fun _ => recordVotes (w :: vs))).
    rewrite exec_seq, IH, updateTaxConsensus_exec.
    cbn [taxRegimeConsensus set_taxRegimeConsensus recompute sources].
    rewrite <- app_assoc. reflexivity.
Qed.

Lemma recordVotes_other_fields vs : forall s,
  let s' := exec (recordVotes vs) s in
  hasRendered s' = hasRendered s
  /\ failedApiCount s' = failedApiCount s
  /\ cnpjaDataCache s' = cnpjaDataCache s
  /\ receitaWsDataCache s' = receitaWsDataCache s
  /\ minhaReceitaDataCache s' = minhaReceitaDataCache s.
Proof.
  induction vs as [| [apiName data] vs IH]; intros s; cbn [recordVotes].
  - repeat split.
  - cbv zeta. rewrite exec_seq, updateTaxConsensus_exec.
    specialize (IH (set_taxRegimeConsensus
      (recompute (sources (taxRegimeConsensus s)
                  ++ [mkSource apiName (getTaxRegimeFromData data)])) s)).
    cbv zeta in IH. exact IH.
Qed.

(** ** The priority rule *)

Lemma rank_cases v :
  (v = "SIMEI" /\ rank v = 3)
  \/ (v = "Simples" /\ rank v = 2)
  \/ (v = "Normal" /\ rank v = 1)
  \/ (v <> "SIMEI" /\ v <> "Simples" /\ v <> "Normal" /\ rank v = 0).
Proof.
  unfold rank.
  destruct (String.eqb_spec v "SIMEI"); [auto |].
  destruct (String.eqb_spec v "Simples"); [auto |].
  destruct (String.eqb_spec v "Normal"); [auto |].
  right; right; right. auto.
Qed.

Lemma priorityPick_label regimes : In (priorityPick regimes) labels.
Proof.
  unfold priorityPick, labels.
  destruct (includes regimes "SIMEI"); [simpl; auto |].
  destruct (includes regimes "Simples"); [simpl; auto |].
  destruct (includes regimes "Normal"); simpl; auto.
Qed.

Lemma priorityPick_highest regimes r :
  In r regimes -> In r labels ->
  highestPriorityIn regimes (priorityPick regimes).
Proof.
  intros Hin Hlab. unfold priorityPick, highestPriorityIn.
  destruct (includes regimes "SIMEI") eqn:H1.
  { apply includes_In in H1. split; [exact H1 |].
    intros v _. destruct (rank_cases v) as [[_ E] | [[_ E] | [[_ E] | [_ [_ [_ E]]]]]];
      rewrite E; cbn; lia. }
  apply includes_false in H1.
  destruct (includes regimes "Simples") eqn:H2.
  { apply includes_In in H2. split; [exact H2 |].
    intros v Hv. destruct (rank_cases v) as [[E _] | [[_ E] | [[_ E] | [_ [_ [_ E]]]]]];
      [subst v; contradiction | rewrite E; cbn; lia ..]. }
  apply includes_false in H2.
  destruct (includes regimes "Normal") eqn:H3.
  { apply includes_In in H3. split; [exact H3 |].
    intros v Hv. destruct (rank_cases v) as [[E _] | [[E _] | [[_ E] | [_ [_ [_ E]]]]]];
      [subst v; contradiction | subst v; contradiction | rewrite E; cbn; lia ..]. }
  apply includes_false in H3.
  split.
  - unfold labels in Hlab. simpl in Hlab.
    destruct Hlab as [E | [E | [E | [E | []]]]]; subst r; try contradiction.
    exact Hin.
  - intros v Hv. destruct (rank_cases v) as [[E _] | [[E _] | [[E _] | [_ [_ [_ E]]]]]];
      [subst v; contradiction .. | rewrite E; cbn; lia].
Qed.

Lemma priorityPick_simei regimes :
  In "SIMEI" regimes -> priorityPick regimes = "SIMEI".
Proof.
  intros H. unfold priorityPick. apply includes_In in H. rewrite H. reflexivity.
Qed.

Lemma priorityPick_outros regimes :
  priorityPick regimes = "Outros" <->
  ~ In "SIMEI" regimes /\ ~ In "Simples" regimes /\ ~ In "Normal" regimes.
Proof.
  unfold priorityPick.
  destruct (includes regimes "SIMEI") eqn:H1;
    [apply includes_In in H1; split; [discriminate | tauto] |].
  destruct (includes regimes "Simples") eqn:H2;
    [apply includes_In in H2; split; [discriminate | tauto] |].
  destruct (includes regimes "Normal") eqn:H3;
    [apply includes_In in H3; split; [discriminate | tauto] |].
  apply includes_false in H1, H2, H3. tauto.
Qed.

(** ** Counting votes *)

Lemma filter_eqConfirmed_votesFor c regimes :
  length (filter (eqConfirmed (Some c)) regimes) = votesFor c regimes.
Proof.
  unfold votesFor. induction regimes as [| r rs IH]; [reflexivity |].
  cbn [filter count_occ eqConfirmed].
  destruct (String.eqb_spec r c) as [E | E]; destruct (string_dec r c) as [E' | E'];
    try contradiction; cbn [length]; rewrite <- IH; reflexivity.
Qed.

Lemma votes_split c regimes :
  votesFor c regimes + dissenting c regimes = length regimes.
Proof.
  unfold votesFor, dissenting. induction regimes as [| r rs IH]; [reflexivity |].
  cbn [filter count_occ length].
  destruct (String.eqb_spec r c) as [E | E]; destruct (string_dec r c) as [E' | E'];
    try contradiction; cbn [negb length]; lia.
Qed.

Lemma recompute_needsWarning srcs :
  needsWarning (recompute srcs) =
    negb (dissenting (priorityPick (map regime srcs)) (map regime srcs)
          <? votesFor (priorityPick (map regime srcs)) (map regime srcs))%nat.
Proof.
  unfold recompute. cbn [needsWarning].
  rewrite filter_eqConfirmed_votesFor.
  pose proof (votes_split (priorityPick (map regime srcs)) (map regime srcs)) as H.
  destruct (Nat.leb_spec (votesFor (priorityPick (map regime srcs)) (map regime srcs))
              (length (map regime srcs)
               - votesFor (priorityPick (map regime srcs)) (map regime srcs)));
    destruct (Nat.ltb_spec (dissenting (priorityPick (map regime srcs)) (map regime srcs))
                (votesFor (priorityPick (map regime srcs)) (map regime srcs)));
    cbn; try reflexivity; lia.
Qed.

Lemma map_regime_toSource vs :
  map regime (map toSource vs) = map (fun v => getTaxRegimeFromData (snd v)) vs.
Proof. rewrite map_map. reflexivity. Qed.

Lemma votesOf_recordVotes v vs s :
  votesOf (exec (recordVotes (v :: vs)) s) =
    votesOf s ++ map (fun x => getTaxRegimeFromData (snd x)) (v :: vs).
Proof.
  unfold votesOf. rewrite recordVotes_consensus. cbn [recompute sources].
  rewrite map_app, map_regime_toSource. reflexivity.
Qed.

Lemma confirmedOf_recordVotes v vs s :
  confirmedOf (exec (recordVotes (v :: vs)) s) =
    Some (priorityPick (votesOf (exec (recordVotes (v :: vs)) s))).
Proof.
  unfold confirmedOf, votesOf. rewrite recordVotes_consensus. reflexivity.
Qed.

Lemma needsWarningOf_recordVotes v vs s :
  needsWarningOf (exec (recordVotes (v :: vs)) s) =
    let votes := votesOf (exec (recordVotes (v :: vs)) s) in
    negb (dissenting (priorityPick votes) votes <? votesFor (priorityPick votes) votes)%nat.
Proof.
  unfold needsWarningOf, votesOf. rewrite recordVotes_consensus.
  rewrite recompute_needsWarning. reflexivity.
Qed.

Lemma last_vote_label (v : string * JsValue) (vs : list (string * JsValue))
  (prefix : list string) :
  exists r, In r (prefix ++ map (fun x => getTaxRegimeFromData (snd x)) (v :: vs))
            /\ In r labels.
Proof.
  exists (getTaxRegimeFromData (snd v)). split.
  - apply in_or_app. right. left. reflexivity.
  - apply getTaxRegimeFromData_label.
Qed.

(** C1. After any non-empty run of [updateTaxConsensus] calls the vote
    sequence is the earlier one followed by the regimes of the new
    records, and [confirmed] is one of the four labels, appears in the
    sequence and has the highest priority (SIMEI > Simples > Normal >
    Outros) of all the votes in it, however many votes the lower labels
    got; in particular it is SIMEI as soon as one vote is SIMEI. *)
Theorem confirmed_is_highest_priority_vote :
  forall (s : Request) (v : string * JsValue) (vs : list (string * JsValue)),
    let s' := exec (recordVotes (v :: vs)) s in
    votesOf s' = votesOf s ++ map (fun x => getTaxRegimeFromData (snd x)) (v :: vs)
    /\ exists c,
         confirmedOf s' = Some c
         /\ In c labels
         /\ highestPriorityIn (votesOf s') c
         /\ (In "SIMEI" (votesOf s') -> c = "SIMEI").
Proof.
  intros s v vs s'. subst s'.
  split; [apply votesOf_recordVotes |].
  exists (priorityPick (votesOf (exec (recordVotes (v :: vs)) s))).
  split; [apply confirmedOf_recordVotes |].
  split; [apply priorityPick_label |].
  split.
  - rewrite votesOf_recordVotes.
    destruct (last_vote_label v vs (votesOf s)) as [r [Hin Hlab]].
    exact (priorityPick_highest _ r Hin Hlab).
  - apply priorityPick_simei.
Qed.

Lemma votesOf_recordVotes_fresh votes s :
  votesOf s = [] ->
  votesOf (exec (recordVotes votes) s) =
    map (fun x => getTaxRegimeFromData (snd x)) votes.
Proof.
  intros H. destruct votes as [| v vs].
  - exact H.
  - rewrite votesOf_recordVotes, H. reflexivity.
Qed.

Lemma consensus_of_votes votes s (regimes : list string) :
  votesOf s = [] ->
  map (fun x => getTaxRegimeFromData (snd x)) votes = regimes ->
  regimes <> [] ->
  confirmedOf (exec (recordVotes votes) s) = Some (priorityPick regimes)
  /\ needsWarningOf (exec (recordVotes votes) s) =
       negb (dissenting (priorityPick regimes) regimes
             <? votesFor (priorityPick regimes) regimes)%nat.
Proof.
  intros Hs Hm Hne. destruct votes as [| v vs].
  - cbn in Hm. congruence.
  - rewrite confirmedOf_recordVotes, needsWarningOf_recordVotes. cbv zeta.
    rewrite (votesOf_recordVotes_fresh (v :: vs) s Hs), Hm. split; reflexivity.
Qed.

(** C2. After any non-empty run of [updateTaxConsensus] calls, the
    votes split into those equal to [confirmed] and the dissenting ones,
    and [needsWarning] is true exactly when the former are not strictly
    more than the latter. Votes Simples, Normal give Simples with the
    flag set (1 against 1); votes Normal, Normal, Simples give Simples
    with the flag set (1 against 2); a single SIMEI vote gives SIMEI with
    the flag clear (1 against 0). *)
Theorem warning_iff_no_strict_majority :
  (forall (s : Request) (v : string * JsValue) (vs : list (string * JsValue)),
      let s' := exec (recordVotes (v :: vs)) s in
      exists c,
        confirmedOf s' = Some c
        /\ votesFor c (votesOf s') + dissenting c (votesOf s') = length (votesOf s')
        /\ needsWarningOf s' =
             negb (dissenting c (votesOf s') <? votesFor c (votesOf s'))%nat)
  /\ (forall (s : Request) (votes : list (string * JsValue)),
         votesOf s = [] ->
         map (fun x => getTaxRegimeFromData (snd x)) votes = ["Simples"; "Normal"] ->
         confirmedOf (exec (recordVotes votes) s) = Some "Simples"
         /\ needsWarningOf (exec (recordVotes votes) s) = true)
  /\ (forall (s : Request) (votes : list (string * JsValue)),
         votesOf s = [] ->
         map (fun x => getTaxRegimeFromData (snd x)) votes
           = ["Normal"; "Normal"; "Simples"] ->
         confirmedOf (exec (recordVotes votes) s) = Some "Simples"
         /\ needsWarningOf (exec (recordVotes votes) s) = true)
  /\ (forall (s : Request) (votes : list (string * JsValue)),
         votesOf s = [] ->
         map (fun x => getTaxRegimeFromData (snd x)) votes = ["SIMEI"] ->
         confirmedOf (exec (recordVotes votes) s) = Some "SIMEI"
         /\ needsWarningOf (exec (recordVotes votes) s) = false).
Proof.
  split; [| split; [| split]].
  - intros s v vs s'. subst s'.
    exists (priorityPick (votesOf (exec (recordVotes (v :: vs)) s))).
    split; [apply confirmedOf_recordVotes |].
    split; [apply votes_split |].
    apply needsWarningOf_recordVotes.
  - intros s votes Hs Hm.
    exact (consensus_of_votes votes s _ Hs Hm ltac:(discriminate)).
  - intros s votes Hs Hm.
    exact (consensus_of_votes votes s _ Hs Hm ltac:(discriminate)).
  - intros s votes Hs Hm.
    exact (consensus_of_votes votes s _ Hs Hm ltac:(discriminate)).
Qed.

Lemma warning_iff_no_strict_majority_witness :
  votesOf initialRequest = []
  /\ map (fun x => getTaxRegimeFromData (snd x))
         [("CNPJA", normalRecord); ("MinhaReceita", normalRecord);
          ("ReceitaWS", simplesRecord)]
       = ["Normal"; "Normal"; "Simples"]
  /\ confirmedOf
       (exec (recordVotes [("CNPJA", normalRecord); ("MinhaReceita", normalRecord);
                           ("ReceitaWS", simplesRecord)]) initialRequest)
       = Some "Simples"
  /\ needsWarningOf
       (exec (recordVotes [("CNPJA", normalRecord); ("MinhaReceita", normalRecord);
                           ("ReceitaWS", simplesRecord)]) initialRequest)
       = true.
Proof.
  split; [reflexivity |]. split; [reflexivity |].
  apply (proj1 (proj2 (proj2 warning_iff_no_strict_majority)) initialRequest).
  - reflexivity.
  - reflexivity.
Defined.

(** ** Order of arrival *)

Lemma includes_perm l1 l2 x :
  Permutation l1 l2 -> includes l1 x = includes l2 x.
Proof.
  intros HP.
  destruct (includes l1 x) eqn:H1; destruct (includes l2 x) eqn:H2; try reflexivity.
  - apply includes_In in H1. apply includes_false in H2.
    exfalso. apply H2. exact (Permutation_in x HP H1).
  - apply includes_false in H1. apply includes_In in H2.
    exfalso. apply H1. exact (Permutation_in x (Permutation_sym HP) H2).
Qed.

Lemma priorityPick_perm l1 l2 :
  Permutation l1 l2 -> priorityPick l1 = priorityPick l2.
Proof.
  intros HP. unfold priorityPick.
  rewrite (includes_perm l1 l2 "SIMEI" HP), (includes_perm l1 l2 "Simples" HP),
    (includes_perm l1 l2 "Normal" HP).
  reflexivity.
Qed.

Lemma votesFor_perm c l1 l2 :
  Permutation l1 l2 -> votesFor c l1 = votesFor c l2.
Proof.
  intros HP. unfold votesFor.
  exact (proj1 (Permutation_count_occ string_dec l1 l2) HP c).
Qed.

Lemma recompute_perm srcs1 srcs2 :
  Permutation srcs1 srcs2 ->
  confirmed (recompute srcs1) = confirmed (recompute srcs2)
  /\ needsWarning (recompute srcs1) = needsWarning (recompute srcs2).
Proof.
  intros HP.
  assert (HR : Permutation (map regime srcs1) (map regime srcs2))
    by (apply Permutation_map; exact HP).
  unfold recompute. cbn [confirmed needsWarning].
  rewrite !filter_eqConfirmed_votesFor.
  rewrite (priorityPick_perm _ _ HR).
  rewrite (votesFor_perm _ _ _ HR).
  rewrite (Permutation_length HR).
  split; reflexivity.
Qed.

Lemma recordVotes_perm s votes1 votes2 :
  Permutation votes1 votes2 ->
  confirmedOf (exec (recordVotes votes1) s) = confirmedOf (exec (recordVotes votes2) s)
  /\ needsWarningOf (exec (recordVotes votes1) s)
     = needsWarningOf (exec (recordVotes votes2) s).
Proof.
  intros HP.
  destruct votes1 as [| v1 vs1].
  - apply Permutation_nil in HP. subst votes2. split; reflexivity.
  - destruct votes2 as [| v2 vs2].
    + apply Permutation_sym, Permutation_nil in HP. discriminate HP.
    + unfold confirmedOf, needsWarningOf. rewrite !recordVotes_consensus.
      apply recompute_perm.
      apply Permutation_app_head. apply Permutation_map. exact HP.
Qed.

(** ** Zero votes and the default label *)

Lemma regimeMap_has_label c : In c labels -> assoc c regimeMap <> None.
Proof.
  unfold labels. simpl.
  intros [E | [E | [E | [E | []]]]]; subst c; cbn; discriminate.
Qed.

Lemma fresh_votes_are_labels votes s :
  votesOf s = [] ->
  Forall (fun r => In r labels) (votesOf (exec (recordVotes votes) s)).
Proof.
  intros H. rewrite (votesOf_recordVotes_fresh votes s H).
  apply Forall_forall. intros r Hr. apply in_map_iff in Hr.
  destruct Hr as [x [E _]]. subst r. apply getTaxRegimeFromData_label.
Qed.

Lemma all_outros_iff (votes : list string) :
  Forall (fun r => In r labels) votes ->
  (Forall (eq "Outros") votes <->
   ~ In "SIMEI" votes /\ ~ In "Simples" votes /\ ~ In "Normal" votes).
Proof.
  intros Hlab. rewrite !Forall_forall in *. split.
  - intros H. repeat split; intros Hin; apply H in Hin; discriminate Hin.
  - intros [H1 [H2 H3]] r Hr. specialize (Hlab r Hr).
    unfold labels in Hlab. simpl in Hlab.
    destruct Hlab as [E | [E | [E | [E | []]]]]; subst r;
      try contradiction; reflexivity.
Qed.

Lemma outros_votes_dissent c (votes : list string) :
  c <> "Outros" -> votesFor "Outros" votes <= dissenting c votes.
Proof.
  intros Hc. unfold votesFor, dissenting.
  induction votes as [| r rs IH]; [apply Nat.le_refl |].
  cbn [count_occ filter].
  destruct (string_dec r "Outros") as [E | E].
  - subst r. destruct (String.eqb_spec "Outros" c) as [E' | E'].
    + exfalso. apply Hc. symmetry. exact E'.
    + cbn [negb length]. lia.
  - destruct (negb (r =? c)); cbn [length]; lia.
Qed.

Lemma unanimous_no_dissent c (votes : list string) :
  Forall (eq c) votes -> dissenting c votes = 0 /\ votesFor c votes = length votes.
Proof.
  intros H.
  assert (Hd : dissenting c votes = 0).
  { unfold dissenting. induction H as [| r rs Hr _ IH]; [reflexivity |].
    cbn [filter]. subst r. rewrite String.eqb_refl. exact IH. }
  pose proof (votes_split c votes) as Hs.
  split; [exact Hd | lia].
Qed.

(** C3, as amended. With no vote recorded the consensus object holds
    [confirmed = null] and [needsWarning = false], which
    [getTaxRegimeInfo] shows as the Outros text without the warning sign,
    just as it shows [confirmed = Outros]. Once a vote is recorded,
    [confirmed] is a key of the text table, so that fallback is not used
    again; it is Outros exactly when every recorded vote is Outros, and
    then nothing dissents and the flag is clear. Every recorded vote
    counts on exactly one side of the agreement test that sets
    [needsWarning], and an Outros vote counts against any other
    confirmed label like any other dissenting vote. *)
Theorem zero_votes_display_default :
  (votesOf initialRequest = []
   /\ confirmedOf initialRequest = None
   /\ needsWarningOf initialRequest = false
   /\ getTaxRegimeInfo (taxRegimeConsensus initialRequest)
      = mkRegimeInfo "Trib: Outros" "tax-regime-bar"
   /\ getTaxRegimeInfo (taxRegimeConsensus initialRequest)
      = getTaxRegimeInfo (mkConsensus [] (Some "Outros") false))
  /\ (forall (v : string * JsValue) (vs : list (string * JsValue)),
        let s' := exec (recordVotes (v :: vs)) initialRequest in
        exists c,
          confirmedOf s' = Some c
          /\ assoc c regimeMap <> None
          /\ (c = "Outros" <-> Forall (eq "Outros") (votesOf s'))
          /\ votesFor c (votesOf s') + dissenting c (votesOf s') = length (votesOf s')
          /\ needsWarningOf s'
             = negb (dissenting c (votesOf s') <? votesFor c (votesOf s'))%nat
          /\ (c <> "Outros" ->
              votesFor "Outros" (votesOf s') <= dissenting c (votesOf s'))
          /\ (c = "Outros" ->
              dissenting c (votesOf s') = 0 /\ needsWarningOf s' = false)).
Proof.
  split.
  - repeat split.
  - intros v vs s'. subst s'.
    set (s' := exec (recordVotes (v :: vs)) initialRequest).
    assert (Hout : priorityPick (votesOf s') = "Outros"
                   <-> Forall (eq "Outros") (votesOf s')).
    { rewrite priorityPick_outros. symmetry.
      apply all_outros_iff. apply fresh_votes_are_labels. reflexivity. }
    assert (Hw : needsWarningOf s'
                 = negb (dissenting (priorityPick (votesOf s')) (votesOf s')
                         <? votesFor (priorityPick (votesOf s')) (votesOf s'))%nat)
      by apply needsWarningOf_recordVotes.
    exists (priorityPick (votesOf s')).
    split; [apply confirmedOf_recordVotes |].
    split; [apply regimeMap_has_label, priorityPick_label |].
    split; [exact Hout |].
    split; [apply votes_split |].
    split; [exact Hw |].
    split; [apply outros_votes_dissent |].
    intros E. rewrite Hw, E.
    apply Hout in E.
    destruct (unanimous_no_dissent "Outros" (votesOf s') E) as [Hd Hf].
    split; [exact Hd |].
    rewrite Hd, Hf.
    assert (Hlen : votesOf s' <> []).
    { subst s'. rewrite votesOf_recordVotes. cbn [votesOf initialRequest
        taxRegimeConsensus sources map app]. discriminate. }
    destruct (votesOf s'); [contradiction | reflexivity].
Qed.

(** C3, as stated, fails: the consensus object starts with [confirmed =
    null], not Outros; a single record that says nothing about the regime
    is recorded as an Outros vote and confirms Outros with one vote
    present; and such a vote counts as a dissenting one, raising the flag
    against a lone Simples vote. *)
Lemma default_label_beyond_zero_votes :
  confirmedOf initialRequest <> Some "Outros"
  /\ (votesOf (exec (recordVotes [("CNPJA", silentRecord)]) initialRequest) = ["Outros"]
      /\ confirmedOf (exec (recordVotes [("CNPJA", silentRecord)]) initialRequest)
         = Some "Outros")
  /\ (votesOf (exec (recordVotes [("MinhaReceita", simplesRecord);
                                  ("CNPJA", silentRecord)]) initialRequest)
      = ["Simples"; "Outros"]
      /\ needsWarningOf (exec (recordVotes [("MinhaReceita", simplesRecord)])
                              initialRequest) = false
      /\ needsWarningOf (exec (recordVotes [("MinhaReceita", simplesRecord);
                                            ("CNPJA", silentRecord)]) initialRequest)
         = true).
Proof.
  split; [discriminate |]. split; [split; reflexivity |].
  split; [reflexivity |]. split; reflexivity.
Qed.

(** ** The handlers, in closed form *)

Ltac project_setters :=
  cbv [set_cnpjaDataCache set_receitaWsDataCache set_minhaReceitaDataCache
       set_hasRendered set_failedApiCount set_taxRegimeConsensus];
  cbn [cnpjaDataCache receitaWsDataCache minhaReceitaDataCache hasRendered
       failedApiCount taxRegimeConsensus].

Ltac run_handler :=
  unfold bind, emit, modify, gets, when, ret;
  repeat (rewrite updateTaxConsensus_run;
          cbn -[recompute getTaxRegimeFromData getTaxRegimeInfo optMember truthy
                Nat.eqb app]);
  cbn -[recompute getTaxRegimeFromData getTaxRegimeInfo optMember truthy Nat.eqb];
  project_setters.

Lemma handleFailure_run apiName s :
  handleFailure apiName s =
    (tt, set_failedApiCount (S (failedApiCount s)) s,
     ConsoleError (apiName ++ " API failed or returned no data.")
     :: (if (S (failedApiCount s) =? TOTAL_APIS)%nat
         then [HideLoading;
               MostrarErro "Todas as fontes de dados falharam. Tente novamente mais tarde."]
         else [])).
Proof.
  unfold handleFailure. run_handler.
  destruct (S (failedApiCount s) =? TOTAL_APIS)%nat; reflexivity.
Qed.

Lemma handleCnpjaResponse_run (renders : Rendering) data s :
  truthy data = true ->
  handleCnpjaResponse renders data s =
    let c := voted "CNPJA" data s in
    let s1 := set_taxRegimeConsensus c (set_cnpjaDataCache data s) in
    let shown := if hasRendered s
                 then [UpdateTaxRegimeDisplay (getTaxRegimeInfo c)] else [] in
    if truthy (receitaWsDataCache s)
    then (tt, s1,
          ConsoleLog "CNPJ.A data arrived." :: shown
          ++ [UpdateCardWithIEData data (receitaWsDataCache s ?. "uf")])
    else if hasRendered s
    then (tt, s1, ConsoleLog "CNPJ.A data arrived." :: shown)
    else (tt, set_hasRendered true s1,
          [ConsoleLog "CNPJ.A data arrived."; HideLoading;
           ConsoleLog "Rendering fallback data from CNPJ.A."]
          ++ (if renders CNPJA data then [RenderCardFromCNPJA data c] else [])).
Proof.
  intros Ht. unfold handleCnpjaResponse, renderCardFromCNPJA, voted.
  rewrite Ht. cbn [negb]. run_handler.
  destruct (truthy (receitaWsDataCache s)); destruct (hasRendered s);
    destruct (renders CNPJA data); reflexivity.
Qed.

Lemma handleMinhaReceitaResponse_run (renders : Rendering) data s :
  truthy data = true ->
  handleMinhaReceitaResponse renders data s =
    let c := voted "MinhaReceita" data s in
    let s1 := set_taxRegimeConsensus c (set_minhaReceitaDataCache data s) in
    let shown := if hasRendered s
                 then [UpdateTaxRegimeDisplay (getTaxRegimeInfo c)] else [] in
    if negb (truthy (receitaWsDataCache s)) && negb (hasRendered s)
    then (tt, set_hasRendered true s1,
          [ConsoleLog "MinhaReceita data arrived."; HideLoading;
           ConsoleLog "Rendering fallback data from MinhaReceita."]
          ++ (if renders MinhaReceita data
              then [RenderCardFromMinhaReceita data c;
                    AddWarningMessage preliminaryNotice]
              else []))
    else (tt, s1, ConsoleLog "MinhaReceita data arrived." :: shown).
Proof.
  intros Ht. unfold handleMinhaReceitaResponse, renderCardFromMinhaReceita, voted.
  rewrite Ht. cbn [negb]. run_handler.
  destruct (truthy (receitaWsDataCache s)); destruct (hasRendered s);
    destruct (renders MinhaReceita data); cbn; rewrite ?app_nil_r; reflexivity.
Qed.

Lemma handleReceitaWsResponse_run (renders : Rendering) data s :
  truthy data = true ->
  handleReceitaWsResponse renders data s =
    let c := voted "ReceitaWS" data s in
    (tt,
     set_taxRegimeConsensus c (set_receitaWsDataCache data (set_hasRendered true s)),
     [HideLoading;
      ConsoleLog "ReceitaWS data arrived. Rendering primary data.";
      UpdateTaxRegimeDisplay (getTaxRegimeInfo c)]
     ++ (if renders ReceitaWS data
         then [RenderCardFromReceitaWS data c;
               UpdateCardWithIEData (cnpjaDataCache s) (data ?. "uf")]
         else [])).
Proof.
  intros Ht. unfold handleReceitaWsResponse, renderCardFromReceitaWS, voted.
  rewrite Ht. cbn [negb]. run_handler.
  destruct (renders ReceitaWS data); reflexivity.
Qed.

Lemma handle_failure_run (renders : Rendering) p data s :
  truthy data = false ->
  handle renders p data s = handleFailure (apiNameOf p) s.
Proof.
  intros Ht. destruct p; cbn [handle apiNameOf];
    [unfold handleCnpjaResponse | unfold handleReceitaWsResponse
     | unfold handleMinhaReceitaResponse]; rewrite Ht; reflexivity.
Qed.

Lemma exec_handle_failure (renders : Rendering) p data s :
  truthy data = false ->
  exec (handle renders p data) s = set_failedApiCount (S (failedApiCount s)) s.
Proof.
  intros Ht. unfold exec. rewrite (handle_failure_run renders p data s Ht), handleFailure_run.
  reflexivity.
Qed.

Lemma logOf_handle_failure (renders : Rendering) p data s :
  truthy data = false ->
  logOf (handle renders p data) s =
    ConsoleError (apiNameOf p ++ " API failed or returned no data.")
    :: (if (S (failedApiCount s) =? TOTAL_APIS)%nat
        then [HideLoading;
              MostrarErro "Todas as fontes de dados falharam. Tente novamente mais tarde."]
        else []).
Proof.
  intros Ht. unfold logOf. rewrite (handle_failure_run renders p data s Ht), handleFailure_run.
  reflexivity.
Qed.

(** ** Order of settlement *)

(** The handlers leave in the consensus object what the
    [updateTaxConsensus] calls they make leave there. *)
Lemma recordVotes_consensus_only votes s1 s2 :
  taxRegimeConsensus s1 = taxRegimeConsensus s2 ->
  taxRegimeConsensus (exec (recordVotes votes) s1)
  = taxRegimeConsensus (exec (recordVotes votes) s2).
Proof.
  intros H. destruct votes as [| v vs]; [exact H |].
  rewrite !recordVotes_consensus, H. reflexivity.
Qed.

Lemma consensus_handle (renders : Rendering) p data s :
  taxRegimeConsensus (exec (handle renders p data) s)
  = if truthy data then voted (apiNameOf p) data s else taxRegimeConsensus s.
Proof.
  destruct (truthy data) eqn:Ht.
  - unfold exec. destruct p; cbn [handle apiNameOf].
    + rewrite (handleCnpjaResponse_run renders data s Ht). cbv zeta.
      destruct (truthy (receitaWsDataCache s)); destruct (hasRendered s); reflexivity.
    + rewrite (handleReceitaWsResponse_run renders data s Ht). reflexivity.
    + rewrite (handleMinhaReceitaResponse_run renders data s Ht). cbv zeta.
      destruct (truthy (receitaWsDataCache s)); destruct (hasRendered s); reflexivity.
  - rewrite (exec_handle_failure renders p data s Ht). reflexivity.
Qed.

Lemma arrive_consensus (renders : Rendering) arrivals : forall s,
  taxRegimeConsensus (exec (arrive renders arrivals) s)
  = taxRegimeConsensus (exec (recordVotes (votesCast arrivals)) s).
Proof.
  induction arrivals as [| [p data] rest IH]; intros s; [reflexivity |].
  cbn [arrive]. rewrite exec_seq, IH.
  unfold votesCast. cbn [filter snd]. destruct (truthy data) eqn:Ht.
  - cbn [map fst snd recordVotes]. rewrite exec_seq.
    apply recordVotes_consensus_only.
    rewrite consensus_handle, Ht, updateTaxConsensus_exec. reflexivity.
  - apply recordVotes_consensus_only. rewrite consensus_handle, Ht. reflexivity.
Qed.

Lemma votesCast_perm arrivals1 arrivals2 :
  Permutation arrivals1 arrivals2 -> Permutation (votesCast arrivals1) (votesCast arrivals2).
Proof.
  intros HP. unfold votesCast. apply Permutation_map.
  induction HP as [| a l l' _ IH | a b l | l l' l'' _ IH1 _ IH2].
  - constructor.
  - cbn [filter]. destruct (truthy (snd a)); [apply perm_skip |]; exact IH.
  - cbn [filter]. destruct (truthy (snd a)); destruct (truthy (snd b));
      try apply Permutation_refl. apply perm_swap.
  - exact (Permutation_trans IH1 IH2).
Qed.

(** C10. Two runs of [updateTaxConsensus] over the same votes in
    different orders end with the same [confirmed] and the same
    [needsWarning]; and so do two requests whose providers settle with the
    same values in different orders, whatever the render calls do. *)
Theorem consensus_ignores_arrival_order :
  (forall (s : Request) (votes1 votes2 : list (string * JsValue)),
      Permutation votes1 votes2 ->
      confirmedOf (exec (recordVotes votes1) s) = confirmedOf (exec (recordVotes votes2) s)
      /\ needsWarningOf (exec (recordVotes votes1) s)
         = needsWarningOf (exec (recordVotes votes2) s))
  /\ (forall (renders : Rendering) (arrivals1 arrivals2 : list (Provider * JsValue)),
         Permutation arrivals1 arrivals2 ->
         confirmedOf (exec (arrive renders arrivals1) initialRequest)
         = confirmedOf (exec (arrive renders arrivals2) initialRequest)
         /\ needsWarningOf (exec (arrive renders arrivals1) initialRequest)
            = needsWarningOf (exec (arrive renders arrivals2) initialRequest)).
Proof.
  split; [exact recordVotes_perm |].
  intros renders arrivals1 arrivals2 HP.
  unfold confirmedOf, needsWarningOf. rewrite !arrive_consensus.
  exact (recordVotes_perm initialRequest _ _ (votesCast_perm _ _ HP)).
Qed.

Lemma consensus_ignores_arrival_order_witness :
  confirmedOf
    (exec (arrive allReturn [(CNPJA, normalRecord); (ReceitaWS, simeiRecord);
                   (MinhaReceita, JNull)]) initialRequest)
  = confirmedOf
      (exec (arrive allReturn [(ReceitaWS, simeiRecord); (CNPJA, normalRecord);
                     (MinhaReceita, JNull)]) initialRequest)
  /\ needsWarningOf
       (exec (arrive allReturn [(CNPJA, normalRecord); (ReceitaWS, simeiRecord);
                      (MinhaReceita, JNull)]) initialRequest)
     = needsWarningOf
         (exec (arrive allReturn [(ReceitaWS, simeiRecord); (CNPJA, normalRecord);
                        (MinhaReceita, JNull)]) initialRequest).
Proof.
  apply (proj2 consensus_ignores_arrival_order allReturn).
  apply perm_swap.
Defined.

(** ** Failure counting *)

Lemma handle_success_counts (renders : Rendering) p data s :
  truthy data = true ->
  failedApiCount (exec (handle renders p data) s) = failedApiCount s
  /\ allFailedSignals (logOf (handle renders p data) s) = 0.
Proof.
  intros Ht. unfold exec, logOf, allFailedSignals.
  destruct p; cbn [handle].
  - rewrite (handleCnpjaResponse_run renders data s Ht). cbv zeta.
    destruct (truthy (receitaWsDataCache s)); destruct (hasRendered s);
      destruct (renders CNPJA data); split; reflexivity.
  - rewrite (handleReceitaWsResponse_run renders data s Ht).
    destruct (renders ReceitaWS data); split; reflexivity.
  - rewrite (handleMinhaReceitaResponse_run renders data s Ht). cbv zeta.
    destruct (truthy (receitaWsDataCache s)); destruct (hasRendered s);
      destruct (renders MinhaReceita data); split; reflexivity.
Qed.

Lemma handle_failure_counts (renders : Rendering) p data s :
  truthy data = false ->
  failedApiCount (exec (handle renders p data) s) = S (failedApiCount s)
  /\ allFailedSignals (logOf (handle renders p data) s)
     = if (S (failedApiCount s) =? TOTAL_APIS)%nat then 1 else 0.
Proof.
  intros Ht.
  rewrite (exec_handle_failure renders p data s Ht),
    (logOf_handle_failure renders p data s Ht).
  split; [reflexivity |].
  unfold allFailedSignals.
  destruct (S (failedApiCount s) =? TOTAL_APIS)%nat; reflexivity.
Qed.

Lemma allFailedSignals_app l1 l2 :
  allFailedSignals (l1 ++ l2) = allFailedSignals l1 + allFailedSignals l2.
Proof. unfold allFailedSignals. rewrite filter_app, length_app. reflexivity. Qed.

Lemma arrive_counts (renders : Rendering) arrivals : forall s,
  failedApiCount (exec (arrive renders arrivals) s) = failedApiCount s + failuresAmong arrivals
  /\ allFailedSignals (logOf (arrive renders arrivals) s)
     = if (failedApiCount s <? TOTAL_APIS)%nat
          && (TOTAL_APIS <=? failedApiCount s + failuresAmong arrivals)%nat
       then 1 else 0.
Proof.
  unfold TOTAL_APIS.
  induction arrivals as [| [p data] rest IH]; intros s.
  - change (exec (arrive renders []) s) with s.
    change (logOf (arrive renders []) s) with (@nil Effect).
    change (failuresAmong []) with 0.
    change (allFailedSignals []) with 0.
    rewrite Nat.add_0_r. split; [reflexivity |].
    destruct (Nat.ltb_spec (failedApiCount s) 3);
      destruct (Nat.leb_spec 3 (failedApiCount s));
      cbn [andb]; try reflexivity; lia.
  - cbn [arrive]. rewrite exec_seq, logOf_seq, allFailedSignals_app.
    destruct (IH (exec (handle renders p data) s)) as [IHc IHs]. rewrite IHc, IHs.
    assert (Hf : failuresAmong ((p, data) :: rest)
                 = (if truthy data then 0 else 1) + failuresAmong rest).
    { unfold failuresAmong. cbn [filter snd]. destruct (truthy data); reflexivity. }
    rewrite Hf. clear Hf IHc IHs.
    destruct (truthy data) eqn:Ht.
    + destruct (handle_success_counts renders p data s Ht) as [Hc Hs]. rewrite Hc, Hs.
      split; reflexivity.
    + destruct (handle_failure_counts renders p data s Ht) as [Hc Hs]. rewrite Hc, Hs.
      unfold TOTAL_APIS. generalize (failuresAmong rest) (failedApiCount s).
      intros f n. split; [lia |].
      destruct (Nat.eqb_spec (S n) 3);
        destruct (Nat.ltb_spec (S n) 3);
        destruct (Nat.ltb_spec n 3);
        destruct (Nat.leb_spec 3 (S n + f));
        destruct (Nat.leb_spec 3 (n + (1 + f)));
        cbn [andb Nat.add]; try reflexivity; lia.
Qed.

Lemma providers_nodup_length (ps : list Provider) : NoDup ps -> length ps <= 3.
Proof.
  intros H.
  apply (NoDup_incl_length (l' := [CNPJA; ReceitaWS; MinhaReceita]) H).
  intros p _. destruct p; simpl; auto.
Qed.

Lemma failuresAmong_le arrivals : failuresAmong arrivals <= length arrivals.
Proof. unfold failuresAmong. apply filter_length_le. Qed.

Lemma failuresAmong_all arrivals :
  Forall (fun a => truthy (snd a) = false) arrivals ->
  failuresAmong arrivals = length arrivals.
Proof.
  unfold failuresAmong. induction 1 as [| a rest Ha _ IH]; [reflexivity |].
  cbn [filter]. rewrite Ha. cbn [negb length]. rewrite IH. reflexivity.
Qed.

(** C6. In a request every provider settles once. Whatever the order,
    whatever the render calls do,
    and at whatever point of the request, the all-sources-failed message
    has been shown once if three failures have arrived and not at all
    otherwise; so three failing adapters give exactly one message, in any
    order of arrival, and fewer than three failures give none. *)
Theorem all_sources_failed_signalled_once :
  forall (renders : Rendering) (arrivals : list (Provider * JsValue)),
    NoDup (map fst arrivals) ->
    allFailedSignals (logOf (arrive renders arrivals) initialRequest)
      = (if (failuresAmong arrivals =? TOTAL_APIS)%nat then 1 else 0)
    /\ (Permutation (map fst arrivals) [CNPJA; ReceitaWS; MinhaReceita] ->
        Forall (fun a => truthy (snd a) = false) arrivals ->
        allFailedSignals (logOf (arrive renders arrivals) initialRequest) = 1)
    /\ (failuresAmong arrivals < TOTAL_APIS ->
        allFailedSignals (logOf (arrive renders arrivals) initialRequest) = 0).
Proof.
  intros renders arrivals Hnd.
  destruct (arrive_counts renders arrivals initialRequest) as [_ Hs].
  pose proof (providers_nodup_length _ Hnd) as Hlen. rewrite length_map in Hlen.
  pose proof (failuresAmong_le arrivals) as Hle.
  assert (Heq : allFailedSignals (logOf (arrive renders arrivals) initialRequest)
                = (if (failuresAmong arrivals =? TOTAL_APIS)%nat then 1 else 0)).
  { rewrite Hs. unfold TOTAL_APIS in *. cbn [failedApiCount initialRequest Nat.add].
    destruct (Nat.leb_spec 3 (failuresAmong arrivals));
      destruct (Nat.eqb_spec (failuresAmong arrivals) 3); cbn; try reflexivity; lia. }
  split; [exact Heq |]. split.
  - intros HP Hall. rewrite Heq.
    rewrite (failuresAmong_all arrivals Hall).
    apply Permutation_length in HP. rewrite length_map in HP. rewrite HP. reflexivity.
  - intros Hlt. rewrite Heq.
    destruct (Nat.eqb_spec (failuresAmong arrivals) TOTAL_APIS); [lia | reflexivity].
Qed.

Lemma all_sources_failed_signalled_once_witness :
  NoDup (map fst [(MinhaReceita, JNull); (CNPJA, JBool false); (ReceitaWS, JNull)])
  /\ allFailedSignals
       (logOf (arrive allReturn
                      [(MinhaReceita, JNull); (CNPJA, JBool false); (ReceitaWS, JNull)])
              initialRequest) = 1.
Proof.
  assert (Hnd : NoDup (map fst [(MinhaReceita, JNull); (CNPJA, JBool false);
                                (ReceitaWS, JNull)])).
  { cbn. repeat constructor; simpl; intuition discriminate. }
  split; [exact Hnd |].
  exact (proj1 (all_sources_failed_signalled_once allReturn _ Hnd)).
Defined.

(** ** Render decisions *)

Lemma exec_handleReceitaWs (renders : Rendering) data s :
  truthy data = true ->
  exec (handle renders ReceitaWS data) s =
    set_taxRegimeConsensus (voted "ReceitaWS" data s)
      (set_receitaWsDataCache data (set_hasRendered true s)).
Proof.
  intros Ht. unfold exec. cbn [handle].
  rewrite (handleReceitaWsResponse_run renders data s Ht). reflexivity.
Qed.

Lemma logOf_handleReceitaWs (renders : Rendering) data s :
  truthy data = true ->
  logOf (handle renders ReceitaWS data) s =
    [HideLoading;
     ConsoleLog "ReceitaWS data arrived. Rendering primary data.";
     UpdateTaxRegimeDisplay (getTaxRegimeInfo (voted "ReceitaWS" data s))]
    ++ (if renders ReceitaWS data
        then [RenderCardFromReceitaWS data (voted "ReceitaWS" data s);
              UpdateCardWithIEData (cnpjaDataCache s) (data ?. "uf")]
        else []).
Proof.
  intros Ht. unfold logOf. cbn [handle].
  rewrite (handleReceitaWsResponse_run renders data s Ht). reflexivity.
Qed.

Lemma cnpjaDataCache_handle (renders : Rendering) p data s :
  cnpjaDataCache (exec (handle renders p data) s) =
    match p with
    | CNPJA => if truthy data then data else cnpjaDataCache s
    | _ => cnpjaDataCache s
    end.
Proof.
  destruct (truthy data) eqn:Ht.
  - unfold exec. destruct p; cbn [handle].
    + rewrite (handleCnpjaResponse_run renders data s Ht). cbv zeta.
      destruct (truthy (receitaWsDataCache s)); destruct (hasRendered s); reflexivity.
    + rewrite (handleReceitaWsResponse_run renders data s Ht). reflexivity.
    + rewrite (handleMinhaReceitaResponse_run renders data s Ht). cbv zeta.
      destruct (truthy (receitaWsDataCache s)); destruct (hasRendered s); reflexivity.
  - rewrite (exec_handle_failure renders p data s Ht). destruct p; reflexivity.
Qed.

Lemma cnpjaDataCache_arrive (renders : Rendering) arrivals : forall s,
  cnpjaDataCache (exec (arrive renders arrivals) s) = resolvedCnpja arrivals (cnpjaDataCache s).
Proof.
  induction arrivals as [| [p data] rest IH]; intros s; [reflexivity |].
  cbn [arrive]. rewrite exec_seq, IH, cnpjaDataCache_handle.
  destruct p; reflexivity.
Qed.

(** A secondary provider that settles once [hasRendered] is set never
    draws the card, and posts no notice. *)
Lemma late_secondary_never_renders (renders : Rendering) p data s :
  isSecondary p = true ->
  hasRendered s = true ->
  filter isFullRender (logOf (handle renders p data) s) = []
  /\ filter isNotice (logOf (handle renders p data) s) = []
  /\ hasRendered (exec (handle renders p data) s) = true.
Proof.
  intros Hp Hr. destruct (truthy data) eqn:Ht.
  - unfold exec, logOf. destruct p; [| discriminate Hp |]; cbn [handle].
    + rewrite (handleCnpjaResponse_run renders data s Ht). cbv zeta. rewrite Hr.
      destruct (truthy (receitaWsDataCache s)); repeat split; try reflexivity; exact Hr.
    + rewrite (handleMinhaReceitaResponse_run renders data s Ht). cbv zeta. rewrite Hr.
      rewrite andb_false_r. repeat split; try reflexivity; exact Hr.
  - rewrite (exec_handle_failure renders p data s Ht),
      (logOf_handle_failure renders p data s Ht).
    destruct (S (failedApiCount s) =? TOTAL_APIS)%nat; repeat split;
      try reflexivity; exact Hr.
Qed.

(** What a late secondary success does instead: its vote, the refreshed
    regime text, and for CNPJ.A the registrations when ReceitaWS has
    answered. *)
Lemma late_secondary_merges (renders : Rendering) p data s :
  isSecondary p = true ->
  hasRendered s = true ->
  truthy data = true ->
  taxRegimeConsensus (exec (handle renders p data) s) = voted (apiNameOf p) data s
  /\ logOf (handle renders p data) s =
     match p with
     | CNPJA =>
         [ConsoleLog "CNPJ.A data arrived.";
          UpdateTaxRegimeDisplay (getTaxRegimeInfo (voted "CNPJA" data s))]
         ++ (if truthy (receitaWsDataCache s)
             then [UpdateCardWithIEData data (receitaWsDataCache s ?. "uf")]
             else [])
     | _ =>
         [ConsoleLog "MinhaReceita data arrived.";
          UpdateTaxRegimeDisplay (getTaxRegimeInfo (voted "MinhaReceita" data s))]
     end.
Proof.
  intros Hp Hr Ht. unfold exec, logOf. destruct p; [| discriminate Hp |]; cbn [handle].
  - rewrite (handleCnpjaResponse_run renders data s Ht). cbv zeta. rewrite Hr.
    destruct (truthy (receitaWsDataCache s)); split; reflexivity.
  - rewrite (handleMinhaReceitaResponse_run renders data s Ht). cbv zeta. rewrite Hr.
    rewrite andb_false_r. split; reflexivity.
Qed.

Lemma secondary_step (renders : Rendering) p data s :
  isSecondary p = true ->
  truthy (receitaWsDataCache s) = false ->
  receitaWsDataCache (exec (handle renders p data) s) = receitaWsDataCache s
  /\ hasRendered (exec (handle renders p data) s) = hasRendered s || truthy data
  /\ fullRenders (logOf (handle renders p data) s)
     = if hasRendered s then 0
       else if truthy data && renders p data then 1 else 0.
Proof.
  intros Hp Hw. unfold fullRenders. destruct (truthy data) eqn:Ht.
  - unfold exec, logOf. destruct p; [| discriminate Hp |]; cbn [handle].
    + rewrite (handleCnpjaResponse_run renders data s Ht). cbv zeta. rewrite Hw.
      destruct (hasRendered s) eqn:Hr; destruct (renders CNPJA data); repeat split;
        cbn [fst snd]; project_setters; rewrite ?Hr; reflexivity.
    + rewrite (handleMinhaReceitaResponse_run renders data s Ht). cbv zeta. rewrite Hw.
      destruct (hasRendered s) eqn:Hr; destruct (renders MinhaReceita data);
        repeat split;
        cbn [fst snd negb andb]; project_setters; rewrite ?Hr; reflexivity.
  - rewrite (exec_handle_failure renders p data s Ht),
      (logOf_handle_failure renders p data s Ht).
    rewrite orb_false_r.
    destruct (S (failedApiCount s) =? TOTAL_APIS)%nat; destruct (hasRendered s) eqn:Hr;
      repeat split; project_setters; rewrite ?Hr; reflexivity.
Qed.

Lemma fullRenders_app l1 l2 : fullRenders (l1 ++ l2) = fullRenders l1 + fullRenders l2.
Proof. unfold fullRenders. rewrite filter_app, length_app. reflexivity. Qed.

(** While only secondary providers have settled, the card is drawn at
    most once: by the first of them that succeeds, if its render call
    returns. *)
Lemma secondary_arrivals_render_once (renders : Rendering) arrivals : forall s,
  forallb (fun a => isSecondary (fst a)) arrivals = true ->
  truthy (receitaWsDataCache s) = false ->
  truthy (receitaWsDataCache (exec (arrive renders arrivals) s)) = false
  /\ (hasRendered s = true -> hasRendered (exec (arrive renders arrivals) s) = true)
  /\ fullRenders (logOf (arrive renders arrivals) s)
     <= (if hasRendered s then 0
         else if hasRendered (exec (arrive renders arrivals) s) then 1 else 0).
Proof.
  induction arrivals as [| [p data] rest IH]; intros s Hall Hw.
  - change (exec (arrive renders []) s) with s. split; [exact Hw |]. split; [auto |].
    destruct (hasRendered s); apply Nat.le_refl.
  - cbn [forallb fst] in Hall. apply andb_true_iff in Hall. destruct Hall as [Hp Hrest].
    cbn [arrive]. rewrite exec_seq, logOf_seq, fullRenders_app.
    destruct (secondary_step renders p data s Hp Hw) as [Hc [Hr Hn]].
    assert (Hw' : truthy (receitaWsDataCache (exec (handle renders p data) s)) = false)
      by (rewrite Hc; exact Hw).
    destruct (IH (exec (handle renders p data) s) Hrest Hw') as [IHw [IHm IHn]].
    split; [exact IHw |]. split.
    + intros Hs. apply IHm. rewrite Hr, Hs. reflexivity.
    + rewrite Hn. revert IHn IHm. rewrite Hr.
      destruct (hasRendered s); destruct (truthy data); destruct (renders p data);
        cbn [orb andb]; intros IHn IHm; try rewrite (IHm eq_refl);
        try (destruct (hasRendered (exec (arrive renders rest)
                                         (exec (handle renders p data) s))));
        cbn [Nat.add] in *; lia.
Qed.

Lemma exec_arrive_app (renders : Rendering) l1 : forall l2 s,
  exec (arrive renders (l1 ++ l2)) s = exec (arrive renders l2) (exec (arrive renders l1) s).
Proof.
  induction l1 as [| [p data] l1 IH]; intros l2 s; [reflexivity |].
  cbn [app arrive]. rewrite !exec_seq. apply IH.
Qed.

Lemma logOf_arrive_app (renders : Rendering) l1 : forall l2 s,
  logOf (arrive renders (l1 ++ l2)) s
  = logOf (arrive renders l1) s ++ logOf (arrive renders l2) (exec (arrive renders l1) s).
Proof.
  induction l1 as [| [p data] l1 IH]; intros l2 s; [reflexivity |].
  cbn [app arrive]. rewrite !logOf_seq, !exec_seq, IH, app_assoc. reflexivity.
Qed.


(** The card is drawn only after [hasRendered] has been set. *)
Lemma fullRenders_needs_hasRendered (renders : Rendering) arrivals : forall s,
  forallb (fun a => isSecondary (fst a)) arrivals = true ->
  truthy (receitaWsDataCache s) = false ->
  hasRendered s = false ->
  1 <= fullRenders (logOf (arrive renders arrivals) s) ->
  hasRendered (exec (arrive renders arrivals) s) = true.
Proof.
  intros s Hall Hw Hr Hn.
  destruct (secondary_arrivals_render_once renders arrivals s Hall Hw) as [_ [_ Hle]].
  rewrite Hr in Hle.
  destruct (hasRendered (exec (arrive renders arrivals) s)); [reflexivity | lia].
Qed.

(** ReceitaWS succeeding after a secondary provider has drawn the
    card, with a record that [renderCardFromReceitaWS] draws: the card
    was drawn once so far; the handler hides the spinner, refreshes the
    regime text, draws the whole card again from the ReceitaWS record
    with the consensus that now includes its vote, and then fills the
    registrations from the CNPJ.A record cached so far (or [null]) with
    the [uf] of the ReceitaWS record. It posts no notice. *)
Theorem receitaws_rerenders_after_secondary :
  forall (renders : Rendering) (earlier : list (Provider * JsValue)) (data : JsValue),
    forallb (fun a => isSecondary (fst a)) earlier = true ->
    1 <= fullRenders (logOf (arrive renders earlier) initialRequest) ->
    truthy data = true ->
    renders ReceitaWS data = true ->
    let s := exec (arrive renders earlier) initialRequest in
    let s' := exec (handle renders ReceitaWS data) s in
    fullRenders (logOf (arrive renders earlier) initialRequest) = 1
    /\ hasRendered s = true
    /\ logOf (handle renders ReceitaWS data) s =
      [HideLoading;
       ConsoleLog "ReceitaWS data arrived. Rendering primary data.";
       UpdateTaxRegimeDisplay (getTaxRegimeInfo (taxRegimeConsensus s'));
       RenderCardFromReceitaWS data (taxRegimeConsensus s');
       UpdateCardWithIEData (resolvedCnpja earlier JNull) (data ?. "uf")]
    /\ filter isFullRender (logOf (handle renders ReceitaWS data) s)
       = [RenderCardFromReceitaWS data (taxRegimeConsensus s')]
    /\ filter isNotice (logOf (handle renders ReceitaWS data) s) = []
    /\ votesOf s' = votesOf s ++ [getTaxRegimeFromData data]
    /\ receitaWsDataCache s' = data
    /\ hasRendered s' = true.
Proof.
  intros renders earlier data Hsec Hn Ht Hok s s'. subst s s'.
  assert (Hr : hasRendered (exec (arrive renders earlier) initialRequest) = true)
    by exact (fullRenders_needs_hasRendered renders earlier initialRequest
                Hsec eq_refl eq_refl Hn).
  split.
  { destruct (secondary_arrivals_render_once renders earlier initialRequest Hsec eq_refl)
      as [_ [_ Hle]].
    rewrite Hr in Hle. cbn [hasRendered initialRequest] in Hle. lia. }
  split; [exact Hr |].
  rewrite (logOf_handleReceitaWs renders data _ Ht), (exec_handleReceitaWs renders data _ Ht).
  rewrite Hok, cnpjaDataCache_arrive.
  cbn [taxRegimeConsensus set_taxRegimeConsensus receitaWsDataCache hasRendered
       set_receitaWsDataCache set_hasRendered cnpjaDataCache initialRequest].
  repeat split; try reflexivity.
  unfold votesOf, voted. project_setters. cbn [recompute sources].
  rewrite map_app. reflexivity.
Qed.

Lemma receitaws_rerenders_after_secondary_witness :
  forallb (fun a => isSecondary (fst a))
          [(MinhaReceita, normalRecord); (CNPJA, simplesRecord)] = true
  /\ 1 <= fullRenders
            (logOf (arrive allReturn [(MinhaReceita, normalRecord); (CNPJA, simplesRecord)])
                   initialRequest)
  /\ filter isFullRender
       (logOf (handle allReturn ReceitaWS silentRecord)
              (exec (arrive allReturn [(MinhaReceita, normalRecord); (CNPJA, simplesRecord)])
                    initialRequest))
     = [RenderCardFromReceitaWS silentRecord
          (taxRegimeConsensus
             (exec (handle allReturn ReceitaWS silentRecord)
                   (exec (arrive allReturn
                                 [(MinhaReceita, normalRecord); (CNPJA, simplesRecord)])
                         initialRequest)))].
Proof.
  split; [reflexivity |]. split; [apply Nat.le_refl |].
  exact (proj1 (proj2 (proj2 (proj2 (receitaws_rerenders_after_secondary
                                allReturn
                                [(MinhaReceita, normalRecord); (CNPJA, simplesRecord)]
                                silentRecord eq_refl (Nat.le_refl 1) eq_refl eq_refl))))).
Defined.


(** C5, at the failing input. CNPJ.A answering first draws the card from
    its record, when [renderCardFromCNPJA] returns, and posts no
    preliminary-data notice in either case, while MinhaReceita answering
    first posts it as soon as it has drawn the card. *)
Theorem cnpja_first_render_posts_no_notice :
  forall renders : Rendering,
    logOf (handle renders CNPJA simplesRecord) initialRequest
    = [ConsoleLog "CNPJ.A data arrived."; HideLoading;
       ConsoleLog "Rendering fallback data from CNPJ.A."]
      ++ (if renders CNPJA simplesRecord
          then [RenderCardFromCNPJA simplesRecord
                  {| sources := [mkSource "CNPJA" "Simples"];
                     confirmed := Some "Simples";
                     needsWarning := false |}]
          else [])
    /\ filter isNotice (logOf (handle renders CNPJA simplesRecord) initialRequest) = []
    /\ filter isNotice (logOf (handle renders MinhaReceita normalRecord) initialRequest)
       = if renders MinhaReceita normalRecord
         then [AddWarningMessage preliminaryNotice]
         else [].
Proof.
  intros renders. unfold logOf. cbn [handle].
  rewrite (handleCnpjaResponse_run renders simplesRecord initialRequest eq_refl).
  rewrite (handleMinhaReceitaResponse_run renders normalRecord initialRequest eq_refl).
  cbv zeta. cbn [receitaWsDataCache hasRendered initialRequest truthy negb andb snd].
  destruct (renders CNPJA simplesRecord); destruct (renders MinhaReceita normalRecord);
    repeat split.
Qed.

(** ** Adapters and retries *)

Lemma attemptsMade_cons_fetch b t l : attemptsMade (AFetch b t :: l) = S (attemptsMade l).
Proof. reflexivity. Qed.

Lemma attemptsMade_app l1 l2 : attemptsMade (l1 ++ l2) = attemptsMade l1 + attemptsMade l2.
Proof. unfold attemptsMade. rewrite filter_app, length_app. reflexivity. Qed.

Lemma delaysTaken_app l1 l2 : delaysTaken (l1 ++ l2) = delaysTaken l1 ++ delaysTaken l2.
Proof.
  induction l1 as [| e l1 IH]; [reflexivity |].
  destruct e; cbn [app delaysTaken]; rewrite IH; reflexivity.
Qed.

Section RetryLoopFacts.

Variable MAX_RETRIES : nat.
Variable RETRY_DELAY_MS : Z.
Variable target : string.
Variable attemptBody : nat -> FetchOutcome -> option JsValue * list AdapterEvent.
Variable net : Network.

(** The body of an attempt only writes to the console. *)
Hypothesis attemptBody_quiet : forall attempt o,
  attemptsMade (snd (attemptBody attempt o)) = 0
  /\ delaysTaken (snd (attemptBody attempt o)) = [].

Lemma retryLoop_trace remaining : forall attempt,
  attempt + remaining = S MAX_RETRIES ->
  1 <= remaining ->
  let l := snd (retryLoop MAX_RETRIES RETRY_DELAY_MS target attemptBody net
                          remaining attempt) in
  1 <= attemptsMade l <= remaining
  /\ delaysTaken l = repeat RETRY_DELAY_MS (attemptsMade l - 1).
Proof.
  induction remaining as [| k IH]; intros attempt Hsum Hpos; [lia |].
  cbn [retryLoop].
  destruct (attemptBody_quiet attempt (net attempt)) as [Hq1 Hq2].
  destruct (attemptBody attempt (net attempt)) as [[result |] l0]; cbn [snd] in *.
  - rewrite attemptsMade_cons_fetch, Hq1. cbn [delaysTaken]. rewrite Hq2.
    split; [lia | reflexivity].
  - destruct k as [| k'].
    + assert (Hlast : (attempt <? MAX_RETRIES)%nat = false)
        by (apply Nat.ltb_ge; lia).
      rewrite Hlast. cbn [retryLoop snd app].
      rewrite attemptsMade_cons_fetch, attemptsMade_app, Hq1.
      cbn [delaysTaken]. rewrite delaysTaken_app, Hq2.
      split; [cbn; lia | reflexivity].
    + assert (Hmore : (attempt <? MAX_RETRIES)%nat = true)
        by (apply Nat.ltb_lt; lia).
      rewrite Hmore.
      specialize (IH (S attempt) ltac:(lia) ltac:(lia)). cbv zeta in IH.
      destruct (retryLoop MAX_RETRIES RETRY_DELAY_MS target attemptBody net
                          (S k') (S attempt)) as [v rest].
      cbn [snd] in *. destruct IH as [[IH1 IH2] IH3].
      rewrite attemptsMade_cons_fetch, !attemptsMade_app, Hq1.
      cbn [delaysTaken]. rewrite !delaysTaken_app, Hq2, IH3.
      unfold delay. cbn [attemptsMade filter isFetch length delaysTaken app Nat.add].
      split; [lia |].
      replace (S (attemptsMade rest) - 1) with (S (attemptsMade rest - 1)) by lia.
      reflexivity.
Qed.

End RetryLoopFacts.

Lemma receitaWsAttempt_quiet attempt o :
  attemptsMade (snd (receitaWsAttempt attempt o)) = 0
  /\ delaysTaken (snd (receitaWsAttempt attempt o)) = [].
Proof.
  unfold receitaWsAttempt. destruct o as [| response]; [split; reflexivity |].
  destruct (ok response); [| split; reflexivity].
  destruct (body response) as [| result]; [split; reflexivity |].
  destruct (member result "status") as [st |]; [| split; reflexivity].
  destruct (negb (strictEqStr st "ERROR")); split; reflexivity.
Qed.

Lemma minhaReceitaAttempt_quiet attempt o :
  attemptsMade (snd (minhaReceitaAttempt attempt o)) = 0
  /\ delaysTaken (snd (minhaReceitaAttempt attempt o)) = [].
Proof.
  unfold minhaReceitaAttempt. destruct o as [| response]; [split; reflexivity |].
  destruct (ok response); [| split; reflexivity].
  destruct (body response) as [| result]; [split; reflexivity |].
  destruct (truthy result && truthy (result ?. "cnpj")); split; reflexivity.
Qed.

Lemma consultarCNPJA_API_trace cnpj net :
  attemptsMade (snd (consultarCNPJA_API cnpj net)) = 1
  /\ delaysTaken (snd (consultarCNPJA_API cnpj net)) = [].
Proof.
  unfold consultarCNPJA_API. destruct (net 1) as [| response]; [split; reflexivity |].
  destruct (ok response); [| split; reflexivity].
  destruct (body response); split; reflexivity.
Qed.

(** C7, as amended. The adapter of ReceitaWS, the provider whose success
    is drawn over whatever is on screen whenever its render call returns,
    makes up to 3 attempts
    with 1.5 s between consecutive attempts; the adapter of CNPJ.A makes
    exactly 1 attempt and never waits; the adapter of MinhaReceita makes
    up to 2 attempts with 1.5 s between them. Without connectivity the
    three make 3, 1 and 2 attempts. *)
Theorem retry_policy_per_provider :
  forall (cnpj : string) (net : Network),
    (1 <= attemptsMade (snd (consultarReceitaWS cnpj net)) <= 3
     /\ delaysTaken (snd (consultarReceitaWS cnpj net))
        = repeat 1500%Z (attemptsMade (snd (consultarReceitaWS cnpj net)) - 1))
    /\ (attemptsMade (snd (consultarCNPJA_API cnpj net)) = 1
        /\ delaysTaken (snd (consultarCNPJA_API cnpj net)) = [])
    /\ (1 <= attemptsMade (snd (consultarMinhaReceitaAPI cnpj net)) <= 2
        /\ delaysTaken (snd (consultarMinhaReceitaAPI cnpj net))
           = repeat 1500%Z (attemptsMade (snd (consultarMinhaReceitaAPI cnpj net)) - 1))
    /\ (attemptsMade (snd (consultarReceitaWS cnpj offline)) = 3
        /\ attemptsMade (snd (consultarCNPJA_API cnpj offline)) = 1
        /\ attemptsMade (snd (consultarMinhaReceitaAPI cnpj offline)) = 2)
    /\ (forall (renders : Rendering) (s : Request) (data : JsValue),
           truthy data = true ->
           filter isFullRender (logOf (handle renders ReceitaWS data) s)
           = if renders ReceitaWS data
             then [RenderCardFromReceitaWS data (voted "ReceitaWS" data s)]
             else [])
    /\ (forall (renders : Rendering) (p : Provider) (s : Request) (data : JsValue),
           isSecondary p = true ->
           hasRendered s = true ->
           filter isFullRender (logOf (handle renders p data) s) = []).
Proof.
  intros cnpj net.
  split.
  { exact (retryLoop_trace ReceitaWSAdapter.MAX_RETRIES ReceitaWSAdapter.RETRY_DELAY_MS
             _ receitaWsAttempt net receitaWsAttempt_quiet 3 1 eq_refl ltac:(lia)). }
  split; [apply consultarCNPJA_API_trace |].
  split.
  { exact (retryLoop_trace MinhaReceitaAdapter.MAX_RETRIES
             MinhaReceitaAdapter.RETRY_DELAY_MS
             _ minhaReceitaAttempt net minhaReceitaAttempt_quiet 2 1 eq_refl
             ltac:(lia)). }
  split; [repeat split |].
  split.
  - intros renders s data Ht. rewrite (logOf_handleReceitaWs renders data s Ht).
    destruct (renders ReceitaWS data); reflexivity.
  - intros renders p s data Hp Hr.
    exact (proj1 (late_secondary_never_renders renders p data s Hp Hr)).
Qed.

(** C7, as stated, fails: without connectivity the ReceitaWS adapter
    makes 3 attempts with two waits of 1.5 s, and the CNPJ.A adapter makes
    a single attempt; yet it is a ReceitaWS success that is drawn over a
    card already on screen, where a CNPJ.A success is not. *)
Lemma overriding_provider_retries :
  attemptsMade (snd (consultarReceitaWS "11222333000181" offline)) = 3
  /\ delaysTaken (snd (consultarReceitaWS "11222333000181" offline)) = [1500; 1500]%Z
  /\ fst (consultarReceitaWS "11222333000181" offline) = JNull
  /\ attemptsMade (snd (consultarCNPJA_API "11222333000181" offline)) = 1
  /\ delaysTaken (snd (consultarCNPJA_API "11222333000181" offline)) = []
  /\ fullRenders (logOf (handle allReturn ReceitaWS silentRecord)
                        (exec (arrive allReturn [(MinhaReceita, normalRecord)])
                              initialRequest)) = 1
  /\ fullRenders (logOf (handle allReturn CNPJA simplesRecord)
                        (exec (arrive allReturn [(MinhaReceita, normalRecord)])
                              initialRequest)) = 0.
Proof. repeat split. Qed.

Lemma receitaWsAttempt_cases attempt o :
  (exists result, receitaWsAttempt attempt o = (Some result, []))
  \/ receitaWsAttempt attempt o = (None, [AConsoleError attempt])
  \/ receitaWsAttempt attempt o = (None, [AConsoleWarn attempt]).
Proof.
  unfold receitaWsAttempt. destruct o as [| response]; [auto |].
  destruct (ok response); [| auto].
  destruct (body response) as [| result]; [auto |].
  destruct (member result "status") as [st |]; [| auto].
  destruct (negb (strictEqStr st "ERROR")); [left; exists result; reflexivity | auto].
Qed.

Lemma receitaWsAttempt_any_number attempt o :
  fst (receitaWsAttempt attempt o) = fst (receitaWsAttempt 0 o).
Proof.
  unfold receitaWsAttempt. destruct o as [| response]; [reflexivity |].
  destruct (ok response); [| reflexivity].
  destruct (body response) as [| result]; [reflexivity |].
  destruct (member result "status") as [st |]; [| reflexivity].
  destruct (negb (strictEqStr st "ERROR")); reflexivity.
Qed.

Lemma attemptFails_iff attempt o :
  attemptFails o = true <-> fst (receitaWsAttempt attempt o) = None.
Proof.
  unfold attemptFails. rewrite (receitaWsAttempt_any_number attempt o).
  destruct (fst (receitaWsAttempt 0 o)); split; congruence.
Qed.

Lemma attemptFails_causes o :
  attemptFails o = specRetryCondition o || decodingThrows o.
Proof.
  unfold attemptFails, receitaWsAttempt, specRetryCondition, decodingThrows.
  destruct o as [| [okb st bd]]; [reflexivity |]. cbn [ok body].
  destruct okb; [| reflexivity]. cbn [negb orb andb].
  destruct bd as [| result]; [reflexivity |].
  destruct result; cbn [member optMember fst]; try reflexivity;
    try (rewrite orb_false_r;
         match goal with
         | |- context [strictEqStr ?x "ERROR"] => destruct (strictEqStr x "ERROR")
         end; reflexivity).
Qed.

Lemma consultarReceitaWS_by_cases cnpj net :
  let r := consultarReceitaWS cnpj net in
  match fst (receitaWsAttempt 1 (net 1)),
        fst (receitaWsAttempt 2 (net 2)),
        fst (receitaWsAttempt 3 (net 3)) with
  | Some v, _, _ =>
      fst r = v /\ attemptsMade (snd r) = 1 /\ delaysTaken (snd r) = []
  | None, Some v, _ =>
      fst r = v /\ attemptsMade (snd r) = 2 /\ delaysTaken (snd r) = [1500]%Z
  | None, None, Some v =>
      fst r = v /\ attemptsMade (snd r) = 3 /\ delaysTaken (snd r) = [1500; 1500]%Z
  | None, None, None =>
      fst r = JNull /\ attemptsMade (snd r) = 3 /\ delaysTaken (snd r) = [1500; 1500]%Z
  end.
Proof.
  cbv zeta. unfold consultarReceitaWS, ReceitaWSAdapter.MAX_RETRIES. cbn [retryLoop].
  destruct (receitaWsAttempt_cases 1 (net 1)) as [[v1 E1] | [E1 | E1]]; rewrite E1;
    cbn [fst snd]; try (repeat split; reflexivity);
    destruct (receitaWsAttempt_cases 2 (net 2)) as [[v2 E2] | [E2 | E2]]; rewrite E2;
    cbn [fst snd]; try (repeat split; reflexivity);
    destruct (receitaWsAttempt_cases 3 (net 3)) as [[v3 E3] | [E3 | E3]]; rewrite E3;
    cbn [fst snd]; repeat split; reflexivity.
Qed.

(** C8, as amended. In [consultarReceitaWS] an attempt fails exactly when
    the fetch rejects, or the HTTP result is not ok, or the payload
    carries [status == "ERROR"], or something else throws inside the
    [try]: decoding the body, or reading [status] off a [null] payload. An
    embedded-error envelope is always a failed attempt. The first attempt
    is followed by a second exactly when it fails, and a third is made
    exactly when the first two fail. When attempts 1 and 2
    fail and attempt 3 brings a payload whose status is not ERROR, the
    adapter returns that payload after 3 fetches and exactly 2 waits of
    1.5 s; when all 3 fail it returns [null], again after 2 waits. Every
    exception is caught: the adapter returns on every network. *)
Theorem receitaws_retries_and_resolves :
  (forall o : FetchOutcome,
      attemptFails o = specRetryCondition o || decodingThrows o)
  /\ (forall (attempt : nat) (response : Response) (result : JsValue),
         ok response = true ->
         body response = DecodedAs result ->
         strictEqStr (result ?. "status") "ERROR" = true ->
         fst (receitaWsAttempt attempt (FetchResolves response)) = None)
  /\ (forall (cnpj : string) (net : Network),
         (attemptFails (net 1) = true
          <-> 2 <= attemptsMade (snd (consultarReceitaWS cnpj net)))
         /\ (attemptFails (net 1) = true /\ attemptFails (net 2) = true
             <-> attemptsMade (snd (consultarReceitaWS cnpj net)) = 3))
  /\ (forall (cnpj : string) (net : Network) (response : Response) (result st : JsValue),
         attemptFails (net 1) = true ->
         attemptFails (net 2) = true ->
         net 3 = FetchResolves response ->
         ok response = true ->
         body response = DecodedAs result ->
         member result "status" = Some st ->
         strictEqStr st "ERROR" = false ->
         fst (consultarReceitaWS cnpj net) = result
         /\ attemptsMade (snd (consultarReceitaWS cnpj net)) = 3
         /\ delaysTaken (snd (consultarReceitaWS cnpj net)) = [1500; 1500]%Z)
  /\ (forall (cnpj : string) (net : Network),
         attemptFails (net 1) = true ->
         attemptFails (net 2) = true ->
         attemptFails (net 3) = true ->
         fst (consultarReceitaWS cnpj net) = JNull
         /\ attemptsMade (snd (consultarReceitaWS cnpj net)) = 3
         /\ delaysTaken (snd (consultarReceitaWS cnpj net)) = [1500; 1500]%Z).
Proof.
  split; [exact attemptFails_causes |].
  split.
  { intros attempt response result Hok Hbody Herr.
    apply (attemptFails_iff attempt). rewrite attemptFails_causes.
    unfold specRetryCondition. rewrite Hbody, Herr. apply orb_true_iff. left.
    apply orb_true_r. }
  split.
  { intros cnpj net. pose proof (consultarReceitaWS_by_cases cnpj net) as H.
    cbv zeta in H. rewrite (attemptFails_iff 1), (attemptFails_iff 2).
    destruct (fst (receitaWsAttempt 1 (net 1))) as [v1 |].
    - destruct H as [_ [H _]]. rewrite H.
      split; split; try discriminate; try lia. intros [E _]. discriminate E.
    - destruct (fst (receitaWsAttempt 2 (net 2))) as [v2 |];
        [| destruct (fst (receitaWsAttempt 3 (net 3))) as [v3 |]];
        destruct H as [_ [H _]]; rewrite H;
        split; split; try reflexivity; try lia; try discriminate;
        try (intros [_ E]; discriminate E); auto. }
  split.
  { intros cnpj net response result st H1 H2 H3 Hok Hbody Hst Herr.
    pose proof (consultarReceitaWS_by_cases cnpj net) as H. cbv zeta in H.
    apply (attemptFails_iff 1) in H1. apply (attemptFails_iff 2) in H2.
    rewrite H1, H2 in H.
    assert (E3 : fst (receitaWsAttempt 3 (net 3)) = Some result).
    { rewrite H3. unfold receitaWsAttempt. rewrite Hok, Hbody, Hst, Herr. reflexivity. }
    rewrite E3 in H. exact H. }
  intros cnpj net H1 H2 H3.
  pose proof (consultarReceitaWS_by_cases cnpj net) as H. cbv zeta in H.
  apply (attemptFails_iff 1) in H1. apply (attemptFails_iff 2) in H2.
  apply (attemptFails_iff 3) in H3.
  rewrite H1, H2, H3 in H. exact H.
Qed.

(** C8, as stated, fails: the proxy answers the first attempt with HTTP
    ok and [null] contents. The fetch did not throw, the result is ok and
    the payload carries no error status, and still the attempt fails and
    the adapter waits and tries again. *)
Lemma retry_without_listed_cause :
  specRetryCondition (nullPayloadOnce silentRecord 1) = false
  /\ attemptFails (nullPayloadOnce silentRecord 1) = true
  /\ consultarReceitaWS "11222333000181" (nullPayloadOnce silentRecord)
     = (silentRecord,
        [AFetch true "https://www.receitaws.com.br/v1/cnpj/11222333000181";
         AConsoleError 1;
         ADelay 1500;
         AFetch true "https://www.receitaws.com.br/v1/cnpj/11222333000181"]).
Proof. repeat split. Qed.

Lemma receitaws_retries_and_resolves_witness :
  attemptFails (recoversOnThird silentRecord 1) = true
  /\ attemptFails (recoversOnThird silentRecord 2) = true
  /\ fst (consultarReceitaWS "11222333000181" (recoversOnThird silentRecord))
     = silentRecord
  /\ attemptsMade (snd (consultarReceitaWS "11222333000181" (recoversOnThird silentRecord)))
     = 3
  /\ delaysTaken (snd (consultarReceitaWS "11222333000181" (recoversOnThird silentRecord)))
     = [1500; 1500]%Z.
Proof.
  split; [reflexivity |]. split; [reflexivity |].
  exact (proj1 (proj2 (proj2 (proj2 receitaws_retries_and_resolves)))
           "11222333000181" (recoversOnThird silentRecord)
           (mkResponse true 200 (DecodedAs silentRecord)) silentRecord JUndefined
           eq_refl eq_refl eq_refl eq_refl eq_refl eq_refl eq_refl).
Defined.

(** ** The CNPJ validator *)

Lemma filterChars_all p s : allChars p (filterChars p s) = true.
Proof.
  induction s as [| c s IH]; [reflexivity |]. cbn [filterChars].
  destruct (p c) eqn:Hc; [cbn [allChars]; rewrite Hc, IH; reflexivity | exact IH].
Qed.

Lemma filterChars_id p s : allChars p s = true -> filterChars p s = s.
Proof.
  induction s as [| c s IH]; [reflexivity |]. cbn [allChars filterChars]. intros H.
  apply andb_true_iff in H. destruct H as [Hc Hs]. rewrite Hc, (IH Hs). reflexivity.
Qed.

Lemma limparCNPJ_digits cnpj : allChars isDigit (limparCNPJ cnpj) = true.
Proof. apply filterChars_all. Qed.

Lemma limparCNPJ_idempotent cnpj : limparCNPJ (limparCNPJ cnpj) = limparCNPJ cnpj.
Proof. apply filterChars_id, limparCNPJ_digits. Qed.

Lemma digitsOf_limparCNPJ cnpj : digitsOf (limparCNPJ cnpj) = digitsOf cnpj.
Proof.
  unfold limparCNPJ. induction cnpj as [| c s IH]; [reflexivity |].
  cbn [filterChars digitsOf]. destruct (isDigit c) eqn:Hc.
  - cbn [digitsOf]. rewrite Hc, IH. reflexivity.
  - exact IH.
Qed.

Lemma digitsOf_length c :
  allChars isDigit c = true -> length (digitsOf c) = String.length c.
Proof.
  induction c as [| a c IH]; [reflexivity |]. cbn [allChars digitsOf String.length].
  intros H. apply andb_true_iff in H. destruct H as [Ha Hc].
  rewrite Ha. cbn [length]. rewrite (IH Hc). reflexivity.
Qed.

Lemma validarCNPJ_limparCNPJ cnpj : validarCNPJ (limparCNPJ cnpj) = validarCNPJ cnpj.
Proof. unfold validarCNPJ. rewrite limparCNPJ_idempotent. reflexivity. Qed.

Lemma specValidate_limparCNPJ cnpj : specValidate (limparCNPJ cnpj) = specValidate cnpj.
Proof. unfold specValidate. rewrite digitsOf_limparCNPJ. reflexivity. Qed.

Lemma digitValue_bounds a : isDigit a = true -> (0 <= digitValue a <= 9)%Z.
Proof.
  unfold isDigit, digitValue. intros H. apply andb_true_iff in H.
  destruct H as [H1 H2]. apply Nat.leb_le in H1, H2. lia.
Qed.

Lemma digitValue_eqb a b : Ascii.eqb a b = (digitValue a =? digitValue b)%Z.
Proof.
  unfold digitValue. destruct (Ascii.eqb_spec a b) as [E | E].
  - subst b. symmetry. apply Z.eqb_refl.
  - symmetry. apply Z.eqb_neq. intros H. apply E.
    rewrite <- (ascii_nat_embedding a), <- (ascii_nat_embedding b).
    f_equal. lia.
Qed.

Lemma resultadoDe_nonneg x :
  (0 <= x)%Z ->
  resultadoDe (Some x) = Some (if (x mod 11 <? 2)%Z then 0 else 11 - x mod 11)%Z.
Proof.
  intros H. unfold resultadoDe, jsRem, jsLt, jsSub. cbn [Z.eqb].
  rewrite Z.rem_mod_nonneg by lia.
  destruct (x mod 11 <? 2)%Z; reflexivity.
Qed.

Lemma string_of_length_14 c :
  String.length c = 14 ->
  exists a0 a1 a2 a3 a4 a5 a6 a7 a8 a9 a10 a11 a12 a13,
    c = String a0 (String a1 (String a2 (String a3 (String a4 (String a5 (String a6
        (String a7 (String a8 (String a9 (String a10 (String a11 (String a12
        (String a13 EmptyString))))))))))))).
Proof.
  intros H.
  do 14 (destruct c as [| ? c]; [discriminate H |]).
  destruct c as [| ? c]; [| discriminate H].
  do 14 eexists. reflexivity.
Qed.

Ltac use_digits :=
  repeat match goal with
         | H : isDigit ?a = true |- context [isDigit ?a] => rewrite !H
         end.

Lemma validarCNPJ_fourteen_digits a0 a1 a2 a3 a4 a5 a6 a7 a8 a9 a10 a11 a12 a13 :
  let c := String a0 (String a1 (String a2 (String a3 (String a4 (String a5 (String a6
           (String a7 (String a8 (String a9 (String a10 (String a11 (String a12
           (String a13 EmptyString))))))))))))) in
  allChars isDigit c = true ->
  validarCNPJ c = specValidate c.
Proof.
  intros c Hall.
  unfold validarCNPJ, limparCNPJ. rewrite (filterChars_id _ _ Hall).
  unfold specValidate. subst c.
  cbn [allChars] in Hall.
  repeat (apply andb_true_iff in Hall; let H := fresh "Hd" in destruct Hall as [H Hall]).
  clear Hall.
  cbn -[isDigit digitValue resultadoDe Ascii.eqb checkDigit].
  use_digits.
  cbn -[isDigit digitValue resultadoDe Ascii.eqb Z.add Z.mul Z.eqb checkDigit].
  repeat match goal with
         | H : isDigit ?a = true |- _ => apply digitValue_bounds in H
         end.
  rewrite !resultadoDe_nonneg by lia.
  unfold jsStrictEq, checkDigit. cbn [weightedSum weights12 weights13].
  rewrite !digitValue_eqb, !andb_true_r.
  rewrite !Z.add_0_r, !Z.add_assoc.
  rewrite !(fun x => Z.mul_comm 2 (digitValue x)), !(fun x => Z.mul_comm 3 (digitValue x)),
    !(fun x => Z.mul_comm 4 (digitValue x)), !(fun x => Z.mul_comm 5 (digitValue x)),
    !(fun x => Z.mul_comm 6 (digitValue x)), !(fun x => Z.mul_comm 7 (digitValue x)),
    !(fun x => Z.mul_comm 8 (digitValue x)), !(fun x => Z.mul_comm 9 (digitValue x)).
  match goal with
  | |- (if ?A then false else if negb ?B then false else ?C) = _ =>
      destruct A; [reflexivity |]; destruct B; reflexivity
  end.
Qed.

Lemma validarCNPJ_on_digits c :
  allChars isDigit c = true -> validarCNPJ c = specValidate c.
Proof.
  intros Hall. destruct (Nat.eqb_spec (String.length c) 14) as [E | E].
  - destruct (string_of_length_14 c E)
      as (a0 & a1 & a2 & a3 & a4 & a5 & a6 & a7 & a8 & a9 & a10 & a11 & a12 & a13 & Hc).
    subst c. exact (validarCNPJ_fourteen_digits _ _ _ _ _ _ _ _ _ _ _ _ _ _ Hall).
  - unfold validarCNPJ, specValidate, limparCNPJ.
    rewrite (filterChars_id _ _ Hall), (digitsOf_length c Hall).
    apply Nat.eqb_neq in E. rewrite E. reflexivity.
Qed.

(** The validator does what the specification says, on every input. *)
Lemma validarCNPJ_refines_spec cnpj : validarCNPJ cnpj = specValidate cnpj.
Proof.
  rewrite <- validarCNPJ_limparCNPJ, <- specValidate_limparCNPJ.
  apply validarCNPJ_on_digits, limparCNPJ_digits.
Qed.

Lemma list_of_length_14 (l : list Z) :
  length l = 14 ->
  exists x0 x1 x2 x3 x4 x5 x6 x7 x8 x9 x10 x11 x12 x13,
    l = [x0; x1; x2; x3; x4; x5; x6; x7; x8; x9; x10; x11; x12; x13].
Proof.
  intros H.
  do 14 (destruct l as [| ? l]; [discriminate H |]).
  destruct l as [| ? l]; [| discriminate H].
  do 14 eexists. reflexivity.
Qed.

Lemma specValidate_true cnpj :
  specValidate cnpj = true ->
  length (digitsOf cnpj) = 14
  /\ allIdentical (digitsOf cnpj) = false
  /\ nth 12 (digitsOf cnpj) 0%Z = checkDigit weights12 (firstn 12 (digitsOf cnpj))
  /\ nth 13 (digitsOf cnpj) 0%Z = checkDigit weights13 (firstn 13 (digitsOf cnpj)).
Proof.
  unfold specValidate.
  destruct (Nat.eqb_spec (length (digitsOf cnpj)) 14) as [E | E]; [| discriminate].
  cbn [negb]. destruct (allIdentical (digitsOf cnpj)); [discriminate |].
  intros H. apply andb_true_iff in H. destruct H as [H1 H2].
  apply Z.eqb_eq in H1, H2. repeat split; auto.
Qed.

(** Given the first twelve digits, at most one pair of check digits
    validates. *)
Lemma check_digits_unique cnpj cnpj' :
  specValidate cnpj = true ->
  specValidate cnpj' = true ->
  firstn 12 (digitsOf cnpj') = firstn 12 (digitsOf cnpj) ->
  digitsOf cnpj' = digitsOf cnpj.
Proof.
  intros H H' Hpre.
  apply specValidate_true in H, H'.
  destruct H as (Hlen & _ & H12 & H13). destruct H' as (Hlen' & _ & H12' & H13').
  destruct (list_of_length_14 _ Hlen)
    as (x0 & x1 & x2 & x3 & x4 & x5 & x6 & x7 & x8 & x9 & x10 & x11 & x12 & x13 & E).
  destruct (list_of_length_14 _ Hlen')
    as (y0 & y1 & y2 & y3 & y4 & y5 & y6 & y7 & y8 & y9 & y10 & y11 & y12 & y13 & E').
  rewrite E in H12, H13, Hpre. rewrite E' in H12', H13', Hpre. rewrite E, E'.
  cbn [firstn nth] in H12, H13, H12', H13', Hpre.
  injection Hpre as -> -> -> -> -> -> -> -> -> -> -> ->.
  assert (E12 : y12 = x12) by congruence.
  assert (E13 : y13 = x13) by congruence.
  rewrite E12, E13. reflexivity.
Qed.

(** C9. [validarCNPJ] is the specified validator: it rejects an input
    that does not hold exactly 14 digits once the other characters are
    dropped, rejects 14 identical digits (so "11.111.111/1111-11"), and
    otherwise accepts exactly when the 13th digit is the weighted
    modulo-11 check digit of the first 12 and the 14th that of the first
    13. So "11.222.333/0001-81" is accepted, and an input that keeps the
    first 12 digits of an accepted one and changes either check digit is
    rejected. *)
Theorem validarCNPJ_checks_digits :
  (forall cnpj : string, validarCNPJ cnpj = specValidate cnpj)
  /\ (forall cnpj : string,
         length (digitsOf cnpj) <> 14 -> validarCNPJ cnpj = false)
  /\ (forall cnpj : string,
         allIdentical (digitsOf cnpj) = true -> validarCNPJ cnpj = false)
  /\ validarCNPJ "11.111.111/1111-11" = false
  /\ (forall cnpj : string,
         length (digitsOf cnpj) = 14 ->
         allIdentical (digitsOf cnpj) = false ->
         validarCNPJ cnpj
         = (checkDigit weights12 (firstn 12 (digitsOf cnpj)) =? nth 12 (digitsOf cnpj) 0)%Z
           && (checkDigit weights13 (firstn 13 (digitsOf cnpj))
               =? nth 13 (digitsOf cnpj) 0)%Z)
  /\ validarCNPJ "11.222.333/0001-81" = true
  /\ (forall cnpj cnpj' : string,
         validarCNPJ cnpj = true ->
         firstn 12 (digitsOf cnpj') = firstn 12 (digitsOf cnpj) ->
         digitsOf cnpj' <> digitsOf cnpj ->
         validarCNPJ cnpj' = false).
Proof.
  split; [exact validarCNPJ_refines_spec |].
  split.
  { intros cnpj H. rewrite validarCNPJ_refines_spec. unfold specValidate.
    apply Nat.eqb_neq in H. rewrite H. reflexivity. }
  split.
  { intros cnpj H. rewrite validarCNPJ_refines_spec. unfold specValidate.
    rewrite H. destruct (negb _); reflexivity. }
  split; [reflexivity |].
  split.
  { intros cnpj Hlen Hid. rewrite validarCNPJ_refines_spec. unfold specValidate.
    rewrite Hlen, Hid. reflexivity. }
  split; [reflexivity |].
  intros cnpj cnpj' Hv Hpre Hdiff.
  destruct (validarCNPJ cnpj') eqn:Hv'; [| reflexivity].
  exfalso. apply Hdiff.
  rewrite validarCNPJ_refines_spec in Hv, Hv'.
  exact (check_digits_unique cnpj cnpj' Hv Hv' Hpre).
Qed.

Lemma validarCNPJ_checks_digits_witness :
  validarCNPJ "11.222.333/0001-81" = true
  /\ firstn 12 (digitsOf "11222333000191") = firstn 12 (digitsOf "11.222.333/0001-81")
  /\ digitsOf "11222333000191" <> digitsOf "11.222.333/0001-81"
  /\ validarCNPJ "11222333000191" = false.
Proof.
  split; [reflexivity |]. split; [reflexivity |].
  assert (Hd : digitsOf "11222333000191" <> digitsOf "11.222.333/0001-81")
    by (cbv; discriminate).
  split; [exact Hd |].
  exact (proj2 (proj2 (proj2 (proj2 (proj2 (proj2 validarCNPJ_checks_digits)))))
           "11.222.333/0001-81" "11222333000191" eq_refl eq_refl Hd).
Defined.

(* ================================================================== *)
(** * Further properties of the script *)
(* ================================================================== *)

(** ** Cleaning and masking identifiers *)

Lemma filterChars_app p (a b : string) :
  filterChars p (a ++ b)%string = (filterChars p a ++ filterChars p b)%string.
Proof.
  induction a as [| c a IH]; [reflexivity |].
  cbn [String.append filterChars]. destruct (p c); cbn [String.append]; rewrite IH;
    reflexivity.
Qed.

Lemma filterChars_length p s : String.length (filterChars p s) <= String.length s.
Proof.
  induction s as [| c s IH]; [apply Nat.le_refl |].
  cbn [filterChars]. destruct (p c); cbn [String.length]; lia.
Qed.

Lemma limparCNPJ_length cnpj : String.length (limparCNPJ cnpj) = length (digitsOf cnpj).
Proof.
  rewrite <- (digitsOf_limparCNPJ cnpj).
  symmetry. apply digitsOf_length, limparCNPJ_digits.
Qed.

(** [limparCNPJ] keeps the digits of its input, in order, and nothing
    else: its result holds only digits, as many as the input has and never
    more characters than the input; cleaning twice is cleaning once; a
    string of digits is left alone; and cleaning a concatenation is
    concatenating the cleaned parts. *)
Theorem limparCNPJ_keeps_the_digits :
  forall cnpj : string,
    allChars isDigit (limparCNPJ cnpj) = true
    /\ digitsOf (limparCNPJ cnpj) = digitsOf cnpj
    /\ String.length (limparCNPJ cnpj) = length (digitsOf cnpj)
    /\ String.length (limparCNPJ cnpj) <= String.length cnpj
    /\ limparCNPJ (limparCNPJ cnpj) = limparCNPJ cnpj
    /\ (allChars isDigit cnpj = true -> limparCNPJ cnpj = cnpj)
    /\ (forall rest : string,
           limparCNPJ (cnpj ++ rest)%string
           = (limparCNPJ cnpj ++ limparCNPJ rest)%string).
Proof.
  intros cnpj.
  split; [apply limparCNPJ_digits |].
  split; [apply digitsOf_limparCNPJ |].
  split; [apply limparCNPJ_length |].
  split; [apply filterChars_length |].
  split; [apply limparCNPJ_idempotent |].
  split; [apply filterChars_id |].
  intros rest. apply filterChars_app.
Qed.

Lemma limparCNPJ_keeps_the_digits_witness :
  allChars isDigit "11222333000181" = true
  /\ limparCNPJ "11222333000181" = "11222333000181".
Proof.
  split; [reflexivity |].
  exact (proj1 (proj2 (proj2 (proj2 (proj2 (proj2
           (limparCNPJ_keeps_the_digits "11222333000181")))))) eq_refl).
Defined.

Ltac filter_digits :=
  repeat (cbn [filterChars String.append];
          use_digits;
          try change (isDigit "."%char) with false;
          try change (isDigit "/"%char) with false;
          try change (isDigit "-"%char) with false;
          try change (isDigit "("%char) with false;
          try change (isDigit ")"%char) with false;
          try change (isDigit " "%char) with false;
          cbv iota).

Lemma formatarCNPJ_of_clean cnpj :
  formatarCNPJ cnpj =
    if (String.length (limparCNPJ cnpj) =? 14)%nat
    then (substring 0 2 (limparCNPJ cnpj) ++ "." ++ substring 2 3 (limparCNPJ cnpj) ++ "."
          ++ substring 5 3 (limparCNPJ cnpj) ++ "/" ++ substring 8 4 (limparCNPJ cnpj)
          ++ "-" ++ substring 12 2 (limparCNPJ cnpj))%string
    else limparCNPJ cnpj.
Proof.
  unfold formatarCNPJ. rewrite limparCNPJ_digits, andb_true_r. reflexivity.
Qed.

Lemma formatarCNPJ_fourteen cnpj :
  String.length (limparCNPJ cnpj) = 14 ->
  exists a0 a1 a2 a3 a4 a5 a6 a7 a8 a9 a10 a11 a12 a13,
    limparCNPJ cnpj
    = String a0 (String a1 (String a2 (String a3 (String a4 (String a5 (String a6
      (String a7 (String a8 (String a9 (String a10 (String a11 (String a12
      (String a13 EmptyString)))))))))))))
    /\ formatarCNPJ cnpj
       = String a0 (String a1 (String "." (String a2 (String a3 (String a4
         (String "." (String a5 (String a6 (String a7 (String "/" (String a8
         (String a9 (String a10 (String a11 (String "-" (String a12
         (String a13 EmptyString))))))))))))))))).
Proof.
  intros Hlen.
  destruct (string_of_length_14 _ Hlen)
    as (a0 & a1 & a2 & a3 & a4 & a5 & a6 & a7 & a8 & a9 & a10 & a11 & a12 & a13 & Hc).
  exists a0, a1, a2, a3, a4, a5, a6, a7, a8, a9, a10, a11, a12, a13.
  split; [exact Hc |].
  rewrite formatarCNPJ_of_clean, Hc. reflexivity.
Qed.

Lemma limparCNPJ_formatarCNPJ cnpj :
  limparCNPJ (formatarCNPJ cnpj) = limparCNPJ cnpj.
Proof.
  destruct (Nat.eqb_spec (String.length (limparCNPJ cnpj)) 14) as [E | E].
  - destruct (formatarCNPJ_fourteen cnpj E)
      as (a0 & a1 & a2 & a3 & a4 & a5 & a6 & a7 & a8 & a9 & a10 & a11 & a12 & a13
          & Hc & Hf).
    pose proof (limparCNPJ_digits cnpj) as Hall. rewrite Hc in Hall.
    cbn [allChars] in Hall.
    repeat (apply andb_true_iff in Hall; let H := fresh "Hd" in destruct Hall as [H Hall]).
    rewrite Hf, Hc. unfold limparCNPJ. filter_digits. reflexivity.
  - rewrite formatarCNPJ_of_clean. apply Nat.eqb_neq in E. rewrite E.
    apply limparCNPJ_idempotent.
Qed.

(** Masking does not disturb the identifier: [formatarCNPJ] changes no
    digit, so cleaning its result gives the cleaned input, masking twice
    is masking once, and the masked text validates exactly when the input
    does. *)
Theorem formatarCNPJ_round_trip :
  forall cnpj : string,
    limparCNPJ (formatarCNPJ cnpj) = limparCNPJ cnpj
    /\ digitsOf (formatarCNPJ cnpj) = digitsOf cnpj
    /\ formatarCNPJ (formatarCNPJ cnpj) = formatarCNPJ cnpj
    /\ validarCNPJ (formatarCNPJ cnpj) = validarCNPJ cnpj.
Proof.
  intros cnpj. pose proof (limparCNPJ_formatarCNPJ cnpj) as H.
  split; [exact H |].
  split.
  { rewrite <- (digitsOf_limparCNPJ (formatarCNPJ cnpj)), H.
    apply digitsOf_limparCNPJ. }
  split.
  { unfold formatarCNPJ at 1. rewrite H. reflexivity. }
  unfold validarCNPJ. rewrite H. reflexivity.
Qed.

(** The mask is applied to fourteen digits and to nothing else: an input
    with exactly 14 digits becomes 18 characters, the digits in order
    with [.] after the 2nd and 5th, [/] after the 8th and [-] after the
    12th; an input with any other number of digits comes back as its bare
    digits. *)
Theorem formatarCNPJ_mask :
  forall cnpj : string,
    (length (digitsOf cnpj) = 14 ->
     String.length (formatarCNPJ cnpj) = 18
     /\ get 2 (formatarCNPJ cnpj) = Some "."%char
     /\ get 6 (formatarCNPJ cnpj) = Some "."%char
     /\ get 10 (formatarCNPJ cnpj) = Some "/"%char
     /\ get 15 (formatarCNPJ cnpj) = Some "-"%char
     /\ formatarCNPJ cnpj
        = (substring 0 2 (limparCNPJ cnpj) ++ "." ++ substring 2 3 (limparCNPJ cnpj)
           ++ "." ++ substring 5 3 (limparCNPJ cnpj) ++ "/"
           ++ substring 8 4 (limparCNPJ cnpj) ++ "-"
           ++ substring 12 2 (limparCNPJ cnpj))%string)
    /\ (length (digitsOf cnpj) <> 14 -> formatarCNPJ cnpj = limparCNPJ cnpj).
Proof.
  intros cnpj. split.
  - intros Hlen. rewrite <- limparCNPJ_length in Hlen.
    destruct (formatarCNPJ_fourteen cnpj Hlen)
      as (a0 & a1 & a2 & a3 & a4 & a5 & a6 & a7 & a8 & a9 & a10 & a11 & a12 & a13
          & Hc & Hf).
    rewrite Hf, Hc. repeat split.
  - intros Hlen. rewrite <- limparCNPJ_length in Hlen.
    rewrite formatarCNPJ_of_clean. apply Nat.eqb_neq in Hlen. rewrite Hlen. reflexivity.
Qed.

Lemma formatarCNPJ_mask_witness :
  length (digitsOf "11222333000181") = 14
  /\ formatarCNPJ "11222333000181" = "11.222.333/0001-81"
  /\ length (digitsOf "1122233300018") <> 14
  /\ formatarCNPJ "11.222.333/0001-8" = "1122233300018".
Proof.
  split; [reflexivity |].
  split.
  { exact (proj2 (proj2 (proj2 (proj2 (proj2
             (proj1 (formatarCNPJ_mask "11222333000181") eq_refl)))))). }
  assert (Hn : length (digitsOf "11.222.333/0001-8") <> 14) by (cbn; discriminate).
  split; [cbn; discriminate |].
  exact (proj2 (formatarCNPJ_mask "11.222.333/0001-8") Hn).
Defined.

(** ** Telephone numbers *)

Lemma string_of_length_11 c :
  String.length c = 11 ->
  exists a0 a1 a2 a3 a4 a5 a6 a7 a8 a9 a10,
    c = String a0 (String a1 (String a2 (String a3 (String a4 (String a5 (String a6
        (String a7 (String a8 (String a9 (String a10 EmptyString)))))))))).
Proof.
  intros H.
  do 11 (destruct c as [| ? c]; [discriminate H |]).
  destruct c as [| ? c]; [| discriminate H].
  do 11 eexists. reflexivity.
Qed.

Lemma string_of_length_10 c :
  String.length c = 10 ->
  exists a0 a1 a2 a3 a4 a5 a6 a7 a8 a9,
    c = String a0 (String a1 (String a2 (String a3 (String a4 (String a5 (String a6
        (String a7 (String a8 (String a9 EmptyString))))))))).
Proof.
  intros H.
  do 10 (destruct c as [| ? c]; [discriminate H |]).
  destruct c as [| ? c]; [| discriminate H].
  do 10 eexists. reflexivity.
Qed.

Lemma formatarTelefone_text t :
  t <> "" ->
  formatarTelefone (JStr t) =
    let num := filterChars isDigit t in
    if (String.length num =? 11)%nat
    then Some ("(" ++ substring2 num 0 2 ++ ") " ++ substring2 num 2 7 ++ "-"
               ++ substringFrom num 7)%string
    else if (String.length num =? 10)%nat
    then Some ("(" ++ substring2 num 0 2 ++ ") " ++ substring2 num 2 6 ++ "-"
               ++ substringFrom num 6)%string
    else Some t.
Proof.
  intros Hne. unfold formatarTelefone. cbn [truthy].
  destruct (String.eqb_spec t "") as [E | _]; [contradiction | reflexivity].
Qed.

Lemma formatarTelefone_eleven t :
  String.length (filterChars isDigit t) = 11 ->
  exists out,
    formatarTelefone (JStr t) = Some out
    /\ String.length out = 15
    /\ filterChars isDigit out = filterChars isDigit t.
Proof.
  intros Hlen.
  assert (Hne : t <> "") by (intros ->; discriminate Hlen).
  rewrite (formatarTelefone_text t Hne). cbv zeta.
  pose proof (filterChars_all isDigit t) as Hall.
  destruct (string_of_length_11 _ Hlen)
    as (a0 & a1 & a2 & a3 & a4 & a5 & a6 & a7 & a8 & a9 & a10 & Hc).
  rewrite Hc in *. cbn [allChars] in Hall.
  repeat (apply andb_true_iff in Hall; let H := fresh "Hd" in destruct Hall as [H Hall]).
  eexists. split; [reflexivity |]. split; [reflexivity |].
  cbn [substring2 substringFrom substring String.length Nat.sub].
  filter_digits. reflexivity.
Qed.

Lemma formatarTelefone_ten t :
  String.length (filterChars isDigit t) = 10 ->
  exists out,
    formatarTelefone (JStr t) = Some out
    /\ String.length out = 14
    /\ filterChars isDigit out = filterChars isDigit t.
Proof.
  intros Hlen.
  assert (Hne : t <> "") by (intros ->; discriminate Hlen).
  rewrite (formatarTelefone_text t Hne). cbv zeta.
  pose proof (filterChars_all isDigit t) as Hall.
  destruct (string_of_length_10 _ Hlen)
    as (a0 & a1 & a2 & a3 & a4 & a5 & a6 & a7 & a8 & a9 & Hc).
  rewrite Hc in *. cbn [allChars] in Hall.
  repeat (apply andb_true_iff in Hall; let H := fresh "Hd" in destruct Hall as [H Hall]).
  eexists. split; [reflexivity |]. split; [reflexivity |].
  cbn [substring2 substringFrom substring String.length Nat.sub].
  filter_digits. reflexivity.
Qed.

Lemma formatarTelefone_same_digits t u :
  t <> "" -> u <> "" ->
  filterChars isDigit u = filterChars isDigit t ->
  (String.length (filterChars isDigit t) = 11 \/ String.length (filterChars isDigit t) = 10) ->
  formatarTelefone (JStr u) = formatarTelefone (JStr t).
Proof.
  intros Ht Hu E Hlen.
  rewrite (formatarTelefone_text t Ht), (formatarTelefone_text u Hu). cbv zeta.
  rewrite E. destruct Hlen as [H | H]; rewrite H; reflexivity.
Qed.

Lemma nonempty_of_length s n : String.length s = S n -> s <> "".
Proof. intros H ->. discriminate H. Qed.

(** [formatarTelefone] on text. It never throws; it answers ["N/A"] to
    the empty string and to ["N/A"] itself only; it keeps every digit of a
    non-empty input, in
    order; a number of 11 digits becomes 15 characters and one of 10
    digits 14, whatever punctuation came with it, and any other text comes
    back unchanged; formatting its own answer changes nothing. *)
Theorem formatarTelefone_on_text :
  forall t : string,
    exists out : string,
      formatarTelefone (JStr t) = Some out
      /\ (out = "N/A" <-> t = "" \/ t = "N/A")
      /\ (t <> "" -> filterChars isDigit out = filterChars isDigit t)
      /\ (String.length (filterChars isDigit t) = 11 -> String.length out = 15)
      /\ (String.length (filterChars isDigit t) = 10 -> String.length out = 14)
      /\ (t <> "" ->
          String.length (filterChars isDigit t) <> 11 ->
          String.length (filterChars isDigit t) <> 10 ->
          out = t)
      /\ formatarTelefone (JStr out) = Some out.
Proof.
  intros t.
  destruct (String.eqb_spec t "") as [E | Hne].
  { subst t. exists "N/A". split; [reflexivity |].
    split; [split; [intros _; left; reflexivity | reflexivity] |].
    split; [intros H; contradiction |].
    split; [intros H; discriminate H |].
    split; [intros H; discriminate H |].
    split; [intros H; contradiction | reflexivity]. }
  destruct (Nat.eqb_spec (String.length (filterChars isDigit t)) 11) as [H11 | H11].
  { destruct (formatarTelefone_eleven t H11) as (out & Hout & Hlen & Hdig).
    exists out. split; [exact Hout |].
    assert (Hone : out <> "") by (exact (nonempty_of_length out _ Hlen)).
    split.
    { split; [intros E; subst out; discriminate Hlen |].
      intros [E | E]; [contradiction | subst t; discriminate]. }
    split; [intros _; exact Hdig |].
    split; [intros _; exact Hlen |].
    split; [intros H; rewrite H in H11; discriminate H11 |].
    split; [intros _ H; contradiction |].
    rewrite <- Hout.
    apply (formatarTelefone_same_digits t out Hne Hone Hdig). left. exact H11. }
  destruct (Nat.eqb_spec (String.length (filterChars isDigit t)) 10) as [H10 | H10].
  { destruct (formatarTelefone_ten t H10) as (out & Hout & Hlen & Hdig).
    exists out. split; [exact Hout |].
    assert (Hone : out <> "") by (exact (nonempty_of_length out _ Hlen)).
    split.
    { split; [intros E; subst out; discriminate Hlen |].
      intros [E | E]; [contradiction | subst t; discriminate]. }
    split; [intros _; exact Hdig |].
    split; [intros H; contradiction |].
    split; [intros _; exact Hlen |].
    split; [intros _ _ H; contradiction |].
    rewrite <- Hout.
    apply (formatarTelefone_same_digits t out Hne Hone Hdig). right. exact H10. }
  assert (Hout : formatarTelefone (JStr t) = Some t).
  { rewrite (formatarTelefone_text t Hne). cbv zeta.
    apply Nat.eqb_neq in H11, H10. rewrite H11, H10. reflexivity. }
  exists t. split; [exact Hout |].
  split.
  { split; [intros E; right; exact E | intros [E | E]; [contradiction | exact E]]. }
  split; [reflexivity |].
  split; [intros H; contradiction |].
  split; [intros H; contradiction |].
  split; [reflexivity | exact Hout].
Qed.

(** ** What the adapters return *)

Section RetryLoopResult.

Variable MAX_RETRIES : nat.
Variable RETRY_DELAY_MS : Z.
Variable target : string.
Variable attemptBody : nat -> FetchOutcome -> option JsValue * list AdapterEvent.
Variable net : Network.

Hypothesis attemptBody_quiet : forall attempt o,
  attemptsMade (snd (attemptBody attempt o)) = 0
  /\ delaysTaken (snd (attemptBody attempt o)) = [].

(** The loop returns at the first attempt whose body returns, and fetches
    no more; it returns [null] when every attempt left falls through. *)
Lemma retryLoop_result remaining : forall attempt,
  attempt + remaining = S MAX_RETRIES ->
  let r := retryLoop MAX_RETRIES RETRY_DELAY_MS target attemptBody net
                     remaining attempt in
  ((forall j, attempt <= j <= MAX_RETRIES -> fst (attemptBody j (net j)) = None)
   /\ fst r = JNull
   /\ attemptsMade (snd r) = remaining)
  \/ (exists k,
         attempt <= k <= MAX_RETRIES
         /\ fst (attemptBody k (net k)) = Some (fst r)
         /\ (forall j, attempt <= j < k -> fst (attemptBody j (net j)) = None)
         /\ attemptsMade (snd r) = S (k - attempt)).
Proof.
  induction remaining as [| n IH]; intros attempt Hsum.
  - left. cbn [retryLoop fst snd]. split; [intros j Hj; lia |]. split; reflexivity.
  - cbn [retryLoop].
    destruct (attemptBody_quiet attempt (net attempt)) as [Hq _].
    destruct (attemptBody attempt (net attempt)) as [[result |] l0] eqn:Hbody;
      cbn [snd] in Hq.
    + right. exists attempt. cbn [fst snd].
      split; [lia |]. split; [rewrite Hbody; reflexivity |].
      split; [intros j Hj; lia |].
      rewrite attemptsMade_cons_fetch, Hq. f_equal. lia.
    + specialize (IH (S attempt) ltac:(lia)). cbv zeta in IH.
      destruct (retryLoop MAX_RETRIES RETRY_DELAY_MS target attemptBody net n (S attempt))
        as [v rest].
      cbn [fst snd] in *.
      assert (Hcount : attemptsMade
                         (AFetch true target
                          :: l0 ++ (if (attempt <? MAX_RETRIES)%nat
                                    then delay RETRY_DELAY_MS else []) ++ rest)
                       = S (attemptsMade rest)).
      { rewrite attemptsMade_cons_fetch, !attemptsMade_app, Hq.
        destruct (attempt <? MAX_RETRIES)%nat; reflexivity. }
      rewrite Hcount.
      destruct IH as [[Hall [Hv Hn]] | [k [Hk [Hs [Hbefore Hn]]]]].
      * left. split; [| split; [exact Hv | rewrite Hn; reflexivity]].
        intros j Hj. destruct (Nat.eq_dec j attempt) as [-> | Hne].
        -- rewrite Hbody. reflexivity.
        -- apply Hall. lia.
      * right. exists k. split; [lia |]. split; [exact Hs |]. split.
        -- intros j Hj. destruct (Nat.eq_dec j attempt) as [-> | Hne].
           ++ rewrite Hbody. reflexivity.
           ++ apply Hbefore. lia.
        -- rewrite Hn. f_equal. lia.
Qed.

End RetryLoopResult.

Lemma receitaWsAttempt_returns attempt o v :
  fst (receitaWsAttempt attempt o) = Some v ->
  exists response st,
    o = FetchResolves response
    /\ ok response = true
    /\ body response = DecodedAs v
    /\ member v "status" = Some st
    /\ strictEqStr st "ERROR" = false.
Proof.
  unfold receitaWsAttempt. destruct o as [| response]; [discriminate |].
  destruct (ok response) eqn:Hok; [| discriminate].
  destruct (body response) as [| result] eqn:Hbody; [discriminate |].
  destruct (member result "status") as [st |] eqn:Hst; [| discriminate].
  destruct (strictEqStr st "ERROR") eqn:Herr; cbn [negb fst]; [discriminate |].
  intros H. injection H as <-. exists response, st. repeat split; assumption.
Qed.

Lemma minhaReceitaAttempt_returns attempt o v :
  fst (minhaReceitaAttempt attempt o) = Some v ->
  exists response,
    o = FetchResolves response
    /\ ok response = true
    /\ body response = DecodedAs v
    /\ truthy v = true
    /\ truthy (v ?. "cnpj") = true.
Proof.
  unfold minhaReceitaAttempt. destruct o as [| response]; [discriminate |].
  destruct (ok response) eqn:Hok; [| discriminate].
  destruct (body response) as [| result] eqn:Hbody; [discriminate |].
  destruct (truthy result && truthy (result ?. "cnpj")) eqn:Hv; [| discriminate].
  cbn [fst]. intros H. injection H as <-.
  apply andb_true_iff in Hv. destruct Hv as [H1 H2].
  exists response. repeat split; assumption.
Qed.

Lemma minhaReceitaAttempt_cases attempt o :
  (exists result, minhaReceitaAttempt attempt o = (Some result, []))
  \/ minhaReceitaAttempt attempt o = (None, [AConsoleError attempt])
  \/ minhaReceitaAttempt attempt o = (None, [AConsoleWarn attempt]).
Proof.
  unfold minhaReceitaAttempt. destruct o as [| response]; [auto |].
  destruct (ok response); [| auto].
  destruct (body response) as [| result]; [auto |].
  destruct (truthy result && truthy (result ?. "cnpj"));
    [left; exists result; reflexivity | auto].
Qed.

Lemma member_status_not_null v st : member v "status" = Some st -> v <> JNull.
Proof. intros H ->. discriminate H. Qed.

(** [consultarReceitaWS] never hands an error envelope to its caller. Its
    result is [null] exactly when all three attempts failed; otherwise it
    is the payload that an HTTP-ok response delivered at one of the three
    attempts, every earlier attempt having failed, and the [status] of
    that payload is not ["ERROR"]. *)
Theorem consultarReceitaWS_returns_null_or_sound_payload :
  forall (cnpj : string) (net : Network),
    let r := fst (consultarReceitaWS cnpj net) in
    strictEqStr (r ?. "status") "ERROR" = false
    /\ (r = JNull
        <-> attemptFails (net 1) = true /\ attemptFails (net 2) = true
            /\ attemptFails (net 3) = true)
    /\ (r = JNull
        \/ exists (k : nat) (response : Response),
             1 <= k <= 3
             /\ net k = FetchResolves response
             /\ ok response = true
             /\ body response = DecodedAs r
             /\ (forall j, 1 <= j < k -> attemptFails (net j) = true)
             /\ attemptsMade (snd (consultarReceitaWS cnpj net)) = k).
Proof.
  intros cnpj net r. subst r.
  pose proof (retryLoop_result ReceitaWSAdapter.MAX_RETRIES
                ReceitaWSAdapter.RETRY_DELAY_MS
                ("https://www.receitaws.com.br/v1/cnpj/" ++ cnpj)%string
                receitaWsAttempt net receitaWsAttempt_quiet 3 1 eq_refl) as H.
  cbv zeta in H. unfold ReceitaWSAdapter.MAX_RETRIES in H.
  unfold consultarReceitaWS, ReceitaWSAdapter.MAX_RETRIES.
  destruct H as [[Hall [Hv Hn]] | [k [Hk [Hs [Hbefore Hn]]]]].
  - rewrite Hv. split; [reflexivity |]. split; [| left; reflexivity].
    split; [| reflexivity]. intros _.
    split; [| split];
      [apply (attemptFails_iff 1) | apply (attemptFails_iff 2) | apply (attemptFails_iff 3)];
      apply Hall; lia.
  - destruct (receitaWsAttempt_returns k (net k) _ Hs)
      as (response & st & Hnet & Hok & Hbody & Hst & Herr).
    pose proof (member_status_not_null _ _ Hst) as Hnn.
    split.
    { unfold optMember. rewrite Hst. exact Herr. }
    split.
    { split; [intros E; contradiction |].
      intros (F1 & F2 & F3). exfalso.
      assert (Hfail : attemptFails (net k) = true).
      { destruct Hk as [Hk1 Hk3].
        destruct k as [| [| [| [| k']]]]; try lia; assumption. }
      apply (attemptFails_iff k) in Hfail. rewrite Hfail in Hs. discriminate Hs. }
    right. exists k, response. split; [exact Hk |].
    split; [exact Hnet |]. split; [exact Hok |]. split; [exact Hbody |].
    split.
    + intros j Hj. apply (attemptFails_iff j). apply Hbefore. exact Hj.
    + rewrite Hn. lia.
Qed.

(** [consultarMinhaReceitaAPI] returns [null] or a truthy record with a
    truthy [cnpj] that an HTTP-ok response delivered; so its caller's
    falsy test recognises exactly its failures. It returns the payload of
    the first of its two attempts that qualifies, after one fetch and no
    wait, or two fetches and one wait of 1.5 s; and [null] after two
    fetches and one wait. It cleans its argument again, so a masked
    identifier gives the same result and the same trace as the bare
    digits. *)
Theorem consultarMinhaReceitaAPI_returns_null_or_valid_record :
  forall (cnpj : string) (net : Network),
    let r := consultarMinhaReceitaAPI cnpj net in
    (fst r = JNull
     \/ (truthy (fst r) = true
         /\ truthy (fst r ?. "cnpj") = true
         /\ exists (k : nat) (response : Response),
              1 <= k <= 2
              /\ net k = FetchResolves response
              /\ ok response = true
              /\ body response = DecodedAs (fst r)))
    /\ (truthy (fst r) = false <-> fst r = JNull)
    /\ match fst (minhaReceitaAttempt 1 (net 1)),
             fst (minhaReceitaAttempt 2 (net 2)) with
       | Some v, _ =>
           fst r = v /\ attemptsMade (snd r) = 1 /\ delaysTaken (snd r) = []
       | None, Some v =>
           fst r = v /\ attemptsMade (snd r) = 2 /\ delaysTaken (snd r) = [1500]%Z
       | None, None =>
           fst r = JNull /\ attemptsMade (snd r) = 2 /\ delaysTaken (snd r) = [1500]%Z
       end
    /\ consultarMinhaReceitaAPI (limparCNPJ cnpj) net = r
    /\ consultarMinhaReceitaAPI (formatarCNPJ cnpj) net = r.
Proof.
  intros cnpj net r. subst r.
  assert (Hshape :
    fst (consultarMinhaReceitaAPI cnpj net) = JNull
    \/ (truthy (fst (consultarMinhaReceitaAPI cnpj net)) = true
        /\ truthy (fst (consultarMinhaReceitaAPI cnpj net) ?. "cnpj") = true
        /\ exists (k : nat) (response : Response),
             1 <= k <= 2
             /\ net k = FetchResolves response
             /\ ok response = true
             /\ body response = DecodedAs (fst (consultarMinhaReceitaAPI cnpj net)))).
  { pose proof (retryLoop_result MinhaReceitaAdapter.MAX_RETRIES
                  MinhaReceitaAdapter.RETRY_DELAY_MS
                  ("https://minhareceita.org/" ++ limparCNPJ cnpj)%string
                  minhaReceitaAttempt net minhaReceitaAttempt_quiet 2 1 eq_refl) as H.
    cbv zeta in H. unfold MinhaReceitaAdapter.MAX_RETRIES in H.
    unfold consultarMinhaReceitaAPI, MinhaReceitaAdapter.MAX_RETRIES.
    destruct H as [[_ [Hv _]] | [k [Hk [Hs _]]]]; [left; exact Hv |].
    right.
    destruct (minhaReceitaAttempt_returns k (net k) _ Hs)
      as (response & Hnet & Hok & Hbody & Ht & Hc).
    split; [exact Ht |]. split; [exact Hc |].
    exists k, response. repeat split; try assumption; lia. }
  split; [exact Hshape |].
  split.
  { split.
    - intros Hf. destruct Hshape as [E | [Ht _]]; [exact E | congruence].
    - intros E. rewrite E. reflexivity. }
  split.
  { unfold consultarMinhaReceitaAPI, MinhaReceitaAdapter.MAX_RETRIES,
      MinhaReceitaAdapter.RETRY_DELAY_MS.
    cbn [retryLoop].
    destruct (minhaReceitaAttempt_cases 1 (net 1)) as [[v1 E1] | [E1 | E1]]; rewrite E1;
      cbn [fst snd]; try (repeat split; reflexivity);
      destruct (minhaReceitaAttempt_cases 2 (net 2)) as [[v2 E2] | [E2 | E2]]; rewrite E2;
      cbn [fst snd]; repeat split; reflexivity. }
  split.
  - unfold consultarMinhaReceitaAPI. rewrite limparCNPJ_idempotent. reflexivity.
  - unfold consultarMinhaReceitaAPI. rewrite limparCNPJ_formatarCNPJ. reflexivity.
Qed.

(** ** Runs of handlers *)

Lemma exec_arrive_cons (renders : Rendering) p data rest s :
  exec (arrive renders ((p, data) :: rest)) s
  = exec (arrive renders rest) (exec (handle renders p data) s).
Proof. cbn [arrive]. apply exec_seq. Qed.

Lemma logOf_arrive_cons (renders : Rendering) p data rest s :
  logOf (arrive renders ((p, data) :: rest)) s
  = logOf (handle renders p data) s
    ++ logOf (arrive renders rest) (exec (handle renders p data) s).
Proof. cbn [arrive]. apply logOf_seq. Qed.

(** The whole effect of one handler call, by cases. *)
Lemma handle_cases (renders : Rendering) p data s :
  (truthy data = false
   /\ exec (handle renders p data) s = set_failedApiCount (S (failedApiCount s)) s
   /\ logOf (handle renders p data) s
      = ConsoleError (apiNameOf p ++ " API failed or returned no data.")
        :: (if (S (failedApiCount s) =? TOTAL_APIS)%nat
            then [HideLoading;
                  MostrarErro
                    "Todas as fontes de dados falharam. Tente novamente mais tarde."]
            else []))
  \/ (truthy data = true
      /\ handle renders p data s =
         match p with
         | CNPJA =>
             let c := voted "CNPJA" data s in
             let s1 := set_taxRegimeConsensus c (set_cnpjaDataCache data s) in
             let shown := if hasRendered s
                          then [UpdateTaxRegimeDisplay (getTaxRegimeInfo c)] else [] in
             if truthy (receitaWsDataCache s)
             then (tt, s1,
                   ConsoleLog "CNPJ.A data arrived." :: shown
                   ++ [UpdateCardWithIEData data (receitaWsDataCache s ?. "uf")])
             else if hasRendered s
             then (tt, s1, ConsoleLog "CNPJ.A data arrived." :: shown)
             else (tt, set_hasRendered true s1,
                   [ConsoleLog "CNPJ.A data arrived."; HideLoading;
                    ConsoleLog "Rendering fallback data from CNPJ.A."]
                   ++ (if renders CNPJA data
                       then [RenderCardFromCNPJA data c]
                       else []))
         | ReceitaWS =>
             let c := voted "ReceitaWS" data s in
             (tt,
              set_taxRegimeConsensus c
                (set_receitaWsDataCache data (set_hasRendered true s)),
              [HideLoading;
               ConsoleLog "ReceitaWS data arrived. Rendering primary data.";
               UpdateTaxRegimeDisplay (getTaxRegimeInfo c)]
              ++ (if renders ReceitaWS data
                  then [RenderCardFromReceitaWS data c;
                        UpdateCardWithIEData (cnpjaDataCache s) (data ?. "uf")]
                  else []))
         | MinhaReceita =>
             let c := voted "MinhaReceita" data s in
             let s1 := set_taxRegimeConsensus c (set_minhaReceitaDataCache data s) in
             let shown := if hasRendered s
                          then [UpdateTaxRegimeDisplay (getTaxRegimeInfo c)] else [] in
             if negb (truthy (receitaWsDataCache s)) && negb (hasRendered s)
             then (tt, set_hasRendered true s1,
                   [ConsoleLog "MinhaReceita data arrived."; HideLoading;
                    ConsoleLog "Rendering fallback data from MinhaReceita."]
                   ++ (if renders MinhaReceita data
                       then [RenderCardFromMinhaReceita data c;
                             AddWarningMessage preliminaryNotice]
                       else []))
             else (tt, s1, ConsoleLog "MinhaReceita data arrived." :: shown)
         end).
Proof.
  destruct (truthy data) eqn:Ht.
  - right. split; [reflexivity |]. destruct p; cbn [handle].
    + apply handleCnpjaResponse_run, Ht.
    + apply handleReceitaWsResponse_run, Ht.
    + apply handleMinhaReceitaResponse_run, Ht.
  - left. split; [reflexivity |].
    split; [apply exec_handle_failure, Ht | apply logOf_handle_failure, Ht].
Qed.

(** Splits on the outcome of one handler call and on the two tests its
    body makes, leaving the new state and the log in closed form; the
    outcome of the render call, where one is made, is left to the
    caller. *)
Ltac handler_cases p data s :=
  let Ht := fresh "Ht" in
  let He := fresh "He" in
  let Hl := fresh "Hl" in
  let Hrun := fresh "Hrun" in
  match goal with
  | renders : Rendering |- _ =>
      destruct (handle_cases renders p data s) as [(Ht & He & Hl) | (Ht & Hrun)]
  end;
  [ rewrite ?He, ?Hl
  | unfold exec, logOf; rewrite ?Hrun; destruct p; cbv zeta;
    destruct (truthy (receitaWsDataCache s)) eqn:?;
    destruct (hasRendered s) eqn:?;
    cbn [fst snd negb andb]; project_setters ].

Lemma cachesCoherent_initial : cachesCoherent initialRequest.
Proof. intros H. discriminate H. Qed.

Lemma handle_coherent (renders : Rendering) p data s :
  cachesCoherent s ->
  cachesCoherent (exec (handle renders p data) s)
  /\ hasRendered (exec (handle renders p data) s) = hasRendered s || truthy data.
Proof.
  unfold cachesCoherent. intros Hc.
  handler_cases p data s; rewrite ?Ht; project_setters;
    try (split; [auto | try reflexivity; rewrite ?orb_false_r; auto]; fail).
  all: try (split; [intros; reflexivity | reflexivity]).
  all: try (specialize (Hc eq_refl); discriminate Hc).
  all: try (split; [intros E; congruence | reflexivity]).
Qed.

Lemma arrive_coherent (renders : Rendering) l : forall s,
  cachesCoherent s ->
  cachesCoherent (exec (arrive renders l) s)
  /\ hasRendered (exec (arrive renders l) s) = hasRendered s || succeeded l.
Proof.
  induction l as [| [p data] rest IH]; intros s Hc.
  - split; [exact Hc |]. cbn. rewrite orb_false_r. reflexivity.
  - rewrite exec_arrive_cons.
    destruct (handle_coherent renders p data s Hc) as [Hc' Hr'].
    destruct (IH _ Hc') as [Hc'' Hr'']. split; [exact Hc'' |].
    rewrite Hr'', Hr'. unfold succeeded. cbn [existsb snd]. rewrite orb_assoc.
    reflexivity.
Qed.

Lemma handle_renders (renders : Rendering) p data s :
  cachesCoherent s ->
  fullRenders (logOf (handle renders p data) s)
  = if truthy data && renders p data
    then match p with
         | ReceitaWS => 1
         | _ => if hasRendered s then 0 else 1
         end
    else 0.
Proof.
  unfold cachesCoherent, fullRenders. intros Hc.
  handler_cases p data s; rewrite ?Ht; cbn [andb];
    try (destruct (renders _ data)); try reflexivity;
    try (specialize (Hc eq_refl); discriminate Hc).
  destruct (S (failedApiCount s) =? TOTAL_APIS)%nat; reflexivity.
Qed.

Lemma drawable_cons (renders : Rendering) p data rest :
  drawable renders ((p, data) :: rest)
  = (negb (truthy data) || renders p data) && drawable renders rest.
Proof. reflexivity. Qed.

Lemma drawable_app (renders : Rendering) l1 l2 :
  drawable renders (l1 ++ l2) = drawable renders l1 && drawable renders l2.
Proof. unfold drawable. apply forallb_app. Qed.

Lemma drawable_In (renders : Rendering) l p data :
  drawable renders l = true -> In (p, data) l -> truthy data = true ->
  renders p data = true.
Proof.
  unfold drawable. intros H Hin Ht. rewrite forallb_forall in H.
  specialize (H _ Hin). cbn [fst snd] in H. rewrite Ht in H. exact H.
Qed.

(** A card is drawn only for a success; and the first success draws one
    when its record is one the render function draws. *)
Lemma arrive_renders_when_blank (renders : Rendering) l : forall s,
  cachesCoherent s ->
  hasRendered s = false ->
  (1 <= fullRenders (logOf (arrive renders l) s) -> succeeded l = true)
  /\ (drawable renders l = true ->
      (1 <=? fullRenders (logOf (arrive renders l) s))%nat = succeeded l).
Proof.
  induction l as [| [p data] rest IH]; intros s Hc Hr.
  - split; [cbn; lia | reflexivity].
  - rewrite logOf_arrive_cons, fullRenders_app, (handle_renders renders p data s Hc), Hr.
    unfold succeeded. cbn [existsb snd]. rewrite drawable_cons.
    destruct (handle_coherent renders p data s Hc) as [Hc' Hr'].
    destruct (truthy data) eqn:Ht.
    + cbn [orb andb negb]. split; [reflexivity |].
      intros Hd. apply andb_true_iff in Hd. destruct Hd as [Hd _]. rewrite Hd.
      destruct p; reflexivity.
    + cbn [orb andb negb Nat.add]. apply IH; [exact Hc' |]. rewrite Hr', Hr. reflexivity.
Qed.

(** [hasRendered] is set exactly when some provider has succeeded, at
    any point of a request and whatever the render calls do. A card is
    drawn only if a provider succeeded; and it is drawn whenever one did,
    provided the records that arrived are ones the render functions draw.
    ReceitaWS data is never cached without [hasRendered] being set. *)
Theorem hasRendered_iff_some_success :
  forall (renders : Rendering) (arrivals : list (Provider * JsValue)),
    let s := exec (arrive renders arrivals) initialRequest in
    hasRendered s = succeeded arrivals
    /\ (1 <= fullRenders (logOf (arrive renders arrivals) initialRequest) ->
        succeeded arrivals = true)
    /\ (drawable renders arrivals = true ->
        (1 <=? fullRenders (logOf (arrive renders arrivals) initialRequest))%nat
        = succeeded arrivals)
    /\ (truthy (receitaWsDataCache s) = true -> hasRendered s = true).
Proof.
  intros renders arrivals s. subst s.
  destruct (arrive_coherent renders arrivals initialRequest cachesCoherent_initial) as [Hc Hr].
  destruct (arrive_renders_when_blank renders arrivals initialRequest
              cachesCoherent_initial eq_refl) as [Honly Hdrawn].
  split; [exact Hr |]. split; [exact Honly |]. split; [exact Hdrawn |].
  exact Hc.
Qed.

Lemma hasRendered_iff_some_success_witness :
  drawable allReturn [(CNPJA, JNull); (MinhaReceita, normalRecord)] = true
  /\ (1 <=? fullRenders (logOf (arrive allReturn
                                        [(CNPJA, JNull); (MinhaReceita, normalRecord)])
                                initialRequest))%nat
     = succeeded [(CNPJA, JNull); (MinhaReceita, normalRecord)].
Proof.
  split; [reflexivity |].
  exact (proj1 (proj2 (proj2 (hasRendered_iff_some_success allReturn
                                [(CNPJA, JNull); (MinhaReceita, normalRecord)])))
           eq_refl).
Defined.

Lemma filter_partition_length {A} (f : A -> bool) (l : list A) :
  length (filter f l) + length (filter (fun x => negb (f x)) l) = length l.
Proof.
  induction l as [| x l IH]; [reflexivity |].
  cbn [filter]. destruct (f x); cbn [negb length]; lia.
Qed.

Lemma arrive_sources (renders : Rendering) arrivals s :
  sources (taxRegimeConsensus (exec (arrive renders arrivals) s))
  = sources (taxRegimeConsensus s) ++ map toSource (votesCast arrivals).
Proof.
  rewrite arrive_consensus. destruct (votesCast arrivals) as [| v vs].
  - cbn. rewrite app_nil_r. reflexivity.
  - rewrite recordVotes_consensus. reflexivity.
Qed.

(** Every arrival is accounted for exactly once. After any sequence of
    arrivals the failure counter is the number of falsy arrivals, the
    [sources] array holds one entry per truthy arrival, in order of
    arrival, tagged with the name of its provider and carrying the regime
    extracted from its record, and the two add up to the number of
    arrivals. A failure records no vote. None of this depends on what
    the render calls do. *)
Theorem arrivals_are_counted_once :
  forall (renders : Rendering) (arrivals : list (Provider * JsValue)),
    let s := exec (arrive renders arrivals) initialRequest in
    failedApiCount s = failuresAmong arrivals
    /\ sources (taxRegimeConsensus s)
       = map (fun a => mkSource (apiNameOf (fst a)) (getTaxRegimeFromData (snd a)))
             (filter (fun a => truthy (snd a)) arrivals)
    /\ failedApiCount s + length (sources (taxRegimeConsensus s)) = length arrivals.
Proof.
  intros renders arrivals s. subst s.
  destruct (arrive_counts renders arrivals initialRequest) as [Hf _].
  assert (Hs : sources (taxRegimeConsensus (exec (arrive renders arrivals) initialRequest))
               = map (fun a => mkSource (apiNameOf (fst a)) (getTaxRegimeFromData (snd a)))
                     (filter (fun a => truthy (snd a)) arrivals)).
  { rewrite arrive_sources. unfold votesCast. rewrite map_map. reflexivity. }
  split; [exact Hf |]. split; [exact Hs |].
  rewrite Hf, Hs, length_map. unfold failuresAmong.
  rewrite Nat.add_comm. apply filter_partition_length.
Qed.

(** ** The card that stays *)

Lemma late_secondaries_never_render (renders : Rendering) post : forall s,
  forallb (fun a => isSecondary (fst a)) post = true ->
  hasRendered s = true ->
  filter isFullRender (logOf (arrive renders post) s) = []
  /\ filter isNotice (logOf (arrive renders post) s) = []
  /\ hasRendered (exec (arrive renders post) s) = true.
Proof.
  induction post as [| [p data] rest IH]; intros s Hsec Hr.
  - repeat split. exact Hr.
  - cbn [forallb fst] in Hsec. apply andb_true_iff in Hsec. destruct Hsec as [Hp Hrest].
    destruct (late_secondary_never_renders renders p data s Hp Hr) as [H1 [H2 H3]].
    destruct (IH _ Hrest H3) as [I1 [I2 I3]].
    rewrite logOf_arrive_cons, exec_arrive_cons, !filter_app, H1, H2, I1, I2.
    repeat split. exact I3.
Qed.

Lemma receitaWsDataCache_handle (renders : Rendering) p data s :
  receitaWsDataCache (exec (handle renders p data) s)
  = match p with
    | ReceitaWS => if truthy data then data else receitaWsDataCache s
    | _ => receitaWsDataCache s
    end.
Proof.
  handler_cases p data s; rewrite ?Ht; try reflexivity. destruct p; reflexivity.
Qed.

Lemma secondaries_keep_receitaWsDataCache (renders : Rendering) l : forall s,
  forallb (fun a => isSecondary (fst a)) l = true ->
  receitaWsDataCache (exec (arrive renders l) s) = receitaWsDataCache s.
Proof.
  induction l as [| [p data] rest IH]; intros s Hsec; [reflexivity |].
  cbn [forallb fst] in Hsec. apply andb_true_iff in Hsec. destruct Hsec as [Hp Hrest].
  rewrite exec_arrive_cons, (IH _ Hrest), receitaWsDataCache_handle.
  destruct p; [reflexivity | discriminate Hp | reflexivity].
Qed.

(** Once ReceitaWS has succeeded, no other provider draws the card:
    whatever arrived before and whichever secondary providers settle
    afterwards, with whatever outcome, the cards drawn in the request are
    those drawn before, followed by the ReceitaWS card if
    [renderCardFromReceitaWS] returned; no preliminary notice is posted
    from then on, and the ReceitaWS record stays in the cache. *)
Theorem receitaws_card_is_final :
  forall (renders : Rendering) (earlier later : list (Provider * JsValue))
         (data : JsValue),
    truthy data = true ->
    forallb (fun a => isSecondary (fst a)) later = true ->
    let s := exec (arrive renders earlier) initialRequest in
    let whole := earlier ++ (ReceitaWS, data) :: later in
    filter isFullRender (logOf (arrive renders whole) initialRequest)
    = filter isFullRender (logOf (arrive renders earlier) initialRequest)
      ++ (if renders ReceitaWS data
          then [RenderCardFromReceitaWS data (voted "ReceitaWS" data s)]
          else [])
    /\ filter isNotice (logOf (arrive renders whole) initialRequest)
       = filter isNotice (logOf (arrive renders earlier) initialRequest)
    /\ receitaWsDataCache (exec (arrive renders whole) initialRequest) = data
    /\ hasRendered (exec (arrive renders whole) initialRequest) = true.
Proof.
  intros renders earlier later data Ht Hsec s whole. subst s whole.
  rewrite logOf_arrive_app, exec_arrive_app, logOf_arrive_cons, exec_arrive_cons.
  set (s := exec (arrive renders earlier) initialRequest).
  assert (Hr : hasRendered (exec (handle renders ReceitaWS data) s) = true).
  { rewrite (exec_handleReceitaWs renders data s Ht). reflexivity. }
  destruct (late_secondaries_never_render renders later _ Hsec Hr) as [L1 [L2 L3]].
  rewrite !filter_app, L1, L2, (logOf_handleReceitaWs renders data s Ht), !app_nil_r.
  split; [destruct (renders ReceitaWS data); reflexivity |].
  split; [destruct (renders ReceitaWS data); cbn; rewrite app_nil_r; reflexivity |].
  split; [| exact L3].
  rewrite (secondaries_keep_receitaWsDataCache renders later _ Hsec),
    receitaWsDataCache_handle, Ht.
  reflexivity.
Qed.

Lemma receitaws_card_is_final_witness :
  truthy silentRecord = true
  /\ forallb (fun a => isSecondary (fst a)) [(CNPJA, simplesRecord)] = true
  /\ filter isFullRender
       (logOf (arrive allReturn ([(MinhaReceita, normalRecord)]
                                 ++ (ReceitaWS, silentRecord) :: [(CNPJA, simplesRecord)]))
              initialRequest)
     = filter isFullRender
         (logOf (arrive allReturn [(MinhaReceita, normalRecord)]) initialRequest)
       ++ [RenderCardFromReceitaWS silentRecord
             (voted "ReceitaWS" silentRecord
                    (exec (arrive allReturn [(MinhaReceita, normalRecord)])
                          initialRequest))].
Proof.
  split; [reflexivity |]. split; [reflexivity |].
  exact (proj1 (receitaws_card_is_final allReturn [(MinhaReceita, normalRecord)]
                  [(CNPJA, simplesRecord)] silentRecord eq_refl eq_refl)).
Defined.

(** ** How often the card is drawn *)

Lemma split_at_receitaws (arrivals : list (Provider * JsValue)) :
  NoDup (map fst arrivals) ->
  forallb (fun a => isSecondary (fst a)) arrivals = true
  \/ exists pre data post,
       arrivals = pre ++ (ReceitaWS, data) :: post
       /\ forallb (fun a => isSecondary (fst a)) pre = true
       /\ forallb (fun a => isSecondary (fst a)) post = true.
Proof.
  induction arrivals as [| [p data] rest IH]; intros Hnd; [left; reflexivity |].
  cbn [map fst] in Hnd. inversion Hnd as [| x l Hnotin Hnd' ]; subst.
  destruct (IH Hnd') as [Hall | (pre & d & post & E & Hpre & Hpost)].
  - destruct p.
    + left. cbn [forallb fst isSecondary andb]. exact Hall.
    + right. exists [], data, rest. repeat split. exact Hall.
    + left. cbn [forallb fst isSecondary andb]. exact Hall.
  - destruct p.
    + right. exists ((CNPJA, data) :: pre), d, post. rewrite E. repeat split; assumption.
    + exfalso. apply Hnotin. rewrite E, map_app. apply in_or_app. right. left. reflexivity.
    + right. exists ((MinhaReceita, data) :: pre), d, post. rewrite E.
      repeat split; assumption.
Qed.

Lemma secondaries_render_at_most_once (renders : Rendering) l s :
  forallb (fun a => isSecondary (fst a)) l = true ->
  truthy (receitaWsDataCache s) = false ->
  fullRenders (logOf (arrive renders l) s) <= 1
  /\ (hasRendered s = true -> fullRenders (logOf (arrive renders l) s) = 0).
Proof.
  intros Hsec Hw.
  destruct (secondary_arrivals_render_once renders l s Hsec Hw) as [_ [_ Hn]].
  destruct (hasRendered s); [split; [lia | intros _; lia] |].
  destruct (hasRendered (exec (arrive renders l) s)); split; try lia; discriminate.
Qed.

(** In a request, where every provider settles once, the card is drawn
    at most twice, in whatever order the providers settle and whatever
    the render calls do; it is drawn
    twice only when ReceitaWS succeeds after a secondary provider has
    drawn it, and at most once when ReceitaWS does not succeed. *)
Theorem card_drawn_at_most_twice :
  forall (renders : Rendering) (arrivals : list (Provider * JsValue)),
    NoDup (map fst arrivals) ->
    fullRenders (logOf (arrive renders arrivals) initialRequest) <= 2
    /\ ((forall data, In (ReceitaWS, data) arrivals -> truthy data = false) ->
        fullRenders (logOf (arrive renders arrivals) initialRequest) <= 1)
    /\ (fullRenders (logOf (arrive renders arrivals) initialRequest) = 2 ->
        exists pre data post,
          arrivals = pre ++ (ReceitaWS, data) :: post
          /\ truthy data = true
          /\ succeeded pre = true).
Proof.
  intros renders arrivals Hnd.
  destruct (split_at_receitaws arrivals Hnd) as [Hall | (pre & d & post & E & Hpre & Hpost)].
  - destruct (secondaries_render_at_most_once renders arrivals initialRequest Hall eq_refl)
      as [H1 _].
    split; [lia |]. split; [intros _; exact H1 |]. intros H2. lia.
  - subst arrivals.
    rewrite logOf_arrive_app, logOf_arrive_cons, !fullRenders_app.
    set (s := exec (arrive renders pre) initialRequest).
    destruct (arrive_coherent renders pre initialRequest cachesCoherent_initial) as [Hc Hr].
    fold s in Hc, Hr. cbn [hasRendered initialRequest orb] in Hr.
    destruct (secondary_arrivals_render_once renders pre initialRequest Hpre eq_refl)
      as [Hw [_ Hn]].
    fold s in Hw, Hn. cbn [hasRendered initialRequest] in Hn.
    rewrite (handle_renders renders ReceitaWS d s Hc).
    destruct (truthy d) eqn:Ht; cbn [andb].
    + assert (Hr' : hasRendered (exec (handle renders ReceitaWS d) s) = true)
        by (rewrite (exec_handleReceitaWs renders d s Ht); reflexivity).
      destruct (late_secondaries_never_render renders post _ Hpost Hr') as [L1 _].
      assert (P : fullRenders (logOf (arrive renders post)
                                     (exec (handle renders ReceitaWS d) s)) = 0)
        by (unfold fullRenders; rewrite L1; reflexivity).
      rewrite P.
      split; [destruct (hasRendered s); destruct (renders ReceitaWS d); lia |].
      split.
      * intros Hno. specialize (Hno d). rewrite Ht in Hno.
        assert (Hin : In (ReceitaWS, d) (pre ++ (ReceitaWS, d) :: post))
          by (apply in_or_app; right; left; reflexivity).
        specialize (Hno Hin). discriminate Hno.
      * intros H2. exists pre, d, post. split; [reflexivity |]. split; [exact Ht |].
        rewrite <- Hr.
        destruct (hasRendered s); [reflexivity |].
        destruct (renders ReceitaWS d); lia.
    + assert (Hw' : truthy (receitaWsDataCache (exec (handle renders ReceitaWS d) s))
                    = false)
        by (rewrite receitaWsDataCache_handle, Ht; exact Hw).
      destruct (secondaries_render_at_most_once renders post _ Hpost Hw') as [P1 P0].
      destruct (handle_coherent renders ReceitaWS d s Hc) as [_ Hr'].
      rewrite Ht, orb_false_r in Hr'.
      destruct (hasRendered s) eqn:Hs.
      * rewrite ?Hs in Hr'. rewrite (P0 Hr').
        split; [lia |]. split; [intros _; lia | intros H2; lia].
      * split; [lia |]. split; [intros _; lia | intros H2; lia].
Qed.

Lemma card_drawn_at_most_twice_witness :
  NoDup (map fst [(CNPJA, simplesRecord); (ReceitaWS, silentRecord);
                  (MinhaReceita, normalRecord)])
  /\ fullRenders (logOf (arrive allReturn [(CNPJA, simplesRecord); (ReceitaWS, silentRecord);
                                (MinhaReceita, normalRecord)]) initialRequest) <= 2.
Proof.
  assert (Hnd : NoDup (map fst [(CNPJA, simplesRecord); (ReceitaWS, silentRecord);
                                (MinhaReceita, normalRecord)])).
  { cbn. repeat constructor; simpl; intuition discriminate. }
  split; [exact Hnd |].
  exact (proj1 (card_drawn_at_most_twice allReturn _ Hnd)).
Defined.

(** ** How a request ends *)

Lemma failuresAmong_succeeded l :
  (succeeded l = false -> failuresAmong l = length l)
  /\ (succeeded l = true -> failuresAmong l < length l).
Proof.
  unfold succeeded, failuresAmong. induction l as [| a l [IH0 IH1]].
  - split; [reflexivity | discriminate].
  - cbn [existsb filter length]. pose proof (failuresAmong_le l) as Hle.
    unfold failuresAmong in Hle.
    destruct (truthy (snd a)); cbn [orb negb length].
    + split; [discriminate | intros _; lia].
    + split; [intros H; rewrite (IH0 H); reflexivity | intros H; specialize (IH1 H); lia].
Qed.

Lemma votesCast_none l : succeeded l = false -> votesCast l = [].
Proof.
  unfold succeeded, votesCast. induction l as [| a l IH]; [reflexivity |].
  cbn [existsb filter]. destruct (truthy (snd a)); [discriminate |].
  cbn [orb]. exact IH.
Qed.

Lemma signals_of_request (renders : Rendering) arrivals :
  NoDup (map fst arrivals) ->
  allFailedSignals (logOf (arrive renders arrivals) initialRequest)
  = if succeeded arrivals then 0
    else if (length arrivals =? TOTAL_APIS)%nat then 1 else 0.
Proof.
  intros Hnd.
  destruct (arrive_counts renders arrivals initialRequest) as [_ Hs]. rewrite Hs.
  pose proof (providers_nodup_length _ Hnd) as Hlen. rewrite length_map in Hlen.
  destruct (failuresAmong_succeeded arrivals) as [H0 H1].
  unfold TOTAL_APIS. change (failedApiCount initialRequest) with 0.
  change (0 <? 3)%nat with true. cbn [andb Nat.add].
  destruct (succeeded arrivals).
  - specialize (H1 eq_refl).
    destruct (Nat.leb_spec 3 (failuresAmong arrivals)); [lia | reflexivity].
  - rewrite (H0 eq_refl).
    destruct (Nat.leb_spec 3 (length arrivals));
      destruct (Nat.eqb_spec (length arrivals) 3); try reflexivity; lia.
Qed.

(** The failure message and the card exclude each other. In a request,
    where every provider settles once, the all-sources-failed message is
    shown only if no provider succeeded, no card was drawn and no vote was
    recorded. When all three have settled, in any order, either some
    provider succeeded and the message was never shown, or none
    succeeded, no card was drawn and the message was shown exactly once;
    in the first case a card was drawn, provided the records that arrived
    are ones the render functions draw. *)
Theorem request_ends_with_card_or_message :
  forall (renders : Rendering) (arrivals : list (Provider * JsValue)),
    NoDup (map fst arrivals) ->
    let s := exec (arrive renders arrivals) initialRequest in
    let log := logOf (arrive renders arrivals) initialRequest in
    (allFailedSignals log = 1 ->
     succeeded arrivals = false /\ fullRenders log = 0 /\ hasRendered s = false
     /\ sources (taxRegimeConsensus s) = [])
    /\ (Permutation (map fst arrivals) [CNPJA; ReceitaWS; MinhaReceita] ->
        (succeeded arrivals = true /\ hasRendered s = true
         /\ allFailedSignals log = 0
         /\ (drawable renders arrivals = true -> 1 <= fullRenders log))
        \/ (succeeded arrivals = false /\ fullRenders log = 0 /\ hasRendered s = false
            /\ allFailedSignals log = 1)).
Proof.
  intros renders arrivals Hnd s log. subst s log.
  pose proof (signals_of_request renders arrivals Hnd) as Hsig.
  destruct (arrive_renders_when_blank renders arrivals initialRequest
              cachesCoherent_initial eq_refl) as [Honly Hren].
  destruct (arrive_coherent renders arrivals initialRequest cachesCoherent_initial) as [_ Hr].
  cbn [hasRendered initialRequest orb] in Hr.
  destruct (succeeded arrivals) eqn:Hsucc.
  - split.
    + intros H1. rewrite Hsig in H1. discriminate H1.
    + intros _. left. split; [reflexivity |]. split; [exact Hr |].
      split; [exact Hsig |].
      intros Hd. apply Nat.leb_le. exact (Hren Hd).
  - assert (H0 : fullRenders (logOf (arrive renders arrivals) initialRequest) = 0).
    { destruct (fullRenders (logOf (arrive renders arrivals) initialRequest)) as [| n];
        [reflexivity |].
      assert (Hge : 1 <= S n) by lia. specialize (Honly Hge). discriminate Honly. }
    split.
    + intros _. repeat split; try assumption.
      rewrite arrive_sources, (votesCast_none arrivals Hsucc). reflexivity.
    + intros HP. right. repeat split; try assumption.
      rewrite Hsig. apply Permutation_length in HP. rewrite length_map in HP.
      rewrite HP. reflexivity.
Qed.

Lemma request_ends_with_card_or_message_witness :
  NoDup (map fst [(MinhaReceita, JNull); (CNPJA, JBool false); (ReceitaWS, JNull)])
  /\ allFailedSignals
       (logOf (arrive allReturn
                      [(MinhaReceita, JNull); (CNPJA, JBool false); (ReceitaWS, JNull)])
              initialRequest) = 1
  /\ fullRenders
       (logOf (arrive allReturn
                      [(MinhaReceita, JNull); (CNPJA, JBool false); (ReceitaWS, JNull)])
              initialRequest) = 0.
Proof.
  assert (Hnd : NoDup (map fst [(MinhaReceita, JNull); (CNPJA, JBool false);
                                (ReceitaWS, JNull)])).
  { cbn. repeat constructor; simpl; intuition discriminate. }
  split; [exact Hnd |]. split; [reflexivity |].
  exact (proj1 (proj2 (proj1 (request_ends_with_card_or_message allReturn _ Hnd)
                         eq_refl))).
Defined.

(** ** The loading spinner *)

Lemma existsb_app_bool {A} (f : A -> bool) l1 l2 :
  existsb f (l1 ++ l2) = existsb f l1 || existsb f l2.
Proof. apply existsb_app. Qed.

Lemma handle_hides (renders : Rendering) p data s :
  cachesCoherent s ->
  hasRendered s = false ->
  existsb isHideLoading (logOf (handle renders p data) s)
  = truthy data || (S (failedApiCount s) =? TOTAL_APIS)%nat.
Proof.
  unfold cachesCoherent. intros Hc Hr.
  handler_cases p data s; rewrite ?Ht; try reflexivity; try discriminate;
    try (specialize (Hc eq_refl); discriminate Hc).
  destruct (S (failedApiCount s) =? TOTAL_APIS)%nat; reflexivity.
Qed.

Lemma arrive_hides (renders : Rendering) l : forall s,
  cachesCoherent s ->
  hasRendered s = false ->
  existsb isHideLoading (logOf (arrive renders l) s)
  = succeeded l
    || ((failedApiCount s <? TOTAL_APIS)%nat
        && (TOTAL_APIS <=? failedApiCount s + failuresAmong l)%nat).
Proof.
  unfold TOTAL_APIS.
  induction l as [| [p data] rest IH]; intros s Hc Hr.
  - change (failuresAmong []) with 0. rewrite Nat.add_0_r.
    cbn [logOf arrive existsb succeeded orb].
    change (logOf (arrive renders []) s) with (@nil Effect). cbn [existsb].
    destruct (Nat.ltb_spec (failedApiCount s) 3);
      destruct (Nat.leb_spec 3 (failedApiCount s)); cbn [andb]; try reflexivity; lia.
  - rewrite logOf_arrive_cons, existsb_app_bool, (handle_hides renders p data s Hc Hr).
    unfold succeeded. cbn [existsb snd].
    assert (Hf : failuresAmong ((p, data) :: rest)
                 = (if truthy data then 0 else 1) + failuresAmong rest).
    { unfold failuresAmong. cbn [filter snd]. destruct (truthy data); reflexivity. }
    rewrite Hf. clear Hf.
    destruct (truthy data) eqn:Ht; [reflexivity |].
    cbn [orb].
    destruct (handle_coherent renders p data s Hc) as [Hc' Hr'].
    rewrite Ht, Hr in Hr'. cbn [orb] in Hr'.
    rewrite (IH _ Hc' Hr'), (exec_handle_failure renders p data s Ht).
    cbn [failedApiCount set_failedApiCount]. unfold TOTAL_APIS.
    fold (succeeded rest).
    generalize (failuresAmong rest) (failedApiCount s). intros f n.
    destruct (succeeded rest); [rewrite orb_true_r; reflexivity |].
    cbn [orb].
    destruct (Nat.eqb_spec (S n) 3); destruct (Nat.ltb_spec (S n) 3);
      destruct (Nat.ltb_spec n 3); destruct (Nat.leb_spec 3 (S n + f));
      destruct (Nat.leb_spec 3 (n + (1 + f)));
      cbn [andb orb]; try reflexivity; lia.
Qed.

(** The loading spinner is hidden as soon as a provider succeeds or the
    third failure arrives, and not before: after any sequence of arrivals
    the spinner has been hidden exactly when one of them succeeded or at
    least three of them failed, whatever the render calls do. So it is
    gone once all three providers have settled, and it is still showing
    while only one or two failures have arrived. *)
Theorem spinner_hidden_when_settled :
  forall (renders : Rendering) (arrivals : list (Provider * JsValue)),
    existsb isHideLoading (logOf (arrive renders arrivals) initialRequest)
    = succeeded arrivals || (TOTAL_APIS <=? failuresAmong arrivals)%nat
    /\ (Permutation (map fst arrivals) [CNPJA; ReceitaWS; MinhaReceita] ->
        existsb isHideLoading (logOf (arrive renders arrivals) initialRequest) = true)
    /\ (succeeded arrivals = false -> length arrivals < TOTAL_APIS ->
        existsb isHideLoading (logOf (arrive renders arrivals) initialRequest) = false).
Proof.
  intros renders arrivals.
  pose proof (arrive_hides renders arrivals initialRequest cachesCoherent_initial eq_refl)
    as H.
  cbn [failedApiCount initialRequest Nat.add] in H.
  change (0 <? TOTAL_APIS)%nat with true in H. cbn [andb] in H.
  split; [exact H |].
  destruct (failuresAmong_succeeded arrivals) as [H0 H1].
  split.
  - intros HP. rewrite H. apply Permutation_length in HP. rewrite length_map in HP.
    destruct (succeeded arrivals); [reflexivity |].
    rewrite (H0 eq_refl), HP. reflexivity.
  - intros Hs Hlen. rewrite H, Hs, (H0 Hs). cbn [orb].
    apply Nat.leb_gt. exact Hlen.
Qed.

(** ** The registrations card *)

Lemma handle_ie_merge (renders : Rendering) p data s cn ms :
  In (UpdateCardWithIEData cn ms) (logOf (handle renders p data) s) ->
  truthy data = true
  /\ ((p = CNPJA /\ truthy (receitaWsDataCache s) = true /\ cn = data
       /\ ms = receitaWsDataCache s ?. "uf")
      \/ (p = ReceitaWS /\ renders ReceitaWS data = true
          /\ cn = cnpjaDataCache s /\ ms = data ?. "uf")).
Proof.
  intros Hin. revert Hin.
  handler_cases p data s; try (destruct (renders _ data) eqn:Hok); intros Hin;
    try (destruct (S (failedApiCount s) =? TOTAL_APIS)%nat);
    simpl in Hin;
    repeat match type of Hin with
           | _ \/ _ => destruct Hin as [Hin | Hin]
           end;
    try discriminate Hin; try contradiction;
    injection Hin as <- <-; (split; [exact Ht |]);
    solve [left; repeat split | right; repeat split].
Qed.

Lemma arrive_ie_merge (renders : Rendering) l : forall s cn ms,
  In (UpdateCardWithIEData cn ms) (logOf (arrive renders l) s) ->
  ((truthy (receitaWsDataCache s) = true /\ ms = receitaWsDataCache s ?. "uf")
   \/ exists d, In (ReceitaWS, d) l /\ truthy d = true /\ ms = d ?. "uf")
  /\ (cn = cnpjaDataCache s
      \/ exists dc, In (CNPJA, dc) l /\ truthy dc = true /\ cn = dc).
Proof.
  induction l as [| [p data] rest IH]; intros s cn ms Hin; [destruct Hin |].
  rewrite logOf_arrive_cons in Hin. apply in_app_or in Hin.
  destruct Hin as [Hin | Hin].
  - destruct (handle_ie_merge renders p data s cn ms Hin)
      as [Ht [(-> & Hw & -> & ->) | (-> & _ & -> & ->)]].
    + split; [left; split; [exact Hw | reflexivity] |].
      right. exists data. split; [left; reflexivity | split; [exact Ht | reflexivity]].
    + split; [| left; reflexivity].
      right. exists data. split; [left; reflexivity | split; [exact Ht | reflexivity]].
  - destruct (IH _ cn ms Hin) as [H1 H2]. split.
    + destruct H1 as [[Hw Hms] | (d & Hd & Htd & Hms)].
      * rewrite receitaWsDataCache_handle in Hw, Hms.
        destruct p; try (left; split; assumption).
        destruct (truthy data) eqn:Ht; [| left; split; assumption].
        right. exists data. split; [left; reflexivity | split; assumption].
      * right. exists d. split; [right; exact Hd | split; assumption].
    + destruct H2 as [Hcn | (dc & Hd & Htd & Hcn)].
      * rewrite cnpjaDataCache_handle in Hcn.
        destruct p; try (left; assumption).
        destruct (truthy data) eqn:Ht; [| left; assumption].
        right. exists data. split; [left; reflexivity | split; assumption].
      * right. exists dc. split; [right; exact Hd | split; assumption].
Qed.

(** The registrations card is only ever filled after ReceitaWS has
    succeeded: every [updateCardWithIEData] call of a request passes the
    [uf] of a ReceitaWS record that arrived truthy, and passes either
    [null] or a CNPJ.A record that arrived truthy. Without a ReceitaWS
    success the call is never made, whatever CNPJ.A brought and whatever
    the render calls do. *)
Theorem registrations_merge_needs_receitaws :
  forall (renders : Rendering) (arrivals : list (Provider * JsValue))
         (cnpjaData mainState : JsValue),
    In (UpdateCardWithIEData cnpjaData mainState)
       (logOf (arrive renders arrivals) initialRequest) ->
    (exists d, In (ReceitaWS, d) arrivals /\ truthy d = true /\ mainState = d ?. "uf")
    /\ (cnpjaData = JNull
        \/ exists dc, In (CNPJA, dc) arrivals /\ truthy dc = true /\ cnpjaData = dc).
Proof.
  intros renders arrivals cn ms Hin.
  destruct (arrive_ie_merge renders arrivals initialRequest cn ms Hin) as [H1 H2].
  split; [| exact H2].
  destruct H1 as [[Hw _] | H]; [discriminate Hw | exact H].
Qed.

Lemma registrations_merge_needs_receitaws_witness :
  In (UpdateCardWithIEData JNull (JStr "SP"))
     (logOf (arrive allReturn [(ReceitaWS, silentRecord)]) initialRequest)
  /\ exists d, In (ReceitaWS, d) [(ReceitaWS, silentRecord)] /\ truthy d = true
               /\ JStr "SP" = d ?. "uf".
Proof.
  assert (Hin : In (UpdateCardWithIEData JNull (JStr "SP"))
                   (logOf (arrive allReturn [(ReceitaWS, silentRecord)]) initialRequest)).
  { cbn. do 4 right. left. reflexivity. }
  split; [exact Hin |].
  exact (proj1 (registrations_merge_needs_receitaws allReturn _ _ _ Hin)).
Defined.

Lemma lastIEMerge_from (l : list Effect) : forall acc,
  fold_left (fun acc e =>
               match e with
               | UpdateCardWithIEData cnpjaData mainState => Some (cnpjaData, mainState)
               | _ => acc
               end) l acc
  = match lastIEMerge l with
    | Some x => Some x
    | None => acc
    end.
Proof.
  unfold lastIEMerge.
  induction l as [| e l IH]; intros acc; [reflexivity |].
  cbn [fold_left]. rewrite IH. symmetry. rewrite IH. symmetry.
  destruct (fold_left _ l None); [reflexivity |]. destruct e; reflexivity.
Qed.

Lemma lastIEMerge_app l1 l2 :
  lastIEMerge (l1 ++ l2)
  = match lastIEMerge l2 with
    | Some x => Some x
    | None => lastIEMerge l1
    end.
Proof.
  unfold lastIEMerge at 1. rewrite fold_left_app.
  fold (lastIEMerge l1). apply lastIEMerge_from.
Qed.

(** One handler call keeps the registrations card in step with the two
    caches, as long as the ReceitaWS record is one that
    [renderCardFromReceitaWS] draws. *)
Lemma handle_ie_in_step (renders : Rendering) p data s last :
  (p = ReceitaWS -> truthy data = true -> renders ReceitaWS data = true) ->
  (truthy (cnpjaDataCache s) = true -> truthy (receitaWsDataCache s) = true ->
   last = Some (cnpjaDataCache s, receitaWsDataCache s ?. "uf")) ->
  let s' := exec (handle renders p data) s in
  let last' := match lastIEMerge (logOf (handle renders p data) s) with
               | Some x => Some x
               | None => last
               end in
  truthy (cnpjaDataCache s') = true -> truthy (receitaWsDataCache s') = true ->
  last' = Some (cnpjaDataCache s', receitaWsDataCache s' ?. "uf").
Proof.
  intros Hok Hinv. cbv zeta.
  handler_cases p data s; project_setters; intros H1 H2;
    try (rewrite (Hok eq_refl Ht));
    try (destruct (renders _ data));
    try (destruct (S (failedApiCount s) =? TOTAL_APIS)%nat);
    cbn [lastIEMerge fold_left app]; try reflexivity;
    try (apply Hinv; solve [assumption | reflexivity]);
    try congruence.
Qed.

Lemma arrive_ie_in_step (renders : Rendering) l : forall s last,
  (forall d, In (ReceitaWS, d) l -> truthy d = true -> renders ReceitaWS d = true) ->
  (truthy (cnpjaDataCache s) = true -> truthy (receitaWsDataCache s) = true ->
   last = Some (cnpjaDataCache s, receitaWsDataCache s ?. "uf")) ->
  let s' := exec (arrive renders l) s in
  let last' := match lastIEMerge (logOf (arrive renders l) s) with
               | Some x => Some x
               | None => last
               end in
  truthy (cnpjaDataCache s') = true -> truthy (receitaWsDataCache s') = true ->
  last' = Some (cnpjaDataCache s', receitaWsDataCache s' ?. "uf").
Proof.
  induction l as [| [p data] rest IH]; intros s last Hok Hinv; cbv zeta.
  - exact Hinv.
  - rewrite logOf_arrive_cons, exec_arrive_cons, lastIEMerge_app.
    assert (Hok1 : p = ReceitaWS -> truthy data = true -> renders ReceitaWS data = true).
    { intros -> Ht. apply Hok; [left; reflexivity | exact Ht]. }
    assert (Hok2 : forall d, In (ReceitaWS, d) rest -> truthy d = true ->
                             renders ReceitaWS d = true).
    { intros d Hd Ht. apply Hok; [right; exact Hd | exact Ht]. }
    pose proof (handle_ie_in_step renders p data s last Hok1 Hinv) as Hstep.
    cbv zeta in Hstep.
    specialize (IH _ _ Hok2 Hstep). cbv zeta in IH.
    intros H1 H2. specialize (IH H1 H2).
    destruct (lastIEMerge (logOf (arrive renders rest) (exec (handle renders p data) s)));
      exact IH.
Qed.

Lemma settles_once {A} (l : list (Provider * A)) p a b :
  NoDup (map fst l) -> In (p, a) l -> In (p, b) l -> a = b.
Proof.
  induction l as [| [q c] rest IH]; intros Hnd Ha Hb; [destruct Ha |].
  cbn [map fst] in Hnd. inversion Hnd as [| x l' Hnotin Hnd']; subst.
  destruct Ha as [Ea | Ha]; destruct Hb as [Eb | Hb].
  - congruence.
  - injection Ea as -> ->. exfalso. apply Hnotin.
    apply in_map_iff. exists (p, b). split; [reflexivity | exact Hb].
  - injection Eb as -> ->. exfalso. apply Hnotin.
    apply in_map_iff. exists (p, a). split; [reflexivity | exact Ha].
  - exact (IH Hnd' Ha Hb).
Qed.

Lemma cnpjaDataCache_kept (renders : Rendering) l : forall s,
  ~ In CNPJA (map fst l) ->
  cnpjaDataCache (exec (arrive renders l) s) = cnpjaDataCache s.
Proof.
  induction l as [| [p data] rest IH]; intros s Hnot; [reflexivity |].
  rewrite exec_arrive_cons, IH, cnpjaDataCache_handle.
  - destruct p; try reflexivity. exfalso. apply Hnot. left. reflexivity.
  - intros H. apply Hnot. right. exact H.
Qed.

Lemma receitaWsDataCache_kept (renders : Rendering) l : forall s,
  ~ In ReceitaWS (map fst l) ->
  receitaWsDataCache (exec (arrive renders l) s) = receitaWsDataCache s.
Proof.
  induction l as [| [p data] rest IH]; intros s Hnot; [reflexivity |].
  rewrite exec_arrive_cons, IH, receitaWsDataCache_handle.
  - destruct p; try reflexivity. exfalso. apply Hnot. left. reflexivity.
  - intros H. apply Hnot. right. exact H.
Qed.

Lemma cnpjaDataCache_of_request (renders : Rendering) l : forall s d,
  NoDup (map fst l) -> In (CNPJA, d) l -> truthy d = true ->
  cnpjaDataCache (exec (arrive renders l) s) = d.
Proof.
  induction l as [| [p data] rest IH]; intros s d Hnd Hin Ht; [destruct Hin |].
  cbn [map fst] in Hnd. inversion Hnd as [| x l' Hnotin Hnd']; subst.
  rewrite exec_arrive_cons. destruct Hin as [E | Hin].
  - injection E as -> ->.
    rewrite (cnpjaDataCache_kept renders rest _ Hnotin), cnpjaDataCache_handle, Ht. reflexivity.
  - apply IH; assumption.
Qed.

Lemma receitaWsDataCache_of_request (renders : Rendering) l : forall s d,
  NoDup (map fst l) -> In (ReceitaWS, d) l -> truthy d = true ->
  receitaWsDataCache (exec (arrive renders l) s) = d.
Proof.
  induction l as [| [p data] rest IH]; intros s d Hnd Hin Ht; [destruct Hin |].
  cbn [map fst] in Hnd. inversion Hnd as [| x l' Hnotin Hnd']; subst.
  rewrite exec_arrive_cons. destruct Hin as [E | Hin].
  - injection E as -> ->.
    rewrite (receitaWsDataCache_kept renders rest _ Hnotin), receitaWsDataCache_handle, Ht.
    reflexivity.
  - apply IH; assumption.
Qed.

(** When both CNPJ.A and ReceitaWS succeed and the ReceitaWS record is
    one that [renderCardFromReceitaWS] draws, the registrations end up
    merged, whichever of the two settles first and wherever MinhaReceita
    settles: the last [updateCardWithIEData] call of the request passes
    the CNPJ.A record and the [uf] of the ReceitaWS record. *)
Theorem registrations_merged_in_any_order :
  forall (renders : Rendering) (arrivals : list (Provider * JsValue))
         (cnpjaRecord receitaRecord : JsValue),
    NoDup (map fst arrivals) ->
    In (CNPJA, cnpjaRecord) arrivals ->
    In (ReceitaWS, receitaRecord) arrivals ->
    truthy cnpjaRecord = true ->
    truthy receitaRecord = true ->
    renders ReceitaWS receitaRecord = true ->
    lastIEMerge (logOf (arrive renders arrivals) initialRequest)
    = Some (cnpjaRecord, receitaRecord ?. "uf").
Proof.
  intros renders arrivals dc dr Hnd Hc Hr Htc Htr Hok.
  pose proof (arrive_ie_in_step renders arrivals initialRequest None) as H. cbv zeta in H.
  rewrite (cnpjaDataCache_of_request renders arrivals initialRequest dc Hnd Hc Htc),
    (receitaWsDataCache_of_request renders arrivals initialRequest dr Hnd Hr Htr) in H.
  assert (Hoks : forall d, In (ReceitaWS, d) arrivals -> truthy d = true ->
                           renders ReceitaWS d = true).
  { intros d Hd _. rewrite (settles_once arrivals ReceitaWS d dr Hnd Hd Hr). exact Hok. }
  assert (Hinit : truthy (cnpjaDataCache initialRequest) = true ->
                  truthy (receitaWsDataCache initialRequest) = true ->
                  @None (JsValue * JsValue)
                  = Some (cnpjaDataCache initialRequest,
                          receitaWsDataCache initialRequest ?. "uf"))
    by (intros E; discriminate E).
  specialize (H Hoks Hinit Htc Htr).
  destruct (lastIEMerge (logOf (arrive renders arrivals) initialRequest));
    [exact H | discriminate H].
Qed.

Lemma registrations_merged_in_any_order_witness :
  NoDup (map fst [(ReceitaWS, silentRecord); (MinhaReceita, JNull); (CNPJA, simplesRecord)])
  /\ lastIEMerge
       (logOf (arrive allReturn [(ReceitaWS, silentRecord); (MinhaReceita, JNull);
                                 (CNPJA, simplesRecord)]) initialRequest)
     = Some (simplesRecord, JStr "SP").
Proof.
  assert (Hnd : NoDup (map fst [(ReceitaWS, silentRecord); (MinhaReceita, JNull);
                                (CNPJA, simplesRecord)])).
  { cbn. repeat constructor; simpl; intuition discriminate. }
  split; [exact Hnd |].
  apply (registrations_merged_in_any_order allReturn _ simplesRecord silentRecord Hnd).
  - right. right. left. reflexivity.
  - left. reflexivity.
  - reflexivity.
  - reflexivity.
  - reflexivity.
Defined.

(** ** The regime text on screen *)

Lemma one_leb_add a b : (1 <=? a + b)%nat = (1 <=? a)%nat || (1 <=? b)%nat.
Proof. destruct a; [reflexivity |]. reflexivity. Qed.

Ltac bar_step :=
  split; [reflexivity | first [discriminate | intros _; first [reflexivity | assumption]]].

(** One handler call and the tax bar: the bar exists exactly when a card
    has been drawn, and then shows the current consensus. *)
Lemma handle_bar (renders : Rendering) p data s (drawn : bool) bar :
  cachesCoherent s ->
  bar = (if drawn then Some (text (getTaxRegimeInfo (taxRegimeConsensus s))) else None) ->
  (drawn = true -> hasRendered s = true) ->
  (truthy data = false -> (S (failedApiCount s) =? TOTAL_APIS)%nat = true ->
   hasRendered s = false) ->
  let s' := exec (handle renders p data) s in
  let drawn' := drawn || (1 <=? fullRenders (logOf (handle renders p data) s))%nat in
  fold_left taxBarAfter (logOf (handle renders p data) s) bar
  = (if drawn' then Some (text (getTaxRegimeInfo (taxRegimeConsensus s'))) else None)
  /\ (drawn' = true -> hasRendered s' = true).
Proof.
  unfold cachesCoherent, fullRenders. intros Hc -> Hd Hq. cbv zeta.
  handler_cases p data s;
    try (specialize (Hc eq_refl); discriminate Hc).
  - project_setters. specialize (Hq Ht).
    destruct (S (failedApiCount s) =? TOTAL_APIS)%nat.
    + specialize (Hq eq_refl).
      destruct drawn; [specialize (Hd eq_refl); congruence |].
      cbn. split; [reflexivity | discriminate].
    + cbn. rewrite orb_false_r. split; [reflexivity | exact Hd].
  - destruct drawn; cbn; bar_step.
  - destruct drawn; cbn; bar_step.
  - destruct drawn; [specialize (Hd eq_refl); discriminate Hd |].
    destruct (renders CNPJA data); cbn; bar_step.
  - destruct drawn; destruct (renders ReceitaWS data); cbn; bar_step.
  - destruct drawn; destruct (renders ReceitaWS data); cbn; bar_step.
  - destruct drawn; destruct (renders ReceitaWS data); cbn; bar_step.
  - destruct drawn; cbn; bar_step.
  - destruct drawn; cbn; bar_step.
  - destruct drawn; [specialize (Hd eq_refl); discriminate Hd |].
    destruct (renders MinhaReceita data); cbn; bar_step.
Qed.

Lemma failedApiCount_handle (renders : Rendering) p data s :
  failedApiCount (exec (handle renders p data) s)
  = failedApiCount s + (if truthy data then 0 else 1).
Proof.
  destruct (truthy data) eqn:Ht.
  - rewrite (proj1 (handle_success_counts renders p data s Ht)). lia.
  - rewrite (proj1 (handle_failure_counts renders p data s Ht)). lia.
Qed.

Lemma failuresAmong_cons p data rest :
  failuresAmong ((p, data) :: rest) = (if truthy data then 0 else 1) + failuresAmong rest.
Proof. unfold failuresAmong. cbn [filter snd]. destruct (truthy data); reflexivity. Qed.

Lemma noWipe_step (renders : Rendering) p data rest s :
  cachesCoherent s ->
  noWipe s ((p, data) :: rest) ->
  (truthy data = false -> (S (failedApiCount s) =? TOTAL_APIS)%nat = true ->
   hasRendered s = false)
  /\ noWipe (exec (handle renders p data) s) rest.
Proof.
  unfold noWipe. intros Hc Hq. split.
  - intros Ht Hcount. apply Nat.eqb_eq in Hcount.
    destruct Hq as [Hlt | [Hr _]]; [| exact Hr].
    rewrite failuresAmong_cons, Ht in Hlt. lia.
  - destruct (handle_coherent renders p data s Hc) as [_ Hr'].
    destruct Hq as [Hlt | [Hr Hs]].
    + left. rewrite failedApiCount_handle. rewrite failuresAmong_cons in Hlt. lia.
    + unfold succeeded in Hs. cbn [existsb snd] in Hs.
      apply orb_false_iff in Hs. destruct Hs as [Ht Hs].
      right. split; [rewrite Hr', Hr, Ht; reflexivity | exact Hs].
Qed.

Lemma noWipe_request arrivals :
  NoDup (map fst arrivals) -> noWipe initialRequest arrivals.
Proof.
  intros Hnd. unfold noWipe.
  pose proof (providers_nodup_length _ Hnd) as Hlen. rewrite length_map in Hlen.
  destruct (failuresAmong_succeeded arrivals) as [H0 H1].
  destruct (succeeded arrivals) eqn:Hs.
  - left. specialize (H1 eq_refl). unfold TOTAL_APIS.
    change (failedApiCount initialRequest) with 0. lia.
  - right. split; reflexivity.
Qed.

Lemma arrive_bar (renders : Rendering) l : forall s (drawn : bool) bar,
  cachesCoherent s ->
  bar = (if drawn then Some (text (getTaxRegimeInfo (taxRegimeConsensus s))) else None) ->
  (drawn = true -> hasRendered s = true) ->
  noWipe s l ->
  let s' := exec (arrive renders l) s in
  fold_left taxBarAfter (logOf (arrive renders l) s) bar
  = if drawn || (1 <=? fullRenders (logOf (arrive renders l) s))%nat
    then Some (text (getTaxRegimeInfo (taxRegimeConsensus s')))
    else None.
Proof.
  induction l as [| [p data] rest IH]; intros s drawn bar Hc Hb Hd Hq; cbv zeta.
  - change (logOf (arrive renders []) s) with (@nil Effect).
    change (exec (arrive renders []) s) with s.
    cbn [fold_left fullRenders filter length Nat.leb]. rewrite orb_false_r. exact Hb.
  - rewrite logOf_arrive_cons, exec_arrive_cons, fold_left_app, fullRenders_app,
      one_leb_add, orb_assoc.
    destruct (noWipe_step renders p data rest s Hc Hq) as [Hstep Hq'].
    destruct (handle_bar renders p data s drawn bar Hc Hb Hd Hstep) as [B1 B2].
    destruct (handle_coherent renders p data s Hc) as [Hc' _].
    exact (IH _ _ _ Hc' B1 B2 Hq').
Qed.

(** What the tax bar of the page shows at any point of a request, in
    which every provider settles once: nothing while no card has been
    drawn, and from then on the text of the consensus computed from all
    the votes recorded so far, warning sign included, whether or not a
    later render call returns. A vote that arrives after a card was drawn
    always reaches the screen. When the records that arrived are ones the
    render functions draw, a card has been drawn as soon as a provider
    has succeeded. *)
Theorem tax_bar_shows_current_consensus :
  forall (renders : Rendering) (arrivals : list (Provider * JsValue)),
    NoDup (map fst arrivals) ->
    let s := exec (arrive renders arrivals) initialRequest in
    let log := logOf (arrive renders arrivals) initialRequest in
    taxBar log
    = (if (1 <=? fullRenders log)%nat
       then Some (text (getTaxRegimeInfo (taxRegimeConsensus s)))
       else None)
    /\ (drawable renders arrivals = true ->
        taxBar log
        = if succeeded arrivals
          then Some (text (getTaxRegimeInfo (taxRegimeConsensus s)))
          else None).
Proof.
  intros renders arrivals Hnd s log. subst s log.
  pose proof (arrive_bar renders arrivals initialRequest false None
                cachesCoherent_initial eq_refl ltac:(discriminate)
                (noWipe_request arrivals Hnd)) as H.
  cbv zeta in H. cbn [orb] in H. unfold taxBar.
  split; [exact H |].
  intros Hd. rewrite H.
  rewrite (proj2 (arrive_renders_when_blank renders arrivals initialRequest
                    cachesCoherent_initial eq_refl) Hd).
  reflexivity.
Qed.

Lemma tax_bar_shows_current_consensus_witness :
  NoDup (map fst [(MinhaReceita, normalRecord); (CNPJA, simplesRecord)])
  /\ taxBar (logOf (arrive allReturn [(MinhaReceita, normalRecord); (CNPJA, simplesRecord)])
                   initialRequest)
     = Some ("Simples" ++ warningIcon)%string.
Proof.
  assert (Hnd : NoDup (map fst [(MinhaReceita, normalRecord); (CNPJA, simplesRecord)])).
  { cbn. repeat constructor; simpl; intuition discriminate. }
  split; [exact Hnd |].
  exact (proj1 (tax_bar_shows_current_consensus allReturn _ Hnd)).
Defined.

(** ** The card on screen *)

(** One handler call moves the screen as the render decision says. *)
Lemma handle_screen (renders : Rendering) p data s sc :
  cachesCoherent s ->
  (isSome (card sc) = true -> hasRendered s = true) ->
  notice sc = isMinhaReceita (card sc) ->
  (truthy data = false -> (S (failedApiCount s) =? TOTAL_APIS)%nat = true ->
   hasRendered s = false) ->
  let s' := exec (handle renders p data) s in
  let sc' := fold_left screenAfter (logOf (handle renders p data) s) sc in
  (hasRendered s', card sc') = cardAfter renders (hasRendered s, card sc) (p, data)
  /\ notice sc' = isMinhaReceita (card sc').
Proof.
  unfold cachesCoherent. destruct sc as [c n]. cbn [card notice].
  intros Hc Hr Hn Hq. cbv zeta. unfold cardAfter. cbn [fst snd].
  handler_cases p data s; rewrite ?Ht; cbn [andb orb negb isSecondary];
    try (specialize (Hc eq_refl); discriminate Hc);
    try (destruct (renders _ data));
    repeat match goal with
           | H : hasRendered s = _ |- _ => rewrite H
           end;
    try (cbn [fold_left screenAfter app card notice]; split; [reflexivity | assumption]);
    try (cbn [fold_left screenAfter app card notice]; split; reflexivity).
  project_setters. specialize (Hq Ht).
  destruct (S (failedApiCount s) =? TOTAL_APIS)%nat.
  - specialize (Hq eq_refl). cbn [fold_left screenAfter card notice].
    destruct c; [specialize (Hr eq_refl); congruence |].
    split; [rewrite Hq; reflexivity | reflexivity].
  - cbn [fold_left screenAfter card notice]. split; [reflexivity | assumption].
Qed.

Lemma arrive_screen (renders : Rendering) l : forall s sc,
  cachesCoherent s ->
  (isSome (card sc) = true -> hasRendered s = true) ->
  notice sc = isMinhaReceita (card sc) ->
  noWipe s l ->
  let sc' := fold_left screenAfter (logOf (arrive renders l) s) sc in
  card sc' = snd (fold_left (cardAfter renders) l (hasRendered s, card sc))
  /\ notice sc' = isMinhaReceita (card sc').
Proof.
  induction l as [| [p data] rest IH]; intros s sc Hc Hr Hn Hq; cbv zeta.
  - split; [reflexivity | exact Hn].
  - rewrite logOf_arrive_cons, fold_left_app.
    destruct (noWipe_step renders p data rest s Hc Hq) as [Hstep Hq'].
    destruct (handle_screen renders p data s sc Hc Hr Hn Hstep) as [S1 S3].
    cbv zeta in S1, S3.
    destruct (handle_coherent renders p data s Hc) as [Hc' Hr'].
    assert (S2 : isSome (card (fold_left screenAfter (logOf (handle renders p data) s) sc))
                 = true -> hasRendered (exec (handle renders p data) s) = true).
    { intros Hcard.
      assert (E1 : hasRendered (exec (handle renders p data) s)
                   = fst (cardAfter renders (hasRendered s, card sc) (p, data)))
        by (rewrite <- S1; reflexivity).
      assert (E2 : card (fold_left screenAfter (logOf (handle renders p data) s) sc)
                   = snd (cardAfter renders (hasRendered s, card sc) (p, data)))
        by (rewrite <- S1; reflexivity).
      rewrite E1. rewrite E2 in Hcard. revert Hcard.
      unfold cardAfter. cbn [fst snd].
      destruct (truthy data && (negb (isSecondary p) || negb (hasRendered s)));
        cbn [fst snd]; [reflexivity | exact Hr]. }
    destruct (IH _ _ Hc' S2 S3 Hq') as [I1 I2]. cbv zeta in I1, I2.
    split; [| exact I2].
    rewrite I1, S1. reflexivity.
Qed.

Lemma screen_of_request (renders : Rendering) arrivals :
  NoDup (map fst arrivals) ->
  screenOf (logOf (arrive renders arrivals) initialRequest)
  = mkScreen (expectedCard renders arrivals)
             (isMinhaReceita (expectedCard renders arrivals)).
Proof.
  intros Hnd.
  destruct (arrive_screen renders arrivals initialRequest (mkScreen None false)
              cachesCoherent_initial ltac:(discriminate) eq_refl
              (noWipe_request arrivals Hnd)) as [S1 S2].
  cbv zeta in S1, S2. unfold screenOf, expectedCard.
  destruct (fold_left screenAfter (logOf (arrive renders arrivals) initialRequest)
              (mkScreen None false)) as [c n].
  cbn [card notice hasRendered initialRequest] in S1, S2. subst c n. reflexivity.
Qed.

Lemma cardAfter_attempted_stays (renders : Rendering) l : forall current,
  ~ In ReceitaWS (map fst l) ->
  fold_left (cardAfter renders) l (true, current) = (true, current).
Proof.
  induction l as [| [p data] rest IH]; intros current Hnot; [reflexivity |].
  cbn [fold_left].
  assert (E : cardAfter renders (true, current) (p, data) = (true, current)).
  { unfold cardAfter. cbn [fst snd]. destruct p.
    - cbn. rewrite andb_false_r. reflexivity.
    - exfalso. apply Hnot. left. reflexivity.
    - cbn. rewrite andb_false_r. reflexivity. }
  rewrite E. apply IH. intros H. apply Hnot. right. exact H.
Qed.

Lemma expectedCard_receitaws (renders : Rendering) l : forall st data,
  NoDup (map fst l) -> In (ReceitaWS, data) l -> truthy data = true ->
  renders ReceitaWS data = true ->
  snd (fold_left (cardAfter renders) l st) = Some ReceitaWS.
Proof.
  induction l as [| [p d] rest IH]; intros st data Hnd Hin Ht Hok; [destruct Hin |].
  cbn [map fst] in Hnd. inversion Hnd as [| x l' Hnotin Hnd']; subst.
  cbn [fold_left]. destruct Hin as [E | Hin].
  - injection E as -> ->.
    assert (E : cardAfter renders st (ReceitaWS, data) = (true, Some ReceitaWS)).
    { unfold cardAfter. cbn [fst snd isSecondary negb orb]. rewrite Ht, Hok. reflexivity. }
    rewrite E, (cardAfter_attempted_stays renders rest _ Hnotin). reflexivity.
  - exact (IH _ data Hnd' Hin Ht Hok).
Qed.

Lemma expectedCard_no_receitaws (renders : Rendering) l : forall attempted current,
  (forall data, In (ReceitaWS, data) l -> truthy data = true ->
                renders ReceitaWS data = false) ->
  (attempted = false -> current = None) ->
  snd (fold_left (cardAfter renders) l (attempted, current))
  = if attempted then current
    else match find (fun a => truthy (snd a)) l with
         | Some a => if renders (fst a) (snd a) then Some (fst a) else None
         | None => None
         end.
Proof.
  induction l as [| [p d] rest IH]; intros attempted current Hno Hcur.
  - destruct attempted; [reflexivity |]. exact (Hcur eq_refl).
  - cbn [fold_left find snd fst].
    assert (Hno' : forall data, In (ReceitaWS, data) rest -> truthy data = true ->
                                renders ReceitaWS data = false).
    { intros data H. apply Hno. right. exact H. }
    unfold cardAfter at 2. cbn [fst snd].
    destruct (truthy d) eqn:Ht; cbn [andb].
    + destruct attempted.
      * destruct p; cbn [isSecondary negb orb].
        -- rewrite (IH true current Hno' ltac:(discriminate)). reflexivity.
        -- rewrite (Hno d (or_introl eq_refl) Ht).
           rewrite (IH true current Hno' ltac:(discriminate)). reflexivity.
        -- rewrite (IH true current Hno' ltac:(discriminate)). reflexivity.
      * rewrite (Hcur eq_refl). rewrite orb_true_r.
        rewrite (IH true _ Hno' ltac:(discriminate)). reflexivity.
    + rewrite (IH attempted current Hno' Hcur). reflexivity.
Qed.

(** Which card a request leaves on screen, every provider settling
    once, at any point of the request and in any order. The screen
    follows the one-line render decision: a ReceitaWS success always
    attempts a render, a secondary success only when none was attempted
    before, and an attempt changes the screen when the render call
    returns. So the card is ReceitaWS's as soon as ReceitaWS has
    succeeded with a record that [renderCardFromReceitaWS] draws. When
    ReceitaWS has drawn nothing, the only card there can be is that of
    the first provider that succeeded, and it is there exactly when its
    render call returned. The preliminary-data notice is displayed
    exactly when the card on screen is MinhaReceita's. *)
Theorem screen_shows_expected_card :
  forall (renders : Rendering) (arrivals : list (Provider * JsValue)),
    NoDup (map fst arrivals) ->
    screenOf (logOf (arrive renders arrivals) initialRequest)
    = mkScreen (expectedCard renders arrivals)
               (isMinhaReceita (expectedCard renders arrivals))
    /\ (forall data, In (ReceitaWS, data) arrivals -> truthy data = true ->
        renders ReceitaWS data = true ->
        expectedCard renders arrivals = Some ReceitaWS)
    /\ ((forall data, In (ReceitaWS, data) arrivals -> truthy data = true ->
         renders ReceitaWS data = false) ->
        expectedCard renders arrivals
        = match find (fun a => truthy (snd a)) arrivals with
          | Some a => if renders (fst a) (snd a) then Some (fst a) else None
          | None => None
          end).
Proof.
  intros renders arrivals Hnd.
  split; [exact (screen_of_request renders arrivals Hnd) |].
  split.
  - intros data Hin Ht Hok.
    exact (expectedCard_receitaws renders arrivals _ data Hnd Hin Ht Hok).
  - intros Hno. exact (expectedCard_no_receitaws renders arrivals false None Hno
                         ltac:(reflexivity)).
Qed.

Lemma screen_shows_expected_card_witness :
  NoDup (map fst [(MinhaReceita, normalRecord); (ReceitaWS, JNull); (CNPJA, simplesRecord)])
  /\ screenOf (logOf (arrive allReturn [(MinhaReceita, normalRecord); (ReceitaWS, JNull);
                                        (CNPJA, simplesRecord)]) initialRequest)
     = mkScreen (Some MinhaReceita) true.
Proof.
  assert (Hnd : NoDup (map fst [(MinhaReceita, normalRecord); (ReceitaWS, JNull);
                                (CNPJA, simplesRecord)])).
  { cbn. repeat constructor; simpl; intuition discriminate. }
  split; [exact Hnd |].
  exact (proj1 (screen_shows_expected_card allReturn _ Hnd)).
Defined.

(** ** Render calls that throw *)

Lemma arrive_renders_need_a_drawn_record (renders : Rendering) l : forall s,
  cachesCoherent s ->
  1 <= fullRenders (logOf (arrive renders l) s) ->
  exists p d, In (p, d) l /\ truthy d = true /\ renders p d = true.
Proof.
  induction l as [| [p data] rest IH]; intros s Hc Hn.
  - cbn in Hn. lia.
  - rewrite logOf_arrive_cons, fullRenders_app, (handle_renders renders p data s Hc) in Hn.
    destruct (truthy data) eqn:Ht; destruct (renders p data) eqn:Hok; cbn [andb] in Hn;
      try (exists p, data; split; [left; reflexivity | split; assumption]).
    all: destruct (handle_coherent renders p data s Hc) as [Hc' _];
      destruct (IH _ Hc' Hn) as (q & d & Hin & Hd & Hq);
      exists q, d; split; [right; exact Hin | split; assumption].
Qed.

(** A request in which every render call throws shows nothing. Every
    provider settling once, if none of the records that arrived is one
    its render function draws, then no card is drawn, no card, notice or
    tax bar is on screen, and yet, as soon as one provider has succeeded,
    the spinner is hidden and the all-sources-failed message is never
    shown: the results stay empty. *)
Theorem failed_renders_leave_the_results_empty :
  forall (renders : Rendering) (arrivals : list (Provider * JsValue)),
    NoDup (map fst arrivals) ->
    (forall p d, In (p, d) arrivals -> truthy d = true -> renders p d = false) ->
    let log := logOf (arrive renders arrivals) initialRequest in
    fullRenders log = 0
    /\ screenOf log = mkScreen None false
    /\ taxBar log = None
    /\ (succeeded arrivals = true ->
        existsb isHideLoading log = true /\ allFailedSignals log = 0).
Proof.
  intros renders arrivals Hnd Hthrow log. subst log.
  assert (H0 : fullRenders (logOf (arrive renders arrivals) initialRequest) = 0).
  { destruct (fullRenders (logOf (arrive renders arrivals) initialRequest)) as [| n] eqn:E;
      [reflexivity |].
    destruct (arrive_renders_need_a_drawn_record renders arrivals initialRequest
                cachesCoherent_initial ltac:(rewrite E; lia)) as (p & d & Hin & Ht & Hok).
    rewrite (Hthrow p d Hin Ht) in Hok. discriminate Hok. }
  split; [exact H0 |]. split.
  { rewrite (screen_of_request renders arrivals Hnd). unfold expectedCard.
    rewrite (expectedCard_no_receitaws renders arrivals false None
               (fun data => Hthrow ReceitaWS data) ltac:(reflexivity)).
    destruct (find (fun a => truthy (snd a)) arrivals) as [[p d] |] eqn:Hf;
      [| reflexivity].
    apply find_some in Hf. destruct Hf as [Hin Ht]. cbn [fst snd] in *.
    rewrite (Hthrow p d Hin Ht). reflexivity. }
  split.
  { unfold taxBar.
    rewrite (arrive_bar renders arrivals initialRequest false None
               cachesCoherent_initial eq_refl ltac:(discriminate)
               (noWipe_request arrivals Hnd)).
    rewrite H0. reflexivity. }
  intros Hs. split.
  - rewrite (arrive_hides renders arrivals initialRequest cachesCoherent_initial eq_refl),
      Hs.
    reflexivity.
  - rewrite (signals_of_request renders arrivals Hnd), Hs. reflexivity.
Qed.

Lemma failed_renders_leave_the_results_empty_witness :
  NoDup (map fst [(CNPJA, JNull); (ReceitaWS, numericCnpjRecord); (MinhaReceita, JNull)])
  /\ succeeded [(CNPJA, JNull); (ReceitaWS, numericCnpjRecord); (MinhaReceita, JNull)]
     = true
  /\ screenOf (logOf (arrive (draws allReturn)
                             [(CNPJA, JNull); (ReceitaWS, numericCnpjRecord);
                              (MinhaReceita, JNull)]) initialRequest)
     = mkScreen None false
  /\ allFailedSignals
       (logOf (arrive (draws allReturn)
                      [(CNPJA, JNull); (ReceitaWS, numericCnpjRecord);
                       (MinhaReceita, JNull)]) initialRequest) = 0.
Proof.
  assert (Hnd : NoDup (map fst [(CNPJA, JNull); (ReceitaWS, numericCnpjRecord);
                                (MinhaReceita, JNull)])).
  { cbn. repeat constructor; simpl; intuition discriminate. }
  assert (Hthrow : forall p d,
             In (p, d) [(CNPJA, JNull); (ReceitaWS, numericCnpjRecord);
                        (MinhaReceita, JNull)] ->
             truthy d = true -> draws allReturn p d = false).
  { intros p d [E | [E | [E | []]]] Ht; injection E as <- <-;
      [discriminate Ht | reflexivity | discriminate Ht]. }
  split; [exact Hnd |]. split; [reflexivity |].
  split.
  - exact (proj1 (proj2 (failed_renders_leave_the_results_empty
                           (draws allReturn) _ Hnd Hthrow))).
  - exact (proj2 (proj2 (proj2 (proj2 (failed_renders_leave_the_results_empty
                                         (draws allReturn) _ Hnd Hthrow)))
                    eq_refl)).
Defined.

(** ** Agreement and disagreement *)

Lemma unanimous_pick r (regimes : list string) :
  Forall (eq r) regimes -> regimes <> [] -> In r labels ->
  priorityPick regimes = r.
Proof.
  intros Hall Hne Hlab.
  destruct regimes as [| x l]; [contradiction |].
  assert (Hin : In r (x :: l)).
  { inversion Hall; subst. left. reflexivity. }
  destruct (priorityPick_highest (x :: l) r Hin Hlab) as [Hc _].
  rewrite Forall_forall in Hall. symmetry. apply Hall. exact Hc.
Qed.

Lemma two_labels_disagree r1 r2 :
  In r1 labels -> In r2 labels -> r1 <> r2 ->
  negb (dissenting (priorityPick [r1; r2]) [r1; r2]
        <? votesFor (priorityPick [r1; r2]) [r1; r2])%nat = true.
Proof.
  unfold labels. simpl In.
  intros [<- | [<- | [<- | [<- | []]]]] [<- | [<- | [<- | [<- | []]]]] Hne;
    try (exfalso; apply Hne; reflexivity); reflexivity.
Qed.

(** What the warning flag means for one, two and many votes. Votes that
    all name the same regime confirm that regime without a warning,
    however many they are, a single vote included. Two votes that name
    different regimes always raise the warning, whichever two regimes
    they are. *)
Theorem unanimity_clears_the_warning :
  forall (s : Request) (votes : list (string * JsValue)),
    votesOf s = [] ->
    (forall r : string,
        votes <> [] ->
        Forall (fun v => getTaxRegimeFromData (snd v) = r) votes ->
        confirmedOf (exec (recordVotes votes) s) = Some r
        /\ needsWarningOf (exec (recordVotes votes) s) = false)
    /\ (forall v1 v2 : string * JsValue,
           votes = [v1; v2] ->
           getTaxRegimeFromData (snd v1) <> getTaxRegimeFromData (snd v2) ->
           needsWarningOf (exec (recordVotes votes) s) = true).
Proof.
  intros s votes Hs. split.
  - intros r Hne Hall.
    set (regimes := map (fun x => getTaxRegimeFromData (snd x)) votes).
    assert (Hreg : Forall (eq r) regimes).
    { subst regimes. apply Forall_forall. intros x Hx. apply in_map_iff in Hx.
      destruct Hx as [v [E Hv]]. rewrite Forall_forall in Hall.
      rewrite <- E. symmetry. apply Hall. exact Hv. }
    assert (Hne' : regimes <> []).
    { subst regimes. destruct votes; [contradiction | discriminate]. }
    assert (Hlab : In r labels).
    { destruct votes as [| v vs]; [contradiction |]. inversion Hall; subst.
      apply getTaxRegimeFromData_label. }
    destruct (consensus_of_votes votes s regimes Hs eq_refl Hne') as [Hc Hw].
    rewrite Hc, Hw, (unanimous_pick r regimes Hreg Hne' Hlab).
    destruct (unanimous_no_dissent r regimes Hreg) as [Hd Hv]. rewrite Hv, Hd.
    split; [reflexivity |].
    destruct regimes; [contradiction | reflexivity].
  - intros v1 v2 -> Hdiff.
    destruct (consensus_of_votes [v1; v2] s
                [getTaxRegimeFromData (snd v1); getTaxRegimeFromData (snd v2)]
                Hs eq_refl ltac:(discriminate)) as [_ Hw].
    rewrite Hw.
    apply two_labels_disagree; [apply getTaxRegimeFromData_label ..| exact Hdiff].
Qed.

Lemma unanimity_clears_the_warning_witness :
  votesOf initialRequest = []
  /\ confirmedOf (exec (recordVotes [("CNPJA", normalRecord); ("MinhaReceita", normalRecord);
                                     ("ReceitaWS", normalRecord)]) initialRequest)
     = Some "Normal"
  /\ needsWarningOf (exec (recordVotes [("CNPJA", normalRecord);
                                        ("MinhaReceita", normalRecord);
                                        ("ReceitaWS", normalRecord)]) initialRequest)
     = false.
Proof.
  split; [reflexivity |].
  apply (proj1 (unanimity_clears_the_warning initialRequest _ eq_refl) "Normal").
  - discriminate.
  - repeat constructor.
Defined.

(** ** The request as a whole *)

Lemma fetchTargets_app l1 l2 : fetchTargets (l1 ++ l2) = fetchTargets l1 ++ fetchTargets l2.
Proof. unfold fetchTargets. apply flat_map_app. Qed.

Section RetryLoopTargets.

Variable MAX_RETRIES : nat.
Variable RETRY_DELAY_MS : Z.
Variable target : string.
Variable attemptBody : nat -> FetchOutcome -> option JsValue * list AdapterEvent.
Variable net : Network.

Hypothesis attemptBody_fetches_nothing : forall attempt o,
  fetchTargets (snd (attemptBody attempt o)) = [].

Lemma retryLoop_targets remaining : forall attempt,
  Forall (eq target)
         (fetchTargets (snd (retryLoop MAX_RETRIES RETRY_DELAY_MS target attemptBody net
                                       remaining attempt))).
Proof.
  induction remaining as [| n IH]; intros attempt.
  - cbn. constructor.
  - cbn [retryLoop].
    pose proof (attemptBody_fetches_nothing attempt (net attempt)) as Hq.
    destruct (attemptBody attempt (net attempt)) as [[result |] l0]; cbn [snd] in *.
    + change (fetchTargets (AFetch true target :: l0)) with (target :: fetchTargets l0).
      rewrite Hq. repeat constructor.
    + specialize (IH (S attempt)).
      destruct (retryLoop MAX_RETRIES RETRY_DELAY_MS target attemptBody net n (S attempt))
        as [v rest].
      cbn [snd] in *.
      change (fetchTargets (AFetch true target :: ?l)) with (target :: fetchTargets l).
      rewrite !fetchTargets_app, Hq. constructor; [reflexivity |].
      destruct (attempt <? MAX_RETRIES)%nat; exact IH.
Qed.

End RetryLoopTargets.

Lemma receitaWsAttempt_fetches_nothing attempt o :
  fetchTargets (snd (receitaWsAttempt attempt o)) = [].
Proof.
  destruct (receitaWsAttempt_cases attempt o) as [[v E] | [E | E]]; rewrite E; reflexivity.
Qed.

Lemma minhaReceitaAttempt_fetches_nothing attempt o :
  fetchTargets (snd (minhaReceitaAttempt attempt o)) = [].
Proof.
  destruct (minhaReceitaAttempt_cases attempt o) as [[v E] | [E | E]]; rewrite E;
    reflexivity.
Qed.

Lemma adapter_targets p cnpj net :
  Forall (eq (endpoint p ++ limparCNPJ cnpj)%string)
         (fetchTargets (snd (adapter p (limparCNPJ cnpj) net))).
Proof.
  destruct p; cbn [adapter endpoint].
  - unfold consultarCNPJA_API. destruct (net 1) as [| response]; [repeat constructor |].
    destruct (ok response); [| repeat constructor].
    destruct (body response); repeat constructor.
  - apply retryLoop_targets, receitaWsAttempt_fetches_nothing.
  - unfold consultarMinhaReceitaAPI. rewrite limparCNPJ_idempotent.
    apply retryLoop_targets, minhaReceitaAttempt_fetches_nothing.
Qed.

Lemma limparCNPJ_empty cnpj : limparCNPJ cnpj = "" <-> digitsOf cnpj = [].
Proof.
  pose proof (limparCNPJ_length cnpj) as H. split; intros E.
  - rewrite E in H. cbn in H. destruct (digitsOf cnpj); [reflexivity | discriminate H].
  - rewrite E in H. cbn in H. destruct (limparCNPJ cnpj); [reflexivity | discriminate H].
Qed.

Lemma validarCNPJ_needs_digits cnpj : validarCNPJ cnpj = true -> limparCNPJ cnpj <> "".
Proof.
  intros Hv E. rewrite validarCNPJ_refines_spec in Hv.
  apply specValidate_true in Hv. destruct Hv as [Hlen _].
  apply limparCNPJ_empty in E. rewrite E in Hlen. discriminate Hlen.
Qed.

Lemma consultarCNPJ_gate cnpjInput :
  (limparCNPJ cnpjInput =? "") || negb (validarCNPJ (limparCNPJ cnpjInput))
  = negb (validarCNPJ cnpjInput).
Proof.
  rewrite validarCNPJ_limparCNPJ.
  destruct (validarCNPJ cnpjInput) eqn:Hv; [| apply orb_true_r].
  cbn [negb]. rewrite orb_false_r. apply String.eqb_neq.
  apply validarCNPJ_needs_digits, Hv.
Qed.

(** Nothing is fetched for an identifier that does not validate.
    [consultarCNPJ] clears the results first; then, for an input that
    fails [validarCNPJ], it shows one message, the please-type one when
    the input holds no digit and the invalid-identifier one otherwise,
    launches no adapter and runs no handler; for an input that validates
    it opens the results, shows the spinner, folds the top section and
    launches the three adapters, CNPJ.A first. *)
Theorem consultarCNPJ_validation_gate :
  forall (cnpjInput : string) (nets : Provider -> Network) (renders : Rendering)
         (order : list Provider),
    let c := consultarCNPJ cnpjInput nets renders order in
    (validarCNPJ cnpjInput = false ->
     launched c = [] /\ handled c = []
     /\ page c = [ClearResults;
                  ShowError match digitsOf cnpjInput with
                            | [] => "Por favor, digite um CNPJ."
                            | _ :: _ => "CNPJ inv√°lido! Verifique os n√∫meros digitados."
                            end])
    /\ (validarCNPJ cnpjInput = true ->
        page c = [ClearResults; ShowResultsSection; ShowLoading; FoldTopSection]
        /\ map fst (launched c) = [CNPJA; ReceitaWS; MinhaReceita]
        /\ handled c
           = logOf (arrive renders (settled (limparCNPJ cnpjInput) nets order))
                   initialRequest)
    /\ (launched c = [] <-> validarCNPJ cnpjInput = false).
Proof.
  intros cnpjInput nets renders order c. subst c. unfold consultarCNPJ. cbv zeta.
  rewrite consultarCNPJ_gate.
  destruct (validarCNPJ cnpjInput) eqn:Hv; cbn [negb page launched handled].
  - split; [discriminate |]. split; [intros _; repeat split |].
    split; [discriminate | discriminate].
  - split.
    + intros _. split; [reflexivity |]. split; [reflexivity |].
      destruct (String.eqb_spec (limparCNPJ cnpjInput) "") as [E | E].
      * apply limparCNPJ_empty in E. rewrite E. reflexivity.
      * destruct (digitsOf cnpjInput) eqn:Hd; [| reflexivity].
        exfalso. apply E. apply limparCNPJ_empty. exact Hd.
    + split; [discriminate |]. split; reflexivity.
Qed.

Lemma consultarCNPJ_validation_gate_witness :
  validarCNPJ "11.222.333/0001-82" = false
  /\ launched (consultarCNPJ "11.222.333/0001-82" (fun _ => offline) allReturn
                 [CNPJA; ReceitaWS; MinhaReceita]) = [].
Proof.
  split; [reflexivity |].
  exact (proj1 (proj1 (consultarCNPJ_validation_gate "11.222.333/0001-82"
                         (fun _ => offline) allReturn
                         [CNPJA; ReceitaWS; MinhaReceita])
                      eq_refl)).
Defined.

Lemma digit_strings_equal a : forall b,
  allChars isDigit a = true -> allChars isDigit b = true ->
  digitsOf a = digitsOf b -> a = b.
Proof.
  induction a as [| x a IH]; intros b Ha Hb E.
  - destruct b as [| y b]; [reflexivity |].
    cbn [allChars] in Hb. apply andb_true_iff in Hb. destruct Hb as [Hy _].
    cbn [digitsOf] in E. rewrite Hy in E. discriminate E.
  - cbn [allChars] in Ha. apply andb_true_iff in Ha. destruct Ha as [Hx Ha].
    destruct b as [| y b].
    + cbn [digitsOf] in E. rewrite Hx in E. discriminate E.
    + cbn [allChars] in Hb. apply andb_true_iff in Hb. destruct Hb as [Hy Hb].
      cbn [digitsOf] in E. rewrite Hx, Hy in E. injection E as Exy E.
      assert (Hxy : Ascii.eqb x y = true).
      { rewrite digitValue_eqb. apply Z.eqb_eq. exact Exy. }
      apply Ascii.eqb_eq in Hxy. subst y. f_equal. exact (IH b Ha Hb E).
Qed.

Lemma limparCNPJ_of_digits a b : digitsOf a = digitsOf b -> limparCNPJ a = limparCNPJ b.
Proof.
  intros E. apply digit_strings_equal; try apply limparCNPJ_digits.
  rewrite !digitsOf_limparCNPJ. exact E.
Qed.

(** A request depends on the digits typed and on nothing else. For an
    input that validates, every address an adapter requests, directly
    for CNPJ.A and through the proxy for the other two, is its endpoint
    followed by the fourteen digits of the input, with no punctuation;
    and the whole request, page actions, adapter traces and
    handler effects, is the same for the masked text that the input
    listener writes back and for any other input with the same digits,
    the networks and the render functions behaving alike. *)
Theorem consultarCNPJ_uses_the_digits_only :
  forall (cnpjInput : string) (nets : Provider -> Network) (renders : Rendering)
         (order : list Provider),
    let c := consultarCNPJ cnpjInput nets renders order in
    (validarCNPJ cnpjInput = true ->
     String.length (limparCNPJ cnpjInput) = 14
     /\ forall (p : Provider) (trace : list AdapterEvent) (t : string),
          In (p, trace) (launched c) ->
          In t (fetchTargets trace) ->
          t = (endpoint p ++ limparCNPJ cnpjInput)%string)
    /\ consultarCNPJ (formatarCNPJ cnpjInput) nets renders order = c
    /\ (forall other : string,
           digitsOf other = digitsOf cnpjInput ->
           consultarCNPJ other nets renders order = c).
Proof.
  intros cnpjInput nets renders order c. subst c.
  assert (Hsame : forall other, limparCNPJ other = limparCNPJ cnpjInput ->
                                consultarCNPJ other nets renders order
                                = consultarCNPJ cnpjInput nets renders order).
  { intros other E. unfold consultarCNPJ. rewrite E. reflexivity. }
  split.
  - intros Hv. split.
    + rewrite limparCNPJ_length. rewrite validarCNPJ_refines_spec in Hv.
      apply specValidate_true in Hv. apply Hv.
    + intros p trace t Hin Ht. unfold consultarCNPJ in Hin. cbv zeta in Hin.
      rewrite consultarCNPJ_gate, Hv in Hin. cbn [negb launched] in Hin.
      destruct Hin as [E | [E | [E | []]]]; injection E as <- <-;
        [pose proof (adapter_targets CNPJA cnpjInput (nets CNPJA)) as H
        | pose proof (adapter_targets ReceitaWS cnpjInput (nets ReceitaWS)) as H
        | pose proof (adapter_targets MinhaReceita cnpjInput (nets MinhaReceita)) as H];
        rewrite Forall_forall in H; symmetry; apply H; exact Ht.
  - split.
    + apply Hsame, limparCNPJ_formatarCNPJ.
    + intros other E. apply Hsame, limparCNPJ_of_digits, E.
Qed.

Lemma consultarCNPJ_uses_the_digits_only_witness :
  validarCNPJ "11.222.333/0001-81" = true
  /\ String.length (limparCNPJ "11.222.333/0001-81") = 14
  /\ digitsOf "11 222 333 0001 81" = digitsOf "11.222.333/0001-81"
  /\ consultarCNPJ "11 222 333 0001 81" (fun _ => offline) allReturn
                   [ReceitaWS; CNPJA; MinhaReceita]
     = consultarCNPJ "11.222.333/0001-81" (fun _ => offline) allReturn
                     [ReceitaWS; CNPJA; MinhaReceita].
Proof.
  split; [reflexivity |].
  split.
  { exact (proj1 (proj1 (consultarCNPJ_uses_the_digits_only "11.222.333/0001-81"
                           (fun _ => offline) allReturn
                           [ReceitaWS; CNPJA; MinhaReceita])
                        eq_refl)). }
  split; [reflexivity |].
  exact (proj2 (proj2 (consultarCNPJ_uses_the_digits_only "11.222.333/0001-81"
                         (fun _ => offline) allReturn
                         [ReceitaWS; CNPJA; MinhaReceita]))
           "11 222 333 0001 81" eq_refl).
Defined.

Lemma settled_providers cnpjLimpo nets order :
  map fst (settled cnpjLimpo nets order) = order.
Proof.
  unfold settled. rewrite map_map. cbn [fst]. apply map_id.
Qed.

Lemma settled_succeeded cnpjLimpo nets order :
  succeeded (settled cnpjLimpo nets order)
  = existsb (fun p => truthy (fst (adapter p cnpjLimpo (nets p)))) order.
Proof.
  unfold succeeded, settled. induction order as [| p order IH]; [reflexivity |].
  cbn [map existsb snd]. rewrite IH. reflexivity.
Qed.

Lemma settled_In cnpjLimpo nets order p data :
  In (p, data) (settled cnpjLimpo nets order)
  <-> In p order /\ data = fst (adapter p cnpjLimpo (nets p)).
Proof.
  unfold settled. rewrite in_map_iff. split.
  - intros [q [E Hq]]. injection E as <- <-. split; [exact Hq | reflexivity].
  - intros [Hp ->]. exists p. split; [reflexivity | exact Hp].
Qed.

Lemma existsb_permutation {A} (f : A -> bool) l l' :
  Permutation l l' -> existsb f l = existsb f l'.
Proof.
  induction 1 as [| x l l' _ IH | x y l | l l' l'' _ IH1 _ IH2]; cbn [existsb].
  - reflexivity.
  - rewrite IH. reflexivity.
  - destruct (f x), (f y); reflexivity.
  - rewrite IH1. exact IH2.
Qed.

Lemma find_none_of_failures (l : list (Provider * JsValue)) :
  succeeded l = false -> find (fun a => truthy (snd a)) l = None.
Proof.
  unfold succeeded. induction l as [| a l IH]; [reflexivity |].
  cbn [existsb find]. destruct (truthy (snd a)); [discriminate | exact IH].
Qed.

Lemma find_some_of_success (l : list (Provider * JsValue)) :
  succeeded l = true ->
  exists a, find (fun a => truthy (snd a)) l = Some a /\ In a l /\ truthy (snd a) = true.
Proof.
  unfold succeeded. induction l as [| a l IH]; [discriminate |].
  cbn [existsb find]. destruct (truthy (snd a)) eqn:Ha.
  - intros _. exists a. split; [reflexivity |]. split; [left; reflexivity | exact Ha].
  - intros H. destruct (IH H) as [b [Hf [Hin Hb]]]. exists b.
    split; [exact Hf |]. split; [right; exact Hin | exact Hb].
Qed.

(** A valid request, whatever the order in which the three adapters
    settle and whatever the render calls do: the spinner is always hidden
    in the end; the all-sources-failed message is shown exactly when none
    of the three adapters delivered a record, and then no card is drawn
    and none is on screen; a card is drawn only if one did. When
    ReceitaWS delivered a record that [renderCardFromReceitaWS] draws, its
    card is the one on screen, without notice. When the records delivered
    are ones the render functions draw, a card is drawn as soon as an
    adapter delivered; and if only secondary sources delivered, the card
    on screen is from one of them, with the notice exactly for Minha
    Receita. *)
Theorem consultarCNPJ_outcome_in_any_order :
  forall (cnpjInput : string) (nets : Provider -> Network) (renders : Rendering)
         (order : list Provider),
    validarCNPJ cnpjInput = true ->
    Permutation [CNPJA; ReceitaWS; MinhaReceita] order ->
    let c := consultarCNPJ cnpjInput nets renders order in
    let delivered p := fst (adapter p (limparCNPJ cnpjInput) (nets p)) in
    let some := truthy (delivered CNPJA) || truthy (delivered ReceitaWS)
                || truthy (delivered MinhaReceita) in
    let allDrawn := forall p, truthy (delivered p) = true ->
                              renders p (delivered p) = true in
    existsb isHideLoading (handled c) = true
    /\ allFailedSignals (handled c) = (if some then 0 else 1)
    /\ (1 <= fullRenders (handled c) -> some = true)
    /\ (some = false -> screenOf (handled c) = mkScreen None false)
    /\ (truthy (delivered ReceitaWS) = true ->
        renders ReceitaWS (delivered ReceitaWS) = true ->
        screenOf (handled c) = mkScreen (Some ReceitaWS) false)
    /\ (allDrawn -> (1 <=? fullRenders (handled c))%nat = some)
    /\ (allDrawn -> truthy (delivered ReceitaWS) = false -> some = true ->
        exists p, p <> ReceitaWS /\ truthy (delivered p) = true
                  /\ screenOf (handled c)
                     = mkScreen (Some p) (isMinhaReceita (Some p))).
Proof.
  intros cnpjInput nets renders order Hv Hperm c delivered some allDrawn.
  set (arrivals := settled (limparCNPJ cnpjInput) nets order).
  assert (Hc : handled c = logOf (arrive renders arrivals) initialRequest).
  { subst c. unfold consultarCNPJ. cbv zeta. rewrite consultarCNPJ_gate, Hv.
    reflexivity. }
  assert (Hnd : NoDup (map fst arrivals)).
  { subst arrivals. rewrite settled_providers.
    apply (Permutation_NoDup Hperm). repeat constructor; cbn; intuition discriminate. }
  assert (Hlen : length arrivals = 3).
  { subst arrivals. unfold settled. rewrite length_map.
    rewrite <- (Permutation_length Hperm). reflexivity. }
  assert (Hs : succeeded arrivals = some).
  { subst arrivals. rewrite settled_succeeded.
    rewrite <- (existsb_permutation _ _ _ Hperm). subst some delivered. cbn [existsb].
    rewrite orb_false_r, orb_assoc. reflexivity. }
  assert (Hdraw : allDrawn -> drawable renders arrivals = true).
  { intros Hall. unfold drawable. apply forallb_forall. intros [p d] Hin.
    subst arrivals. apply settled_In in Hin. destruct Hin as [_ ->]. cbn [fst snd].
    specialize (Hall p). fold (delivered p).
    destruct (truthy (delivered p)); [rewrite (Hall eq_refl) |]; reflexivity. }
  destruct (arrive_renders_when_blank renders arrivals initialRequest
              cachesCoherent_initial eq_refl) as [Honly Hdrawn].
  rewrite Hc.
  split.
  { rewrite (arrive_hides renders arrivals initialRequest cachesCoherent_initial eq_refl).
    destruct (failuresAmong_succeeded arrivals) as [Hf _].
    destruct (succeeded arrivals); [reflexivity |].
    rewrite (Hf eq_refl), Hlen. reflexivity. }
  split.
  { rewrite (signals_of_request renders arrivals Hnd), Hs, Hlen. reflexivity. }
  split.
  { intros Hn. rewrite <- Hs. exact (Honly Hn). }
  assert (Hin : forall p, In (p, delivered p) arrivals).
  { intros p. subst arrivals. apply settled_In. split; [| reflexivity].
    apply (Permutation_in _ Hperm). destruct p; cbn; auto. }
  assert (Hval : forall p d, In (p, d) arrivals -> d = delivered p).
  { intros p d H. subst arrivals. apply settled_In in H. destruct H as [_ ->].
    reflexivity. }
  rewrite (screen_of_request renders arrivals Hnd). unfold expectedCard.
  split.
  { intros Hnone. rewrite <- Hs in Hnone.
    rewrite (expectedCard_no_receitaws renders arrivals false None).
    - rewrite (find_none_of_failures arrivals Hnone). reflexivity.
    - intros data Hd Ht. exfalso. unfold succeeded in Hnone.
      rewrite <- not_true_iff_false in Hnone. apply Hnone.
      apply existsb_exists. exists (ReceitaWS, data). split; [exact Hd | exact Ht].
    - reflexivity. }
  split.
  { intros Hr Hok.
    rewrite (expectedCard_receitaws renders arrivals _ (delivered ReceitaWS) Hnd
               (Hin ReceitaWS) Hr Hok).
    reflexivity. }
  split.
  { intros Hall. rewrite (Hdrawn (Hdraw Hall)). exact Hs. }
  intros Hall Hr Hsome. rewrite <- Hs in Hsome.
  assert (Hno : forall data, In (ReceitaWS, data) arrivals -> truthy data = true ->
                             renders ReceitaWS data = false).
  { intros data Hd Ht. rewrite (Hval _ _ Hd) in Ht. congruence. }
  rewrite (expectedCard_no_receitaws renders arrivals false None Hno ltac:(reflexivity)).
  destruct (find_some_of_success arrivals Hsome) as [[p data] [Hf [Hd Ht]]].
  rewrite Hf. cbn [fst snd]. cbn [snd] in Ht.
  pose proof (Hval _ _ Hd) as E. subst data.
  rewrite (Hall p Ht).
  exists p. split.
  - intros ->. congruence.
  - split; [exact Ht | reflexivity].
Qed.

Lemma consultarCNPJ_outcome_in_any_order_witness :
  validarCNPJ "11.222.333/0001-81" = true
  /\ Permutation [CNPJA; ReceitaWS; MinhaReceita] [MinhaReceita; CNPJA; ReceitaWS]
  /\ allFailedSignals
       (handled (consultarCNPJ "11.222.333/0001-81" (fun _ => offline) allReturn
                               [MinhaReceita; CNPJA; ReceitaWS])) = 1.
Proof.
  assert (P : Permutation [CNPJA; ReceitaWS; MinhaReceita]
                          [MinhaReceita; CNPJA; ReceitaWS]).
  { apply Permutation_sym.
    exact (Permutation_cons_app [CNPJA; ReceitaWS] [] MinhaReceita
             (Permutation_refl [CNPJA; ReceitaWS])). }
  split; [reflexivity |]. split; [exact P |].
  exact (proj1 (proj2 (consultarCNPJ_outcome_in_any_order "11.222.333/0001-81"
                         (fun _ => offline) allReturn [MinhaReceita; CNPJA; ReceitaWS]
                         eq_refl P))).
Defined.
(** ** The regime read from a record *)

Lemma strictEqBool_true v b : strictEqBool v b = true <-> v = JBool b.
Proof.
  destruct v; cbn; try (split; [discriminate | discriminate]).
  split.
  - intros H. apply Bool.eqb_prop in H. subst. reflexivity.
  - intros E. injection E as ->. apply Bool.eqb_reflx.
Qed.

Lemma strictEqBool_false v b : strictEqBool v b = false <-> v <> JBool b.
Proof.
  rewrite <- strictEqBool_true. symmetry. apply not_true_iff_false.
Qed.

Lemma optMember_of_falsy v k : truthy v = false -> v ?. k = JUndefined.
Proof. destruct v; cbn; try reflexivity; discriminate. Qed.

(** The normal regime is read from three fields only. The
    explicit-normal test of [getTaxRegimeFromData] looks for [false] in
    [opcao_pelo_simples], [simples.optant] and [company.simples.optant];
    a record in which none of the three is [false], as a ReceitaWS record
    that spells the field [simples.optante], is never labelled Normal: it
    is labelled SIMEI, Simples or Outros, and Outros exactly when none of
    the six fields of the SIMEI and Simples tests is [true]. *)
Theorem receitaws_shape_is_never_normal :
  forall data : JsValue,
    data ?. "opcao_pelo_simples" <> JBool false ->
    data ?. "simples" ?. "optant" <> JBool false ->
    data ?. "company" ?. "simples" ?. "optant" <> JBool false ->
    getTaxRegimeFromData data <> "Normal"
    /\ (getTaxRegimeFromData data = "Outros"
        <-> data ?. "opcao_pelo_mei" <> JBool true
            /\ data ?. "simei" ?. "optante" <> JBool true
            /\ data ?. "company" ?. "simei" ?. "optant" <> JBool true
            /\ data ?. "opcao_pelo_simples" <> JBool true
            /\ data ?. "simples" ?. "optante" <> JBool true
            /\ data ?. "company" ?. "simples" ?. "optant" <> JBool true).
Proof.
  intros data H1 H2 H3. unfold getTaxRegimeFromData.
  apply strictEqBool_false in H1, H2, H3.
  destruct (truthy data) eqn:Ht; cbn [negb].
  - rewrite H1, H2, H3. cbn [orb].
    rewrite <- !strictEqBool_false.
    destruct (strictEqBool (data ?. "opcao_pelo_mei") true);
      destruct (strictEqBool (data ?. "simei" ?. "optante") true);
      destruct (strictEqBool (data ?. "company" ?. "simei" ?. "optant") true);
      destruct (strictEqBool (data ?. "opcao_pelo_simples") true);
      destruct (strictEqBool (data ?. "simples" ?. "optante") true);
      destruct (strictEqBool (data ?. "company" ?. "simples" ?. "optant") true);
      cbn [orb]; (split; [discriminate |]);
      (split; [try discriminate; intros _; repeat split
              | intros (A & B & C & D & E & F); try discriminate; reflexivity]).
  - split; [discriminate |]. split; [| reflexivity]. intros _.
    rewrite !(optMember_of_falsy data _ Ht).
    change (JUndefined ?. "optante") with JUndefined.
    change (JUndefined ?. "simei") with JUndefined.
    change (JUndefined ?. "simples") with JUndefined.
    change (JUndefined ?. "optant") with JUndefined.
    repeat split; discriminate.
Qed.

Lemma receitaws_shape_is_never_normal_witness :
  getTaxRegimeFromData
    (JObj [("nome", JStr "EMPRESA");
           ("simples", JObj [("optante", JBool false)]);
           ("simei", JObj [("optante", JBool false)])])
  = "Outros".
Proof.
  apply (proj2 (receitaws_shape_is_never_normal
                  (JObj [("nome", JStr "EMPRESA");
                         ("simples", JObj [("optante", JBool false)]);
                         ("simei", JObj [("optante", JBool false)])])
                  ltac:(discriminate) ltac:(discriminate) ltac:(discriminate))).
  repeat split; discriminate.
Defined.
